(** * Fertilizer-Tracker: bill totals, dashboard rollup and CSV exchange

    A shallow embedding of the ledger logic of [app.py]:
    [Bill.calculate_total], the dashboard rollup of [index], [add_bill],
    [export_data] and [import_data], with the properties of the
    specification stated and proved (or refuted) over it; and, after
    these, the other views of [app.py] (the recent activities and the
    season of [index], the legacy [add_fertilizer], [add_bulk_expenses],
    the chat history, [register], [toggle_user_status],
    [admin_dashboard], [init_expense_categories]) and
    [analyze_expenses] of [gemini_farming_assistant.py], with
    properties read off the code.

    Conventions of the embedding.
    - A Python [float] is an IEEE-754 binary64 number: the primitive
      [float] of Rocq.  The code is written over a class [Amount] (the
      [0] and [+] that [sum] and [+=] use): what holds of any
      arithmetic is proved for the class, what depends on rounding for
      binary64.
    - A Python [str] is a [string] holding its UTF-8 bytes.
    - The Python standard library ([float()], [str.strip],
      [datetime.strptime], [strftime], [str(date)], the [.2f] format) is
      not part of the repository: the code takes it from a class
      [PyLib].  An executable instance for binary64 is given further
      down and is used for the concrete runs only.
    - [csv.reader] / [csv.writer] are the boundary: a CSV file is the
      list of its rows, a row the list of its fields.
    - The SQLAlchemy session is explicit state: the durable rows, the
      rows as the open transaction sees them, and a budget of database
      round trips that still succeed (fail-stop faults). *)

From Stdlib Require Import String Ascii List ZArith Arith Bool Lia.
From Stdlib Require Import DecimalString Floats Permutation Sorted.
Import ListNotations.
Local Open Scope string_scope.
Local Open Scope list_scope.
Local Open Scope nat_scope.

Set Implicit Arguments.

(* ================================================================== *)
(** * Numbers *)

(** What the code asks of its amounts: the [0] that [sum] starts from and
    the [+] of [sum] and [+=]. *)
Class Amount (A : Type) := {
  num_zero : A;
  num_add : A -> A -> A
}.

(** [sum(xs)]: a left fold of [+] from [0]. *)
Definition py_sum {A} {AM : Amount A} (l : list A) : A :=
  fold_left num_add l num_zero.

(** Python [float]: binary64. *)
#[export] Instance float_Amount : Amount float := {
  num_zero := PrimFloat.zero;
  num_add := PrimFloat.add
}.

(* ================================================================== *)
(** * Dates and strings *)

(** [datetime.date] *)
Record date := mkdate { year : nat; month : nat; day : nat }.

Definition date_ltb (a b : date) : bool :=
  (year a <? year b)
  || ((year a =? year b)
      && ((month a <? month b)
          || ((month a =? month b) && (day a <? day b)))).

(** [str(n)] for a non-negative [int]. *)
Definition str_of_nat (n : nat) : string :=
  NilZero.string_of_uint (Nat.to_uint n).

(** [s.replace(old, '')] for a non-empty [old]: the occurrences of [old]
    are removed from left to right, without overlap.  [skip] counts the
    bytes of a matched occurrence still to be dropped. *)
Fixpoint remove_from (old : string) (skip : nat) (s : string) : string :=
  match s with
  | EmptyString => EmptyString
  | String c rest =>
      match skip with
      | S k => remove_from old k rest
      | O =>
          if String.prefix old s
          then remove_from old (String.length old - 1) rest
          else String c (remove_from old 0 rest)
      end
  end.

Definition str_remove (old s : string) : string :=
  match old with
  | EmptyString => s
  | _ => remove_from old 0 s
  end.

(** The rupee sign U+20B9 in UTF-8. *)
Definition rupee : string :=
  String (ascii_of_nat 226) (String (ascii_of_nat 130) (String (ascii_of_nat 185) "")).

(** The Python standard library as the code calls it. *)
Class PyLib (A : Type) := {
  (** [s.strip()] *)
  strip : string -> string;
  (** [float(s)]; [None] when it raises [ValueError] *)
  float_of_str : string -> option A;
  (** the text of that [ValueError] *)
  float_error : string -> string;
  (** [datetime.strptime(s, '%Y-%m-%d').date()]; [None] on [ValueError] *)
  strptime_ymd : string -> option date;
  (** [datetime.now().date()] *)
  today : date;
  (** [str(d)] *)
  date_str : date -> string;
  (** [d.strftime('%Y-%m-%d')] *)
  strftime_ymd : date -> string;
  (** [f'{x:.2f}'] *)
  format_2f : A -> string
}.

(* ================================================================== *)
(** * Data model *)

Module Fertilizer.
Record t (A : Type) := mk {
  name : string;
  price : A;
  category : string;
  bill_id : option nat
}.
End Fertilizer.

Module Bill.
Record t (A : Type) := mk {
  id : nat;
  bill_number : option string;
  purchase_date : date;
  total_amount : A;
  user_id : nat
}.

Definition set_total_amount {A} (v : A) (b : t A) : t A :=
  mk (id b) (bill_number b) (purchase_date b) v (user_id b).
End Bill.

Module Expense.
Record t (A : Type) := mk {
  category : string;
  total_amount : A
}.
End Expense.

Module Field.
Record t := mk {
  area_acres : option float;
  is_active : bool
}.
End Field.

Definition FERTILIZER_CATEGORIES : list (string * string) :=
  [ ("Urea", "Urea");
    ("DAP", "DAP (Di-Ammonium Phosphate)");
    ("NPK", "NPK Complex");
    ("MOP", "MOP (Muriate of Potash)");
    ("SSP", "SSP (Single Super Phosphate)");
    ("Organic", "Organic Fertilizer");
    ("Micronutrients", "Micronutrients");
    ("Liquid", "Liquid Fertilizer") ].

(** [s in [choice[0] for choice in FERTILIZER_CATEGORIES]] *)
Definition is_category (s : string) : bool :=
  existsb (String.eqb s) (map fst FERTILIZER_CATEGORIES).

(* ================================================================== *)
(** * The store and the session *)

(** The [bill] and [fertilizer] tables, rows in insertion order. *)
Record Db (A : Type) := mkDb {
  bills : list (Bill.t A);
  fertilizers : list (Fertilizer.t A)
}.

Definition empty_db {A} : Db A := mkDb [] [].

(** [db.session] during one request.  [committed] is what is durable,
    [view] what the open transaction sees (objects added or changed in
    the request included).  [budget] is the number of database round
    trips that still succeed, [None] for a store that never fails; once
    a round trip has failed every later one fails too, as a session
    whose flush failed refuses further work until it is rolled back.

    The budget is the only cause of failure in this model.  The real
    store has causes of its own that depend on the rows: SQLite binds a
    NaN as NULL, so a [Fertilizer] whose price is NaN and a [Bill] whose
    total is NaN violate the [nullable=False] of their columns, and the
    flush that carries them raises.  A run on [budget = None] with such
    a row is therefore a run that the program does not make; it makes
    one of the runs on a finite budget, in which that flush fails.
    Statements about what a request has stored are made for every
    budget, or under the hypothesis that the request has flashed its
    success message. *)
Record Session (A : Type) := mkSession {
  committed : Db A;
  view : Db A;
  budget : option nat
}.

(** A request starts on the durable rows. *)
Definition open_session {A} (db : Db A) (trips : option nat) : Session A :=
  mkSession db db trips.

(** One database round trip: [None] when it raises. *)
Definition round_trip {A} (s : Session A) : option (Session A) :=
  match budget s with
  | None => Some s
  | Some O => None
  | Some (S n) => Some (mkSession (committed s) (view s) (Some n))
  end.

(** The next [INTEGER PRIMARY KEY]: one more than the largest in use. *)
Definition next_bill_id {A} (db : Db A) : nat :=
  S (list_max (map (@Bill.id A) (bills db))).

(** [db.session.add(bill); db.session.flush()]: the row is inserted and
    the object gets its [id].  [None] when the flush raises. *)
Definition add_bill_flush {A} (b : Bill.t A) (s : Session A)
  : option (Session A * nat) :=
  match round_trip s with
  | None => None
  | Some s' =>
      let i := next_bill_id (view s') in
      let b' := Bill.mk i (Bill.bill_number b) (Bill.purchase_date b)
                  (Bill.total_amount b) (Bill.user_id b) in
      Some (mkSession (committed s')
              (mkDb (bills (view s') ++ [b']) (fertilizers (view s')))
              (budget s'), i)
  end.

(** [db.session.add(fertilizer)]: pending, no round trip. *)
Definition add_fertilizer {A} (f : Fertilizer.t A) (s : Session A) : Session A :=
  mkSession (committed s)
    (mkDb (bills (view s)) (fertilizers (view s) ++ [f]))
    (budget s).

(** The rows of the relationship [bill.fertilizers]. *)
Definition fertilizers_of {A} (bid : nat) (db : Db A) : list (Fertilizer.t A) :=
  filter (fun f => match Fertilizer.bill_id f with
                   | Some i => i =? bid
                   | None => false
                   end) (fertilizers db).

(** Reading [self.fertilizers] (a lazy load, with its autoflush): one
    round trip; [None] when it raises. *)
Definition load_fertilizers {A} (bid : nat) (s : Session A)
  : option (Session A * list (Fertilizer.t A)) :=
  match round_trip s with
  | None => None
  | Some s' => Some (s', fertilizers_of bid (view s'))
  end.

(** Assignment to [total_amount] of the bill object with this [id]. *)
Definition set_total {A} (bid : nat) (v : A) (s : Session A) : Session A :=
  mkSession (committed s)
    (mkDb (map (fun b => if Bill.id b =? bid then Bill.set_total_amount v b else b)
             (bills (view s)))
          (fertilizers (view s)))
    (budget s).

(** [db.session.commit()]: [None] when it raises. *)
Definition commit {A} (s : Session A) : option (Session A) :=
  match round_trip s with
  | None => None
  | Some s' => Some (mkSession (view s') (view s') (budget s'))
  end.

(** [db.session.rollback()] *)
Definition rollback {A} (s : Session A) : Session A :=
  mkSession (committed s) (committed s) (budget s).

(* ================================================================== *)
(** * [Bill.calculate_total] and [Bill.fertilizer_count] *)

Section Totals.
Context {A : Type} {AM : Amount A}.

(** [calculate_total] on the bill object [bid]: the [try] sums the
    prices of the loaded rows, the bare [except] stores [0.0]; the
    stored value is returned. *)
Definition calculate_total (bid : nat) (s : Session A) : Session A * A :=
  match load_fertilizers bid s with
  | Some (s', fs) =>
      let v := py_sum (map (@Fertilizer.price A) fs) in
      (set_total bid v s', v)
  | None => (set_total bid num_zero s, num_zero)
  end.

(** [fertilizer_count] on stored rows. *)
Definition fertilizer_count (bid : nat) (db : Db A) : nat :=
  length (fertilizers_of bid db).

(** The stored total of bill [bid], as the session sees it. *)
Definition total_of (bid : nat) (db : Db A) : option A :=
  match filter (fun b => Bill.id b =? bid) (bills db) with
  | b :: _ => Some (Bill.total_amount b)
  | [] => None
  end.
End Totals.

(* ================================================================== *)
(** * [import_data] *)

(** How a request ends: the view returns, or an exception escapes it
    (the session is then discarded uncommitted). *)
Inductive Outcome (A T : Type) :=
| Returned (t : T)
| Uncaught (s : Session A).
Arguments Returned {A T} t.
Arguments Uncaught {A T} s.

Inductive Flash :=
| FlashImported (n_bills n_items : nat)
| FlashRowErrors (n_rows : nat)
| FlashImportFailed
| FlashBillAdded (n_items : nat) (total : string)
| FlashBillError.

(** The local variables of the import loop. *)
Record ImportState (A : Type) := mkImportState {
  sess : Session A;
  bills_created : nat;
  imported_count : nat;
  errors : list string;
  current_bill : option nat;
  current_bill_key : option string
}.

(** [current_bill_key != bill_key] *)
Definition key_differs (cur : option string) (k : string) : bool :=
  match cur with
  | Some c => negb (String.eqb c k)
  | None => true
  end.

(** [s if s else None] *)
Definition none_if_empty (s : string) : option string :=
  match s with
  | EmptyString => None
  | _ => Some s
  end.

Definition is_empty (s : string) : bool :=
  match s with
  | EmptyString => true
  | _ => false
  end.

Section ImportData.
Context {A : Type} {AM : Amount A} {PL : PyLib A}.

Definition start_import (s : Session A) : ImportState A :=
  mkImportState s 0 0 [] None None.

(** [row[4].replace('₹', '').replace(',', '').strip()] *)
Definition clean_price (s : string) : string :=
  strip (str_remove "," (str_remove rupee s)).

(** The price of a row: the fifth field when there is one, else [0.0].
    [None] when [float] raises. *)
Definition row_price (row : list string) : option A :=
  if 4 <? length row then float_of_str (clean_price (nth 4 row ""))
  else Some num_zero.

Definition row_date (row : list string) : date :=
  match strptime_ymd (strip (nth 0 row "")) with
  | Some d => d
  | None => today
  end.

Definition row_bill_number (row : list string) : string := strip (nth 1 row "").

Definition row_name (row : list string) : string := strip (nth 2 row "").

Definition row_category (row : list string) : string :=
  if is_category (strip (nth 3 row "")) then strip (nth 3 row "") else "Urea".

(** [f"{purchase_date}_{bill_number}"] *)
Definition row_key (row : list string) : string :=
  (date_str (row_date row) ++ "_" ++ row_bill_number row)%string.

(** The [if current_bill_key != bill_key:] block. *)
Definition start_bill (uid : nat) (row : list string) (st : ImportState A)
  : Outcome A (ImportState A) :=
  if key_differs (current_bill_key st) (row_key row) then
    let s1 := match current_bill st with
              | Some b => fst (calculate_total b (sess st))
              | None => sess st
              end in
    let bill := Bill.mk 0 (none_if_empty (row_bill_number row)) (row_date row)
                  num_zero uid in
    match add_bill_flush bill s1 with
    | None => Uncaught s1
    | Some (s2, i) =>
        Returned (mkImportState s2 (S (bills_created st)) (imported_count st)
                    (errors st) (Some i) (Some (row_key row)))
    end
  else Returned st.

(** The [if name:] block. *)
Definition add_item (row : list string) (price : A) (st : ImportState A)
  : ImportState A :=
  if is_empty (row_name row) then st
  else
    let bid := match current_bill st with
               | Some i => if i =? 0 then None else Some i
               | None => None
               end in
    let f := Fertilizer.mk (row_name row) price (row_category row) bid in
    mkImportState (add_fertilizer f (sess st)) (bills_created st)
      (S (imported_count st)) (errors st) (current_bill st) (current_bill_key st).

(** The body of the [for] loop, its [try] included. *)
Definition import_row (uid row_num : nat) (row : list string) (st : ImportState A)
  : Outcome A (ImportState A) :=
  if 4 <=? length row then
    match row_price row with
    | None =>
        Returned (mkImportState (sess st) (bills_created st) (imported_count st)
                    (errors st ++ [("Row " ++ str_of_nat row_num ++ ": "
                                      ++ float_error (clean_price (nth 4 row "")))%string])
                    (current_bill st) (current_bill_key st))
    | Some price =>
        match start_bill uid row st with
        | Uncaught s => Uncaught s
        | Returned st1 => Returned (add_item row price st1)
        end
    end
  else Returned st.

(** [for row_num, row in enumerate(csv_input, start=...)] *)
Fixpoint import_rows (uid row_num : nat) (rows : list (list string))
    (st : ImportState A) : Outcome A (ImportState A) :=
  match rows with
  | [] => Returned st
  | row :: rest =>
      match import_row uid row_num row st with
      | Uncaught s => Uncaught s
      | Returned st' => import_rows uid (S row_num) rest st'
      end
  end.

(** The messages flashed after a commit that went through. *)
Definition success_flashes (st : ImportState A) : list Flash :=
  (if 0 <? bills_created st
   then [FlashImported (bills_created st) (imported_count st)] else [])
  ++ (match errors st with
      | [] => []
      | _ => [FlashRowErrors (length (errors st))]
      end).

(** What follows the loop: the total of the last bill, then the commit
    with its [try]. *)
Definition finish_import (st : ImportState A)
  : ImportState A * list Flash :=
  let s1 := match current_bill st with
            | Some b => fst (calculate_total b (sess st))
            | None => sess st
            end in
  match commit s1 with
  | Some s2 =>
      (mkImportState s2 (bills_created st) (imported_count st) (errors st)
         (current_bill st) (current_bill_key st),
       success_flashes st)
  | None =>
      (mkImportState (rollback s1) (bills_created st) (imported_count st)
         (errors st) (current_bill st) (current_bill_key st),
       [FlashImportFailed])
  end.

(** [import_data] on the rows of the uploaded file, the header row
    included: the header is dropped unread. *)
Definition import_data (uid : nat) (csv_input : list (list string))
    (s : Session A) : Outcome A (ImportState A * list Flash) :=
  match import_rows uid 2 (tl csv_input) (start_import s) with
  | Uncaught s' => Uncaught s'
  | Returned st => Returned (finish_import st)
  end.

(** The durable rows once the request is over. *)
Definition durable {T} (session_of : T -> Session A) (o : Outcome A T) : Db A :=
  match o with
  | Returned t => committed (session_of t)
  | Uncaught s => committed s
  end.

Definition import_durable (o : Outcome A (ImportState A * list Flash)) : Db A :=
  durable (fun r => sess (fst r)) o.
End ImportData.

(* ================================================================== *)
(** * [export_data] *)

Section ExportData.
Context {A : Type} {AM : Amount A} {PL : PyLib A}.

(** [ORDER BY purchase_date DESC], rows of equal date in table order. *)
Fixpoint insert_desc (b : Bill.t A) (l : list (Bill.t A)) : list (Bill.t A) :=
  match l with
  | [] => [b]
  | x :: r =>
      if date_ltb (Bill.purchase_date b) (Bill.purchase_date x)
      then x :: insert_desc b r
      else b :: l
  end.

Definition order_by_date_desc (l : list (Bill.t A)) : list (Bill.t A) :=
  fold_right insert_desc [] l.

(** [Bill.query.filter_by(user_id=uid).order_by(Bill.purchase_date.desc()).all()] *)
Definition user_bills (uid : nat) (db : Db A) : list (Bill.t A) :=
  order_by_date_desc (filter (fun b => Bill.user_id b =? uid) (bills db)).

(** [bill.bill_number or f'BILL-{bill.id}'] *)
Definition export_number (b : Bill.t A) : string :=
  match Bill.bill_number b with
  | Some (String c r) => String c r
  | _ => ("BILL-" ++ str_of_nat (Bill.id b))%string
  end.

Definition export_header : list string :=
  [ "Purchase Date"; "Bill Number"; "Fertilizer Name"; "Category";
    ("Price (" ++ rupee ++ ")")%string; ("Bill Total (" ++ rupee ++ ")")%string;
    "Items in Bill" ].

Definition export_row (db : Db A) (b : Bill.t A) (f : Fertilizer.t A) : list string :=
  [ strftime_ymd (Bill.purchase_date b);
    export_number b;
    Fertilizer.name f;
    Fertilizer.category f;
    format_2f (Fertilizer.price f);
    format_2f (Bill.total_amount b);
    str_of_nat (fertilizer_count (Bill.id b) db) ].

(** The rows written by [export_data], header first. *)
Definition export_data (uid : nat) (db : Db A) : list (list string) :=
  export_header ::
  flat_map (fun b => map (export_row db b) (fertilizers_of (Bill.id b) db))
    (user_bills uid db).
End ExportData.

(* ================================================================== *)
(** * [add_bill] *)

(** The fields of the posted form that [add_bill] reads. *)
Record BillForm := mkBillForm {
  form_bill_number : string;               (* request.form.get('bill_number', '') *)
  form_purchase_date : option string;      (* request.form.get('purchase_date') *)
  fertilizer_names : list string;          (* getlist('fertilizer_name[]') *)
  fertilizer_categories : list string;     (* getlist('fertilizer_category[]') *)
  fertilizer_prices : list string          (* getlist('fertilizer_price[]') *)
}.

Section AddBill.
Context {A : Type} {AM : Amount A} {PL : PyLib A}.

(** [float(prices[i]) if i < len(prices) and prices[i] else 0.0];
    [None] when [float] raises. *)
Definition form_price (form : BillForm) (i : nat) : option A :=
  match nth_error (fertilizer_prices form) i with
  | Some (String c r) => float_of_str (String c r)
  | _ => Some num_zero
  end.

(** [categories[i] if i < len(categories) else 'Urea'] *)
Definition form_category (form : BillForm) (i : nat) : string :=
  match nth_error (fertilizer_categories form) i with
  | Some c => c
  | None => "Urea"
  end.

(** [for i, name in enumerate(fertilizer_names)]; [None] when an
    exception leaves the loop.  The result carries [fertilizer_count]. *)
Fixpoint add_bill_items (form : BillForm) (bid i : nat) (names : list string)
    (s : Session A) (fertilizer_count : nat) : option (Session A * nat) :=
  match names with
  | [] => Some (s, fertilizer_count)
  | name :: rest =>
      if is_empty (strip name) then
        add_bill_items form bid (S i) rest s fertilizer_count
      else
        match form_price form i with
        | None => None
        | Some price =>
            let f := Fertilizer.mk (strip name) price (form_category form i)
                       (Some bid) in
            add_bill_items form bid (S i) rest (add_fertilizer f s)
              (S fertilizer_count)
        end
  end.

(** The [try] block of a POST; [inl s] when an exception was raised in
    session state [s]. *)
Definition add_bill_try (uid : nat) (form : BillForm) (s : Session A)
  : Session A + (Session A * list Flash) :=
  let bill_number := strip (form_bill_number form) in
  let parsed :=
    match form_purchase_date form with
    | Some (String c r) => strptime_ymd (String c r)
    | _ => Some today
    end in
  match parsed with
  | None => inl s
  | Some purchase_date =>
      match add_bill_flush
              (Bill.mk 0 (none_if_empty bill_number) purchase_date num_zero uid) s with
      | None => inl s
      | Some (s1, bid) =>
          match add_bill_items form bid 0 (fertilizer_names form) s1 0 with
          | None => inl s1
          | Some (s2, n) =>
              let '(s3, total) := calculate_total bid s2 in
              match commit s3 with
              | None => inl s3
              | Some s4 => inr (s4, [FlashBillAdded n (format_2f total)])
              end
          end
      end
  end.

(** [add_bill] on a POST: the [except] rolls back and flashes. *)
Definition add_bill (uid : nat) (form : BillForm) (s : Session A)
  : Session A * list Flash :=
  match add_bill_try uid form s with
  | inr r => r
  | inl s' => (rollback s', [FlashBillError])
  end.
End AddBill.

(* ================================================================== *)
(** * The dashboard rollup of [index] *)

Section Dashboard.
Context {A : Type} {AM : Amount A}.

(** [category_breakdown]: a [dict], its keys in insertion order. *)
Definition dict := list (string * A).

(** [if k in d: d[k] += v else: d[k] = v] *)
Fixpoint dict_add (k : string) (v : A) (d : dict) : dict :=
  match d with
  | [] => [(k, v)]
  | (k', v') :: r =>
      if String.eqb k' k then (k', num_add v' v) :: r
      else (k', v') :: dict_add k v r
  end.

Fixpoint dict_get (k : string) (d : dict) : option A :=
  match d with
  | [] => None
  | (k', v') :: r => if String.eqb k' k then Some v' else dict_get k r
  end.

(** [d.values()] *)
Definition dict_values (d : dict) : list A := map snd d.

Definition total_expenses (expenses : list (Expense.t A)) (bills : list (Bill.t A)) : A :=
  let total_comprehensive_expenses := py_sum (map (@Expense.total_amount A) expenses) in
  let total_bill_expenses := py_sum (map (@Bill.total_amount A) bills) in
  num_add total_comprehensive_expenses total_bill_expenses.

Definition category_breakdown (expenses : list (Expense.t A)) (bills : list (Bill.t A))
  : dict :=
  let by_category :=
    fold_left (fun d e => dict_add (Expense.category e) (Expense.total_amount e) d)
      expenses [] in
  fold_left (fun d b => dict_add "fertilizers" (Bill.total_amount b) d) bills by_category.

(** The amounts the rollup files under key [k], in the order it meets
    them: the expenses of category [k], then, for ["fertilizers"], the
    bills. *)
Definition amounts_under (k : string) (expenses : list (Expense.t A))
    (bills : list (Bill.t A)) : list A :=
  map (@Expense.total_amount A)
    (filter (fun e => String.eqb (Expense.category e) k) expenses)
  ++ (if String.eqb "fertilizers" k then map (@Bill.total_amount A) bills else []).

(** [x1 + x2 + ... + xn] as [+=] builds it; nothing for no amounts. *)
Definition running_sum (l : list A) : option A :=
  match l with
  | [] => None
  | x :: r => Some (fold_left num_add r x)
  end.
End Dashboard.

(** [bool(x)] for an optional [float] column: [None] and zero are false. *)
Definition truthy (x : option float) : bool :=
  match x with
  | Some v => negb (PrimFloat.eqb v PrimFloat.zero)
  | None => false
  end.

(** [Field.query.filter_by(user_id=..., is_active=True).all()] on the
    user's fields. *)
Definition active_fields (fields : list Field.t) : list Field.t :=
  filter Field.is_active fields.

(** [sum(field.area_acres for field in user_fields if field.area_acres)] *)
Definition total_acres (user_fields : list Field.t) : float :=
  py_sum (flat_map (fun f => match Field.area_acres f with
                             | Some v => if truthy (Some v) then [v] else []
                             | None => []
                             end) user_fields).

(** [total_expenses / total_acres if total_acres > 0 else 0] *)
Definition cost_per_acre (total_expenses total_acres : float) : float :=
  if PrimFloat.ltb PrimFloat.zero total_acres
  then PrimFloat.div total_expenses total_acres
  else PrimFloat.zero.

(** The two figures as [index] computes them for a user. *)
Definition dashboard_cost_per_acre (expenses : list (Expense.t float))
    (bills : list (Bill.t float)) (fields : list Field.t) : float :=
  cost_per_acre (total_expenses expenses bills) (total_acres (active_fields fields)).

(** [sum] over floats since Python 3.12: Neumaier's compensated
    summation.  [py_sum] is the plain fold of the earlier versions. *)
Definition neumaier_step (acc : float * float) (x : float) : float * float :=
  let '(f_result, c) := acc in
  let t := PrimFloat.add f_result x in
  let c' :=
    if PrimFloat.leb (PrimFloat.abs x) (PrimFloat.abs f_result)
    then PrimFloat.add c (PrimFloat.add (PrimFloat.sub f_result t) x)
    else PrimFloat.add c (PrimFloat.add (PrimFloat.sub x t) f_result) in
  (t, c').

Definition is_finite (x : float) : bool :=
  PrimFloat.ltb (PrimFloat.abs x) PrimFloat.infinity.

Definition py312_sum (l : list float) : float :=
  let '(f_result, c) := fold_left neumaier_step l (PrimFloat.zero, PrimFloat.zero) in
  if negb (PrimFloat.eqb c PrimFloat.zero) && is_finite c
  then PrimFloat.add f_result c
  else f_result.

(* ================================================================== *)
(** * Whole amounts

    Binary64 adds whole numbers without rounding as long as the sum
    stays below 2^53. *)

(** The binary64 number of the whole number [n], for [0 <= n < 2^53]:
    the mantissa is [n] shifted to 53 bits. *)
Definition whole_sf (n : Z) : spec_float :=
  match n with
  | Zpos p =>
      let d := Zpos (digits2_pos p) in
      S754_finite false (Z.to_pos (Zpos p * 2 ^ (prec - d))) (d - prec)
  | _ => S754_zero false
  end.

(** [x] is the whole number [n], and [n] is from 0 below 2^53. *)
Definition whole (n : Z) (x : float) : Prop :=
  (0 <= n < 2 ^ prec)%Z /\ Prim2SF x = whole_sf n.

(** The whole number that a positive float without fraction stands for. *)
Definition whole_of (x : float) : Z :=
  match Prim2SF x with
  | S754_finite false m e => Z.shiftl (Zpos m) e
  | _ => 0%Z
  end.

(** An amount in whole rupees. *)
Definition Whole (x : float) : Prop := whole (whole_of x) x.

(** The sum of a list of whole numbers. *)
Fixpoint sum_Z (l : list Z) : Z :=
  match l with
  | [] => 0%Z
  | x :: r => (x + sum_Z r)%Z
  end.

(* ================================================================== *)
(** * An executable [PyLib] for binary64

    Models of the library calls on the inputs the concrete runs below
    use.  [strip] removes ASCII white space; [float_of_str] reads plain
    decimal literals ([sign] digits [.] digits [e] exponent, [inf],
    [nan]) with correct rounding; [strptime_ymd] reads a four-digit
    year, a month and a day of one or two digits; [format_2f] rounds the
    exact binary value to two decimals, ties to even.  Spellings that
    Python also accepts (digit-group underscores, non-ASCII digits or
    white space) are outside these models; the general theorems are
    stated for every [PyLib] and do not depend on them. *)

Module Py.
Definition is_space (c : ascii) : bool :=
  let n := nat_of_ascii c in
  ((9 <=? n) && (n <=? 13)) || ((28 <=? n) && (n <=? 32)).

Fixpoint lstrip (s : string) : string :=
  match s with
  | EmptyString => EmptyString
  | String c r => if is_space c then lstrip r else s
  end.

Fixpoint rstrip (s : string) : string :=
  match s with
  | EmptyString => EmptyString
  | String c r =>
      match rstrip r with
      | EmptyString => if is_space c then EmptyString else String c EmptyString
      | r' => String c r'
      end
  end.

Definition strip (s : string) : string := rstrip (lstrip s).

Definition digit_of (c : ascii) : option Z :=
  let n := nat_of_ascii c in
  if (48 <=? n) && (n <=? 57) then Some (Z.of_nat (n - 48)) else None.

(** A maximal run of digits: its value on top of [acc], its length on
    top of [n], and what follows. *)
Fixpoint read_digits (s : string) (acc : Z) (n : nat) : Z * nat * string :=
  match s with
  | EmptyString => (acc, n, EmptyString)
  | String c r =>
      match digit_of c with
      | Some d => read_digits r (10 * acc + d)%Z (S n)
      | None => (acc, n, s)
      end
  end.

Definition read_sign (s : string) : bool * string :=
  match s with
  | String "-" r => (true, r)
  | String "+" r => (false, r)
  | _ => (false, s)
  end.

Definition lower (c : ascii) : ascii :=
  let n := nat_of_ascii c in
  if (65 <=? n) && (n <=? 90) then ascii_of_nat (n + 32) else c.

Fixpoint lower_str (s : string) : string :=
  match s with
  | EmptyString => EmptyString
  | String c r => String (lower c) (lower_str r)
  end.

(** The binary64 nearest to [(-1)^neg * n * 10^e10]. *)
Definition decimal_to_float (neg : bool) (n e10 : Z) : float :=
  SF2Prim
    match n with
    | Zpos p =>
        if (0 <=? e10)%Z
        then binary_round prec emax neg (p * Z.to_pos (10 ^ e10)) 0
        else SFdiv prec emax (S754_finite neg p 0)
               (S754_finite false (Z.to_pos (10 ^ (- e10))) 0)
    | _ => S754_zero neg
    end.

Definition read_exponent (s : string) (frac_len : nat) : option Z :=
  match s with
  | EmptyString => Some (- Z.of_nat frac_len)%Z
  | String c r =>
      if Ascii.eqb (lower c) "e" then
        let '(eneg, r1) := read_sign r in
        match read_digits r1 0 0 with
        | (ev, S _, EmptyString) =>
            Some ((if eneg then - ev else ev) - Z.of_nat frac_len)%Z
        | _ => None
        end
      else None
  end.

Definition float_of_str (s : string) : option float :=
  let '(neg, s1) := read_sign (strip s) in
  let word := lower_str s1 in
  if String.eqb word "inf" || String.eqb word "infinity"
  then Some (if neg then PrimFloat.neg_infinity else PrimFloat.infinity)
  else if String.eqb word "nan" then Some PrimFloat.nan
  else
    let '(ip, ni, s2) := read_digits s1 0 0 in
    let '(n, nf, s3) :=
      match s2 with
      | String "." r => read_digits r ip 0
      | _ => (ip, 0, s2)
      end in
    match ni + nf with
    | O => None
    | S _ =>
        match read_exponent s3 nf with
        | Some e10 => Some (decimal_to_float neg n e10)
        | None => None
        end
    end.

Definition float_error (s : string) : string :=
  "could not convert string to float: '" ++ s ++ "'".

Definition str_of_Z (z : Z) : string :=
  NilZero.string_of_uint (N.to_uint (Z.to_N z)).

Definition pad2 (z : Z) : string :=
  if (z <? 10)%Z then "0" ++ str_of_Z z else str_of_Z z.

Definition pad4 (z : Z) : string :=
  if (z <? 10)%Z then "000" ++ str_of_Z z
  else if (z <? 100)%Z then "00" ++ str_of_Z z
  else if (z <? 1000)%Z then "0" ++ str_of_Z z
  else str_of_Z z.

(** [num / den] rounded to the nearest integer, ties to even. *)
Definition round_half_even (num den : Z) : Z :=
  let q := (num / den)%Z in
  match (2 * (num mod den) ?= den)%Z with
  | Lt => q
  | Gt => (q + 1)%Z
  | Eq => if Z.even q then q else (q + 1)%Z
  end.

Definition format_2f (x : float) : string :=
  match Prim2SF x with
  | S754_nan => "nan"
  | S754_infinity s => if s then "-inf" else "inf"
  | S754_zero s => if s then "-0.00" else "0.00"
  | S754_finite s m e =>
      let hundredths :=
        if (0 <=? e)%Z then (Zpos m * 2 ^ e * 100)%Z
        else round_half_even (Zpos m * 100) (2 ^ (- e)) in
      (if s then "-" else "")
      ++ str_of_Z (hundredths / 100) ++ "." ++ pad2 (hundredths mod 100)
  end.

Definition is_leap (y : nat) : bool :=
  ((y mod 4 =? 0) && negb (y mod 100 =? 0)) || (y mod 400 =? 0).

Definition days_in_month (y m : nat) : nat :=
  match m with
  | 1 | 3 | 5 | 7 | 8 | 10 | 12 => 31
  | 4 | 6 | 9 | 11 => 30
  | 2 => if is_leap y then 29 else 28
  | _ => 0
  end.

Definition strptime_ymd (s : string) : option date :=
  match read_digits s 0 0 with
  | (y, 4, String "-" s1) =>
      match read_digits s1 0 0 with
      | (m, (1 | 2), String "-" s2) =>
          match read_digits s2 0 0 with
          | (d, (1 | 2), EmptyString) =>
              let y := Z.to_nat y in
              let m := Z.to_nat m in
              let d := Z.to_nat d in
              if (1 <=? y) && (1 <=? d) && (d <=? days_in_month y m)
              then Some (mkdate y m d) else None
          | _ => None
          end
      | _ => None
      end
  | _ => None
  end.

Definition date_str (d : date) : string :=
  pad4 (Z.of_nat (year d)) ++ "-" ++ pad2 (Z.of_nat (month d))
  ++ "-" ++ pad2 (Z.of_nat (day d)).

End Py.

(** The library on a day [now]. *)
Definition py_lib (now : date) : PyLib float := {|
  strip := Py.strip;
  float_of_str := Py.float_of_str;
  float_error := Py.float_error;
  strptime_ymd := Py.strptime_ymd;
  today := now;
  date_str := Py.date_str;
  strftime_ymd := Py.date_str;
  format_2f := Py.format_2f
|}.


(* ================================================================== *)
(** * The grouping of the import, as the specification words it

    "Consecutive rows sharing a grouping key are accumulated into the
    same in-progress Bill; a change in grouping key finalizes the
    previous Bill and starts a new one."  Here a bill enters the store
    whole: its number and date from the first row of its group, its
    items, and the total of the items stored under its id. *)

Section ImportSpec.
Context {A : Type} {AM : Amount A} {PL : PyLib A}.

(** A data row that passes the field count and the price parse. *)
Record Line := mkLine {
  line_key : string;
  line_number : string;
  line_date : date;
  line_name : string;
  line_category : string;
  line_price : A
}.

Definition parse_line (row : list string) : option Line :=
  if 4 <=? length row then
    match row_price row with
    | Some p =>
        Some (mkLine (row_key row) (row_bill_number row) (row_date row)
                (row_name row) (row_category row) p)
    | None => None
    end
  else None.

Definition parse_lines (rows : list (list string)) : list Line :=
  flat_map (fun r => match parse_line r with
                     | Some l => [l]
                     | None => []
                     end) rows.

(** A maximal run of adjacent lines with one key. *)
Record Group := mkGroup {
  group_key : string;
  group_number : string;
  group_date : date;
  group_lines : list Line
}.

Definition new_group (l : Line) : Group :=
  mkGroup (line_key l) (line_number l) (line_date l) [l].

Definition extend_group (g : Group) (l : Line) : Group :=
  mkGroup (group_key g) (group_number g) (group_date g) (group_lines g ++ [l]).

Fixpoint group_adjacent (cur : option Group) (ls : list Line) : list Group :=
  match ls with
  | [] => match cur with
          | Some g => [g]
          | None => []
          end
  | l :: r =>
      match cur with
      | Some g =>
          if String.eqb (group_key g) (line_key l)
          then group_adjacent (Some (extend_group g l)) r
          else g :: group_adjacent (Some (new_group l)) r
      | None => group_adjacent (Some (new_group l)) r
      end
  end.

(** The lines that become items: those with a name. *)
Definition named (ls : list Line) : list Line :=
  filter (fun l => negb (is_empty (line_name l))) ls.

Definition item_of (bid : nat) (l : Line) : Fertilizer.t A :=
  Fertilizer.mk (line_name l) (line_price l) (line_category l) (Some bid).

Definition group_items (bid : nat) (g : Group) : list (Fertilizer.t A) :=
  map (item_of bid) (named (group_lines g)).

(** One group enters the store as one bill. *)
Definition add_group (uid : nat) (db : Db A) (g : Group) : Db A :=
  let i := next_bill_id db in
  let stored := fertilizers_of i db ++ group_items i g in
  mkDb (bills db
        ++ [Bill.mk i (none_if_empty (group_number g)) (group_date g)
              (py_sum (map (@Fertilizer.price A) stored)) uid])
       (fertilizers db ++ group_items i g).

Definition spec_groups (csv_input : list (list string)) : list Group :=
  group_adjacent None (parse_lines (tl csv_input)).

Definition spec_import (uid : nat) (csv_input : list (list string)) (db : Db A) : Db A :=
  fold_left (add_group uid) (spec_groups csv_input) db.

(** The error list: one entry per row whose price does not parse. *)
Fixpoint spec_errors (row_num : nat) (rows : list (list string)) : list string :=
  match rows with
  | [] => []
  | row :: rest =>
      (if 4 <=? length row then
         match row_price row with
         | None => [("Row " ++ str_of_nat row_num ++ ": "
                     ++ float_error (clean_price (nth 4 row "")))%string]
         | Some _ => []
         end
       else [])
      ++ spec_errors (S row_num) rest
  end.

(** A bill whose stored total is the sum of the prices stored under
    its id. *)
Definition consistent (db : Db A) (b : Bill.t A) : Prop :=
  Bill.total_amount b
  = py_sum (map (@Fertilizer.price A) (fertilizers_of (Bill.id b) db)).
End ImportSpec.
Arguments Line : clear implicits.
Arguments Group : clear implicits.

(** Two session states that differ in their budget at most. *)
Definition forget_budget {A} (s : Session A) : Session A :=
  mkSession (committed s) (view s) None.

(* ================================================================== *)
(** * Sample files *)

Definition sample_header : list string :=
  [ "Purchase Date"; "Bill Number"; "Fertilizer Name"; "Category";
    ("Price (" ++ rupee ++ ")")%string ].

Definition urea_row : list string :=
  [ "2025-01-15"; "BILL-001"; "Urea A"; "Urea"; "100.00" ].

Definition dap_row : list string :=
  [ "2025-01-15"; "BILL-001"; "DAP B"; "DAP"; "200.00" ].

Definition two_row_csv : list (list string) :=
  [ sample_header; urea_row; dap_row ].

(** A row with an item name of blanks only. *)
Definition blank_name_row : list string :=
  [ "2025-01-15"; "BILL-001"; "  "; "Urea"; "100.00" ].

(* ================================================================== *)
(** * The import loop against its specification: the states in relation *)

Section Tracking.
Context {A : Type} {AM : Amount A} {PL : PyLib A}.
Variable uid : nat.

(** The store while the bill of group [g] is in progress: the bill is
    there with the total it was inserted with, and its items so far. *)
Definition open_view (db : Db A) (g : Group A) : Db A :=
  let i := next_bill_id db in
  mkDb (bills db
        ++ [Bill.mk i (none_if_empty (group_number g)) (group_date g) num_zero uid])
       (fertilizers db ++ group_items i g).

(** [tracks db0 st db cur]: in a session on durable rows [db0] whose
    store does not fail, the loop is in state [st] when the groups
    closed so far have produced [db] and [cur] is the group in
    progress. *)
Inductive tracks (db0 : Db A) (st : ImportState A) (db : Db A)
  : option (Group A) -> Prop :=
| tracks_idle :
    sess st = mkSession db0 db None ->
    current_bill st = None ->
    current_bill_key st = None ->
    tracks db0 st db None
| tracks_open (g : Group A) :
    sess st = mkSession db0 (open_view db g) None ->
    current_bill st = Some (next_bill_id db) ->
    current_bill_key st = Some (group_key g) ->
    tracks db0 st db (Some g).

(** The loop and what follows it. *)
Definition run_import (row_num : nat) (rows : list (list string))
    (st : ImportState A) : Outcome A (ImportState A * list Flash) :=
  match import_rows uid row_num rows st with
  | Uncaught s => Uncaught s
  | Returned st' => Returned (finish_import st')
  end.

Definition close_group (db : Db A) (cur : option (Group A)) : Db A :=
  match cur with
  | Some g => add_group uid db g
  | None => db
  end.

Definition open_count (cur : option (Group A)) : nat :=
  match cur with
  | Some _ => 1
  | None => 0
  end.
End Tracking.

Section SpecStep.
Context {A : Type} {AM : Amount A} {PL : PyLib A}.
Variable uid : nat.

(** One line against the store of closed groups and the group in
    progress. *)
Definition spec_step (db : Db A) (cur : option (Group A)) (l : Line A)
  : Db A * option (Group A) :=
  match cur with
  | Some g =>
      if String.eqb (group_key g) (line_key l)
      then (db, Some (extend_group g l))
      else (add_group uid db g, Some (new_group l))
  | None => (db, Some (new_group l))
  end.

(** Does line [l] open a bill? *)
Definition opens (cur : option (Group A)) (l : Line A) : nat :=
  match cur with
  | Some g => if String.eqb (group_key g) (line_key l) then 0 else 1
  | None => 1
  end.
End SpecStep.

(** The loop state with the budget of its session forgotten. *)
Definition forget_state {A} (st : ImportState A) : ImportState A :=
  mkImportState (forget_budget (sess st)) (bills_created st) (imported_count st)
    (errors st) (current_bill st) (current_bill_key st).

(** A session whose store has failed. *)
Definition dead {A} (s : Session A) : Prop := budget s = Some 0.

(** The lines of the group in progress. *)
Definition lines_of {A} (cur : option (Group A)) : list (Line A) :=
  match cur with
  | Some g => group_lines g
  | None => []
  end.

(** The items that a list of groups, entering the store with ids from
    [n] on, files under bill id [i]. *)
Fixpoint items_at {A} (n : nat) (gs : list (Group A)) (i : nat)
  : list (Fertilizer.t A) :=
  match gs with
  | [] => []
  | g :: r => (if n =? i then group_items n g else []) ++ items_at (S n) r i
  end.

(** A row of another bill, to stand between two rows of [BILL-001]. *)
Definition npk_row : list string :=
  [ "2025-01-15"; "BILL-002"; "NPK C"; "NPK"; "50.00" ].





(* ================================================================== *)
(** * The posted bill as one group *)

Section FormSpec.
Context {A : Type} {AM : Amount A} {PL : PyLib A}.

(** The entries of the form that become items, as lines of the bill
    numbered [nb] and dated [d]; [None] when a price does not parse. *)
Fixpoint form_lines (form : BillForm) (nb : string) (d : date) (i : nat)
    (names : list string) : option (list (Line A)) :=
  match names with
  | [] => Some []
  | name :: rest =>
      if is_empty (strip name) then form_lines form nb d (S i) rest
      else
        match form_price form i with
        | None => None
        | Some p =>
            option_map
              (cons (mkLine "" nb d (strip name) (form_category form i) p))
              (form_lines form nb d (S i) rest)
        end
  end.

(** [purchase_date] of the form; [None] when [strptime] raises. *)
Definition form_date (form : BillForm) : option date :=
  match form_purchase_date form with
  | Some (String c r) => strptime_ymd (String c r)
  | _ => Some today
  end.

(** The bill a form asks for; [None] when the form is rejected. *)
Definition form_group (form : BillForm) : option (Group A) :=
  match form_date form with
  | None => None
  | Some d =>
      let nb := strip (form_bill_number form) in
      match form_lines form nb d 0 (fertilizer_names form) with
      | None => None
      | Some ls => Some (mkGroup "" nb d ls)
      end
  end.
End FormSpec.

(* ================================================================== *)
(** * The rollup as a list of entries *)

Section Entries.
Context {A : Type} {AM : Amount A}.

(** The (key, amount) pairs the rollup files, in its order: the
    expenses, then the bills under ["fertilizers"]. *)
Definition rollup_entries (expenses : list (Expense.t A)) (bills : list (Bill.t A))
  : list (string * A) :=
  map (fun e => (Expense.category e, Expense.total_amount e)) expenses
  ++ map (fun b => ("fertilizers", Bill.total_amount b)) bills.

Definition file_entries (entries : list (string * A)) (d : dict) : dict :=
  fold_left (fun d kv => dict_add (fst kv) (snd kv) d) entries d.

(** A value under a key, extended by further amounts. *)
Definition extend_sum (o : option A) (l : list A) : option A :=
  match o with
  | Some x => Some (fold_left num_add l x)
  | None => running_sum l
  end.
End Entries.

(** [total_expenses] with the [sum] of Python 3.12. *)
Definition total_expenses_312 (expenses : list (Expense.t float))
    (bills : list (Bill.t float)) : float :=
  PrimFloat.add (py312_sum (map (@Expense.total_amount float) expenses))
    (py312_sum (map (@Bill.total_amount float) bills)).

(** [float('0.1')], [float('0.4')] *)
Definition f0_1 : float := 0x1.999999999999ap-4%float.
Definition f0_4 : float := 0x1.999999999999ap-2%float.

Definition seeds_labor_seeds : list (Expense.t float) :=
  [ Expense.mk "seeds" f0_1; Expense.mk "labor" f0_1; Expense.mk "seeds" f0_4 ].

(* ================================================================== *)
(** * Signs of binary64 numbers *)

(** A positive number or plus infinity, on the specification side. *)
Definition sf_positive (s : spec_float) : Prop :=
  match s with
  | S754_finite false _ _ => True
  | S754_infinity false => True
  | _ => False
  end.

(** [0 < x] *)
Definition positive_float (x : float) : Prop :=
  PrimFloat.ltb PrimFloat.zero x = true.

(** An area as [FieldForm] lets it through: absent, or a number that is
    not below 0 ([NumberRange(min=0)]). *)
Definition valid_area (f : Field.t) : bool :=
  match Field.area_acres f with
  | Some v => PrimFloat.leb PrimFloat.zero v
  | None => true
  end.

(** The areas that [total_acres] adds up. *)
Definition counted_areas (user_fields : list Field.t) : list float :=
  flat_map (fun f => match Field.area_acres f with
                     | Some v => if truthy (Some v) then [v] else []
                     | None => []
                     end) user_fields.

Definition sample_fields : list Field.t :=
  [ Field.mk (Some 2%float) true; Field.mk None true;
    Field.mk (Some 0%float) true; Field.mk (Some 5%float) false ].

(* ================================================================== *)
(** * Export followed by import *)

Section RoundTrip.
Context {A : Type} {AM : Amount A} {PL : PyLib A}.

(** What the round trip is to reproduce of a bill: the number of its
    items and its total. *)
Definition bill_summary (db : Db A) (b : Bill.t A) : nat * A :=
  (fertilizer_count (Bill.id b) db, Bill.total_amount b).

(** The date that the import reads back from the exported date. *)
Definition reimport_date (b : Bill.t A) : date :=
  match strptime_ymd (strip (strftime_ymd (Bill.purchase_date b))) with
  | Some d => d
  | None => today
  end.

(** The grouping key under which the rows of an exported bill come
    back. *)
Definition reimport_key (b : Bill.t A) : string :=
  (date_str (reimport_date b) ++ "_" ++ strip (export_number b))%string.

(** An item that comes back as it was: its name is not blank and its
    price is the number that [float] reads from its two-decimal text. *)
Definition survives (f : Fertilizer.t A) : Prop :=
  is_empty (strip (Fertilizer.name f)) = false
  /\ float_of_str (clean_price (format_2f (Fertilizer.price f)))
     = Some (Fertilizer.price f).

Fixpoint adjacent_distinct (ks : list string) : Prop :=
  match ks with
  | k1 :: ((k2 :: _) as r) => k1 <> k2 /\ adjacent_distinct r
  | _ => True
  end.

(** A bill that the export writes and the import can rebuild. *)
Definition rebuildable (db : Db A) (b : Bill.t A) : Prop :=
  fertilizers_of (Bill.id b) db <> []
  /\ Forall survives (fertilizers_of (Bill.id b) db)
  /\ consistent db b.

(** The stores for which the round trip holds: every bill of the user
    has an item, its items survive, its total is the sum of its items,
    and no two bills that the export writes one after the other come
    back under one key. *)
Definition exportable (uid : nat) (db : Db A) : Prop :=
  Forall (rebuildable db) (user_bills uid db)
  /\ adjacent_distinct (map reimport_key (user_bills uid db)).

(** The line that the import reads from an exported row. *)
Definition export_line (db : Db A) (b : Bill.t A) (f : Fertilizer.t A) : Line A :=
  let r := export_row db b f in
  mkLine (row_key r) (row_bill_number r) (row_date r) (row_name r)
    (row_category r) (Fertilizer.price f).

Definition bill_lines (db : Db A) (b : Bill.t A) : list (Line A) :=
  map (export_line db b) (fertilizers_of (Bill.id b) db).

(** The group that the rows of an exported bill form. *)
Definition bill_group (db : Db A) (b : Bill.t A) : Group A :=
  mkGroup (reimport_key b) (strip (export_number b)) (reimport_date b)
    (bill_lines db b).

(** Export, then import into the empty store. *)
Definition round_trip_db (uid uid' : nat) (db : Db A) : Db A :=
  import_durable (import_data uid' (export_data uid db) (open_session empty_db None)).

(** The group in progress has another key than the first of the bills
    to come. *)
Definition key_free (cur : option (Group A)) (bs : list (Bill.t A)) : Prop :=
  match cur, bs with
  | Some g, b :: _ => group_key g <> reimport_key b
  | _, _ => True
  end.

Definition closed_list (cur : option (Group A)) : list (Group A) :=
  match cur with
  | Some g => [g]
  | None => []
  end.

(** Number of items and sum of prices of a group. *)
Definition group_summary (g : Group A) : nat * A :=
  (length (named (group_lines g)),
   py_sum (map (@line_price A) (named (group_lines g)))).

(** No item is stored under an id that no bill has yet. *)
Definition no_orphans (db : Db A) : Prop :=
  forall i, next_bill_id db <= i -> fertilizers_of i db = [].
End RoundTrip.

(** Stores for the round trip: a bill without items; a bill with an item
    of price 0.125; two bills of one date and number. *)
Definition empty_bill_db : Db float :=
  mkDb [Bill.mk 1 (Some "BILL-001") (mkdate 2025 1 15) 0%float 7] [].

Definition eighth_db : Db float :=
  mkDb [Bill.mk 1 (Some "BILL-001") (mkdate 2025 1 15) 0.125%float 7]
       [Fertilizer.mk "Urea A" 0.125%float "Urea" (Some 1)].

Definition twin_db : Db float :=
  mkDb [Bill.mk 1 (Some "BILL-001") (mkdate 2025 1 15) 100%float 7;
        Bill.mk 2 (Some "BILL-001") (mkdate 2025 1 15) 200%float 7]
       [Fertilizer.mk "Urea A" 100%float "Urea" (Some 1);
        Fertilizer.mk "DAP B" 200%float "DAP" (Some 2)].

(** A store whose round trip holds: a numbered and an unnumbered bill. *)
Definition ledger_db : Db float :=
  mkDb [Bill.mk 1 (Some "BILL-001") (mkdate 2025 1 15) 300%float 7;
        Bill.mk 2 None (mkdate 2025 1 16) 50.25%float 7;
        Bill.mk 3 (Some "X-9") (mkdate 2025 1 16) 999%float 8]
       [Fertilizer.mk "Urea A" 100%float "Urea" (Some 1);
        Fertilizer.mk "NPK C" 50.25%float "NPK" (Some 2);
        Fertilizer.mk "DAP B" 200%float "DAP" (Some 1);
        Fertilizer.mk "Other" 999%float "MOP" (Some 3)].

(* ================================================================== *)
(** * Ordering by date *)

Definition date_eqb (a b : date) : bool :=
  (year a =? year b) && (month a =? month b) && (day a =? day b).

Section ByDate.
Context {T : Type}.
Variable key : T -> date.

(** Insertion behind the rows of a later date and in front of those of
    the same or an earlier date. *)
Fixpoint insert_by_date (x : T) (l : list T) : list T :=
  match l with
  | [] => [x]
  | y :: r =>
      if date_ltb (key x) (key y) then y :: insert_by_date x r else x :: l
  end.

(** [l.sort(key=..., reverse=True)] and [ORDER BY ... DESC]: the latest
    first, rows of one date in the order they had. *)
Definition sort_by_date_desc (l : list T) : list T :=
  fold_right insert_by_date [] l.

(** No row stands in front of a row of a later date. *)
Definition latest_first (l : list T) : Prop :=
  StronglySorted (fun a b => date_ltb (key a) (key b) = false) l.

(** The rows of date [d]. *)
Definition on_date (d : date) (l : list T) : list T :=
  filter (fun x => date_eqb (key x) d) l.
End ByDate.

(* ================================================================== *)
(** * The rest of [index]: recent activities and the season *)

(** Further calls into the Python library. *)
Class PyMore (A : Type) := {
  (** [bool(x)] of a number *)
  num_bool : A -> bool;
  (** [str(x)] of a number, as an f-string writes it *)
  num_str : A -> string
}.

(** The [expense] table with the columns the views read and write. *)
Module ExpenseRow.
Record t (A : Type) := mk {
  description : string;
  category : string;
  quantity : option A;
  unit : option string;
  unit_price : option A;
  total_amount : A;
  category_id : option nat;
  field_id : option nat;
  user_id : nat;
  expense_date : date;
  payment_method : string;
  payment_status : string;
  season : option string;
  crop_cycle : option string;
  notes : option string;
  supplier : option string                 (* supplier_ref.name *)
}.
End ExpenseRow.

(** An entry of [recent_activities]. *)
Record Activity (A : Type) := mkActivity {
  act_type : string;
  act_description : string;
  act_category : string;
  act_amount : A;
  act_date : date;
  act_quantity_display : string;
  act_supplier : option string
}.

Section Activities.
Context {A : Type} {AM : Amount A} {PM : PyMore A}.

(** [Expense.quantity_display] *)
Definition quantity_display (e : ExpenseRow.t A) : string :=
  match ExpenseRow.quantity e, ExpenseRow.unit e with
  | Some q, Some (String c r) =>
      if num_bool q then (num_str q ++ " " ++ String c r)%string else ""
  | _, _ => ""
  end.

Definition expense_activity (e : ExpenseRow.t A) : Activity A :=
  mkActivity "expense" (ExpenseRow.description e) (ExpenseRow.category e)
    (ExpenseRow.total_amount e) (ExpenseRow.expense_date e)
    (quantity_display e) (ExpenseRow.supplier e).

Definition fertilizer_activity (b : Bill.t A) (f : Fertilizer.t A) : Activity A :=
  mkActivity "fertilizer" (Fertilizer.name f) (Fertilizer.category f)
    (Fertilizer.price f) (Bill.purchase_date b) "" None.

(** [recent_activities] as the two loops fill it, before the sort. *)
Definition activity_candidates (expenses : list (ExpenseRow.t A))
    (bills : list (Bill.t A)) (db : Db A) : list (Activity A) :=
  map expense_activity (firstn 5 expenses)
  ++ flat_map (fun b => map (fertilizer_activity b) (fertilizers_of (Bill.id b) db))
       (firstn 3 bills).

(** [recent_activities] as the template gets it; [expenses] and [bills]
    are the two query results of [index]. *)
Definition recent_activities (expenses : list (ExpenseRow.t A))
    (bills : list (Bill.t A)) (db : Db A) : list (Activity A) :=
  firstn 8 (sort_by_date_desc (@act_date A) (activity_candidates expenses bills db)).

(** [current_season], from [datetime.now()] *)
Definition current_season (now : date) : string :=
  if existsb (Nat.eqb (month now)) [6; 7; 8; 9; 10] then "Kharif"
  else if existsb (Nat.eqb (month now)) [11; 12; 1; 2; 3; 4] then "Rabi"
  else "Zaid".

(** [exp.season == current_season] *)
Definition in_season (now : date) (e : ExpenseRow.t A) : bool :=
  match ExpenseRow.season e with
  | Some s => String.eqb s (current_season now)
  | None => false
  end.

(** [seasonal_expenses] *)
Definition seasonal_expenses (now : date) (expenses : list (ExpenseRow.t A)) : A :=
  py_sum (map (@ExpenseRow.total_amount A) (filter (in_season now) expenses)).
End Activities.

(* ================================================================== *)
(** * What an import adds *)

(** The items that groups entering the store with ids from [n] on add to
    the [fertilizer] table, in order. *)
Fixpoint items_from {A} (n : nat) (gs : list (Group A)) : list (Fertilizer.t A) :=
  match gs with
  | [] => []
  | g :: r => group_items n g ++ items_from (S n) r
  end.

(** An item with a name, a category of [FERTILIZER_CATEGORIES], and the
    id of one of the bills [bs]. *)
Definition filed_under {A} (bs : list (Bill.t A)) (f : Fertilizer.t A) : Prop :=
  is_empty (Fertilizer.name f) = false
  /\ is_category (Fertilizer.category f) = true
  /\ exists b, In b bs /\ Fertilizer.bill_id f = Some (Bill.id b).

(** A bill that did not exist in [db] and belongs to [uid]. *)
Definition new_bill_of {A} (uid : nat) (db : Db A) (b : Bill.t A) : Prop :=
  next_bill_id db <= Bill.id b /\ Bill.user_id b = uid.

(** The outcome of [import_data], flashes included. *)
Definition import_flashes {A} (o : Outcome A (ImportState A * list Flash)) : list Flash :=
  match o with
  | Returned r => snd r
  | Uncaught _ => []
  end.

(* ================================================================== *)
(** * The legacy view [add_fertilizer] *)

(** The fields of a validated [FertilizerForm] as the view reads them.
    [price_data] is [float(form.price.data)], [None] where
    [form.price.data] is false ([None] or zero). *)
Record FertilizerForm (A : Type) := mkFertilizerForm {
  name_data : option string;
  category_data : option string;
  price_data : option A
}.

(** [x or d] for a string that may be [None] *)
Definition str_or (x : option string) (d : string) : string :=
  match x with
  | Some (String c r) => String c r
  | _ => d
  end.

Section LegacyAdd.
Context {A : Type} {AM : Amount A} {PL : PyLib A}.

(** The item that the view builds for bill [bid]. *)
Definition legacy_item (form : FertilizerForm A) (bid : nat) : Fertilizer.t A :=
  Fertilizer.mk (str_or (name_data form) "")
    (match price_data form with
     | Some p => p
     | None => num_zero
     end)
    (str_or (category_data form) "Urea") (Some bid).

(** The view on a validated POST.  It has no [try]: an exception of the
    store escapes it.  The result carries the flashed message. *)
Definition add_fertilizer_view (uid : nat) (form : FertilizerForm A) (s : Session A)
  : Outcome A (Session A * list string) :=
  match add_bill_flush (Bill.mk 0 None today num_zero uid) s with
  | None => Uncaught s
  | Some (s1, bid) =>
      let s2 := add_fertilizer (legacy_item form bid) s1 in
      let s3 := fst (calculate_total bid s2) in
      match commit s3 with
      | None => Uncaught s3
      | Some s4 => Returned (s4, ["Fertilizer added successfully!"])
      end
  end.
End LegacyAdd.

(* ================================================================== *)
(** * The chat history of [ai_chat] and [ai_chat_widget] *)

(** An entry of [session['chat_history']]. *)
Record ChatMessage := mkChatMessage {
  msg_type : string;
  msg_message : string;
  msg_timestamp : string
}.

(** [l[-n:]] for a positive [n] *)
Definition last_n {T} (n : nat) (l : list T) : list T :=
  skipn (length l - n) l.

(** The two [append]s and the cut [chat_history[-20:]]. *)
Definition remember_exchange (chat_history : list ChatMessage)
    (question ai_response asked answered : string) : list ChatMessage :=
  last_n 20
    (chat_history
     ++ [mkChatMessage "user" question asked;
         mkChatMessage "ai" ai_response answered]).

(** A history made of whole exchanges: a question, then its answer. *)
Fixpoint exchanges (h : list ChatMessage) : Prop :=
  match h with
  | [] => True
  | u :: a :: r => msg_type u = "user" /\ msg_type a = "ai" /\ exchanges r
  | _ => False
  end.

(* ================================================================== *)
(** * Users *)

Module User.
Record t := mk {
  id : nat;
  name : string;
  email : string;
  password_hash : string;
  farm_name : option string;
  location : option string;
  is_user_active : bool
}.

(** [User.is_admin] *)
Definition is_admin (u : t) : bool := String.eqb (email u) "yashlawankar@gmail.com".

Definition set_is_user_active (v : bool) (u : t) : t :=
  mk (id u) (name u) (email u) (password_hash u) (farm_name u) (location u) v.
End User.

(* ================================================================== *)
(** * [FarmingAssistant.analyze_expenses] and the AI insights of [index] *)

(** An entry of [recent_expenses]. *)
Record RecentExpense (A : Type) := mkRecentExpense {
  recent_description : string;
  recent_category : string;
  recent_amount : A;
  recent_date : option string
}.

(** What is outside the repository: the call of the model and the text
    of the prompt. *)
Class Gemini (A : Type) := {
  (** [client.models.generate_content(model=m, contents=[context], ...)]:
      the [text] of the response, [None] or a string; [None] when the
      call raises *)
  generate_content : string -> string -> option (option string);
  (** the f-string [context] of [analyze_expenses], from the values it
      interpolates: total expenses, total acres (the [int] 0 as [None]),
      cost per acre, category breakdown, recent expenses, location and
      farm name *)
  analysis_context :
    A -> option A -> A -> list (string * A) -> list (RecentExpense A)
    -> string -> string -> string
}.

(** [d.replace(month=m)]; [None] when it raises [ValueError]. *)
Definition replace_month (d : date) (m : nat) : option date :=
  if (1 <=? m) && (m <=? 12) && (1 <=? day d) && (day d <=? Py.days_in_month (year d) m)
  then Some (mkdate (year d) m (day d))
  else None.

(** [d[k] += v] on a [defaultdict(float)] *)
Fixpoint defaultdict_add {A} {AM : Amount A} (k : string) (v : A)
    (d : list (string * A)) : list (string * A) :=
  match d with
  | [] => [(k, num_add num_zero v)]
  | (k', v') :: r =>
      if String.eqb k' k then (k', num_add v' v) :: r
      else (k', v') :: defaultdict_add k v r
  end.

(** [sum(field.area_acres for field in user_fields)] from [acc] on;
    [None] when an area is [None] ([TypeError]). *)
Fixpoint sum_areas (acc : float) (user_fields : list Field.t) : option float :=
  match user_fields with
  | [] => Some acc
  | f :: r =>
      match Field.area_acres f with
      | Some v => sum_areas (PrimFloat.add acc v) r
      | None => None
      end
  end.

Definition analysis_apology : string :=
  "I'm having trouble analyzing your expenses right now. Please try again later.".

Section Assistant.
Context {PL : PyLib float} {GM : Gemini float}.

(** The [for] loop of [analyze_expenses]; [None] when it raises. *)
Fixpoint analysis_loop (user_expenses : list (ExpenseRow.t float))
    (category_breakdown : list (string * float))
    (recent_expenses : list (RecentExpense float))
  : option (list (string * float) * list (RecentExpense float)) :=
  match user_expenses with
  | [] => Some (category_breakdown, recent_expenses)
  | expense :: rest =>
      let category_breakdown :=
        defaultdict_add (ExpenseRow.category expense)
          (ExpenseRow.total_amount expense) category_breakdown in
      match replace_month today (month today - 1) with
      | None => None
      | Some since =>
          analysis_loop rest category_breakdown
            (if date_ltb (ExpenseRow.expense_date expense) since
             then recent_expenses
             else recent_expenses
                  ++ [mkRecentExpense (ExpenseRow.description expense)
                        (ExpenseRow.category expense)
                        (ExpenseRow.total_amount expense)
                        (Some (strftime_ymd (ExpenseRow.expense_date expense)))])
      end
  end.

(** [total_acres]: the [int] 0 ([Some None]) without fields; [None]
    when the sum raises. *)
Definition analysis_total_acres (user_fields : list Field.t) : option (option float) :=
  match user_fields with
  | [] => Some None
  | _ => option_map Some (sum_areas PrimFloat.zero user_fields)
  end.

(** The [try] block of [analyze_expenses]; [None] when it raises. *)
Definition analyze_expenses_try (user_expenses : list (ExpenseRow.t float))
    (user_fields : list Field.t) (user_info : option User.t) : option string :=
  let total_expenses := py_sum (map (@ExpenseRow.total_amount float) user_expenses) in
  match analysis_loop user_expenses [] [] with
  | None => None
  | Some (category_breakdown, recent_expenses) =>
      match analysis_total_acres user_fields with
      | None => None
      | Some total_acres =>
          let cost_per_acre :=
            cost_per_acre total_expenses
              (match total_acres with
               | Some v => v
               | None => PrimFloat.zero
               end) in
          let context :=
            analysis_context total_expenses total_acres cost_per_acre
              category_breakdown recent_expenses
              (str_or (match user_info with
                       | Some u => User.location u
                       | None => None
                       end) "Not specified")
              (str_or (match user_info with
                       | Some u => User.farm_name u
                       | None => None
                       end) "Not specified") in
          match generate_content "gemini-2.5-pro" context with
          | None => None
          | Some (Some (String c r)) => Some (String c r)
          | Some _ => Some "Unable to analyze expenses at this time."
          end
      end
  end.

(** [analyze_expenses]: the [except] returns the apology. *)
Definition analyze_expenses (user_expenses : list (ExpenseRow.t float))
    (user_fields : list Field.t) (user_info : option User.t) : string :=
  match analyze_expenses_try user_expenses user_fields user_info with
  | Some text => text
  | None => analysis_apology
  end.

(** [ai_insights] of [index]; [farming_assistant] tells whether the
    module could be imported. *)
Definition ai_insights (farming_assistant : bool)
    (expenses : list (ExpenseRow.t float)) (bills : list (Bill.t float))
    (fields : list Field.t) (current_user : User.t) : option string :=
  if farming_assistant
     && (match expenses with [] => false | _ => true end
         || match bills with [] => false | _ => true end)
  then Some (analyze_expenses expenses (active_fields fields) (Some current_user))
  else None.
End Assistant.

(** A model that answers every prompt with one text. *)
Definition canned_gemini (answer : string) : Gemini float := {|
  generate_content := fun _ _ => Some (Some answer);
  analysis_context := fun _ _ _ _ _ _ _ => ""
|}.

Definition sample_expense (d : date) : ExpenseRow.t float :=
  ExpenseRow.mk "Urea, 2 bags" "fertilizers" (Some 2%float) (Some "bags")
    (Some 350%float) 700%float None None 7 d "Cash" "Paid" (Some "Rabi")
    None None None.

(* ================================================================== *)
(** * A session on any tables *)

(** As [Session], for the tables other than [bill] and [fertilizer]. *)
Record Tx (S : Type) := mkTx {
  tx_committed : S;
  tx_view : S;
  tx_budget : option nat
}.

Definition tx_open {S} (db : S) (trips : option nat) : Tx S := mkTx db db trips.

(** One database round trip: [None] when it raises. *)
Definition tx_round_trip {S} (s : Tx S) : option (Tx S) :=
  match tx_budget s with
  | None => Some s
  | Some O => None
  | Some (S n) => Some (mkTx (tx_committed s) (tx_view s) (Some n))
  end.

(** A change of the rows that the open transaction sees. *)
Definition tx_update {S} (f : S -> S) (s : Tx S) : Tx S :=
  mkTx (tx_committed s) (f (tx_view s)) (tx_budget s).

(** [db.session.commit()]: [None] when it raises. *)
Definition tx_commit {S} (s : Tx S) : option (Tx S) :=
  match tx_round_trip s with
  | None => None
  | Some s' => Some (mkTx (tx_view s') (tx_view s') (tx_budget s'))
  end.

(** [db.session.rollback()] *)
Definition tx_rollback {S} (s : Tx S) : Tx S :=
  mkTx (tx_committed s) (tx_committed s) (tx_budget s).

(* ================================================================== *)
(** * [toggle_user_status] *)

Inductive Reply :=
| Redirect (endpoint : string)
| Abort (status : nat).

Inductive AdminFlash :=
| FlashLogin                               (* login_manager.login_message *)
| FlashAccessDenied
| FlashOwnAccount
| FlashStatus (name status : string)
| FlashStatusError.

(** [user.is_user_active = not user.is_user_active] on the row that
    [User.query.get_or_404(user_id)] finds; [None] when there is no such
    row. *)
Fixpoint toggle_user (user_id : nat) (users : list User.t)
  : option (User.t * list User.t) :=
  match users with
  | [] => None
  | u :: r =>
      if User.id u =? user_id then
        let u' := User.set_is_user_active (negb (User.is_user_active u)) u in
        Some (u', u' :: r)
      else
        match toggle_user user_id r with
        | Some (u', r') => Some (u', u :: r')
        | None => None
        end
  end.

(** The view behind [@login_required] and [@admin_required].
    [current_user] is [None] for a visitor who is not logged in. *)
Definition toggle_user_status (current_user : option User.t) (user_id : nat)
    (s : Tx (list User.t)) : Tx (list User.t) * Reply * list AdminFlash :=
  match current_user with
  | None => (s, Redirect "login", [FlashLogin])
  | Some admin =>
      if negb (User.is_admin admin) then (s, Redirect "index", [FlashAccessDenied])
      else if User.id admin =? user_id then
        (s, Redirect "admin_dashboard", [FlashOwnAccount])
      else
        match tx_round_trip s with
        | None => (s, Abort 500, [])
        | Some s1 =>
            match toggle_user user_id (tx_view s1) with
            | None => (s1, Abort 404, [])
            | Some (user, users) =>
                let s2 := tx_update (fun _ => users) s1 in
                match tx_commit s2 with
                | Some s3 =>
                    (s3, Redirect "admin_dashboard",
                     [FlashStatus (User.name user)
                        (if User.is_user_active user then "activated"
                         else "deactivated")])
                | None =>
                    (tx_rollback s2, Redirect "admin_dashboard", [FlashStatusError])
                end
            end
        end
  end.

(** The [user] table after the request. *)
Definition users_after (current_user : option User.t) (user_id : nat)
    (users : list User.t) (trips : option nat) : list User.t :=
  tx_committed (fst (fst (toggle_user_status current_user user_id (tx_open users trips)))).

(** The columns of a user that are not the status. *)
Definition user_identity (u : User.t)
  : nat * string * string * string * option string * option string :=
  (User.id u, User.name u, User.email u, User.password_hash u,
   User.farm_name u, User.location u).

(* ================================================================== *)
(** * [admin_dashboard] *)

(** An entry of [user_stats]. *)
Record UserStats (A : Type) := mkUserStats {
  stats_user : User.t;
  stats_total_expenses : A;
  stats_total_bills : nat;
  stats_total_fertilizers : nat;
  stats_last_activity : option date
}.

(** What the template of [admin_dashboard] gets. *)
Record AdminDashboard (A : Type) := mkAdminDashboard {
  user_stats : list (UserStats A);
  total_users : nat;
  active_users : nat;
  total_platform_expenses : A;
  total_platform_bills : nat
}.

Section Admin.
Context {A : Type} {AM : Amount A}.

(** The body of the loop over the users. *)
Definition stats_of (db : Db A) (user : User.t) : UserStats A :=
  let bills := filter (fun b => Bill.user_id b =? User.id user) (bills db) in
  mkUserStats user
    (py_sum (map (@Bill.total_amount A) bills))
    (length bills)
    (list_sum (map (fun b => length (fertilizers_of (Bill.id b) db)) bills))
    (match bills with
     | b :: _ => Some (Bill.purchase_date b)
     | [] => None
     end).

(** [admin_dashboard] on the users as the query returns them. *)
Definition admin_dashboard (users : list User.t) (db : Db A) : AdminDashboard A :=
  mkAdminDashboard (map (stats_of db) users)
    (length users)
    (length (filter User.is_user_active users))
    (py_sum (map (@Bill.total_amount A) (bills db)))
    (length (bills db)).
End Admin.

(* ================================================================== *)
(** * Expense categories and [init_expense_categories] *)

Module ExpenseCategory.
Record t := mk {
  id : nat;
  name : string;
  display_name : string;
  icon : string;
  color : string;
  requires_quantity : bool;
  default_unit : string;
  description : option string;
  is_active : bool
}.
End ExpenseCategory.

(** An entry of [COMPREHENSIVE_EXPENSE_CATEGORIES]. *)
Record CategoryData := mkCategoryData {
  data_name : string;
  data_display_name : string;
  data_icon : string;
  data_color : string;
  data_requires_quantity : bool;
  data_default_unit : string;
  data_description : string
}.

Definition COMPREHENSIVE_EXPENSE_CATEGORIES : list CategoryData :=
  [ mkCategoryData "fertilizers" "Fertilizers & Nutrients" "fas fa-seedling" "success"
      true "kg" "All types of fertilizers including Urea, DAP, NPK, organic fertilizers";
    mkCategoryData "seeds" "Seeds & Planting Material" "fas fa-spa" "primary"
      true "kg" "Seeds, seedlings, saplings, bulbs for planting";
    mkCategoryData "labor" "Labor & Wages" "fas fa-users" "warning"
      true "days" "Worker wages, labor charges, contracted services";
    mkCategoryData "equipment" "Equipment & Machinery" "fas fa-cogs" "info"
      false "units" "Farm equipment, machinery purchase/rental, maintenance";
    mkCategoryData "crop_protection" "Crop Protection" "fas fa-shield-virus" "danger"
      true "liters" "Pesticides, insecticides, herbicides, fungicides";
    mkCategoryData "irrigation" "Irrigation & Water" "fas fa-tint" "info"
      true "hours" "Water charges, drip irrigation, sprinkler costs";
    mkCategoryData "land" "Land & Field Expenses" "fas fa-mountain" "secondary"
      true "acres" "Field rent, land preparation, leveling, bunding";
    mkCategoryData "transport" "Transportation & Logistics" "fas fa-truck" "dark"
      true "trips" "Transportation of inputs/outputs, logistics costs";
    mkCategoryData "marketing" "Marketing & Sales" "fas fa-chart-line" "success"
      false "units" "Market fees, packaging, storage, commission";
    mkCategoryData "utilities" "Utilities & Services" "fas fa-plug" "warning"
      false "units" "Electricity, fuel, phone, internet, professional services" ].

(** The [expense] and [expense_category] tables, rows in insertion
    order. *)
Record Ledger (A : Type) := mkLedger {
  expense_rows : list (ExpenseRow.t A);
  category_rows : list ExpenseCategory.t
}.

(** [ExpenseCategory.query.filter_by(name=name).first()] *)
Definition category_named (name : string) (rows : list ExpenseCategory.t)
  : option ExpenseCategory.t :=
  find (fun r => String.eqb (ExpenseCategory.name r) name) rows.

Section Categories.
Context {A : Type}.

(** [db.session.add(ExpenseCategory(...))]: the row gets the next id. *)
Definition add_category (c : CategoryData) (l : Ledger A) : Ledger A :=
  mkLedger (expense_rows l)
    (category_rows l
     ++ [ExpenseCategory.mk
           (S (list_max (map ExpenseCategory.id (category_rows l))))
           (data_name c) (data_display_name c) (data_icon c) (data_color c)
           (data_requires_quantity c) (data_default_unit c)
           (Some (data_description c)) true]).

(** The loop of [init_expense_categories] over [categories]; [None]
    when a query raises. *)
Fixpoint init_categories (categories : list CategoryData) (s : Tx (Ledger A))
  : option (Tx (Ledger A)) :=
  match categories with
  | [] => Some s
  | category_data :: rest =>
      match tx_round_trip s with
      | None => None
      | Some s1 =>
          match category_named (data_name category_data) (category_rows (tx_view s1)) with
          | Some _ => init_categories rest s1
          | None => init_categories rest (tx_update (add_category category_data) s1)
          end
      end
  end.

(** [init_expense_categories]; [None] when an exception escapes it. *)
Definition init_expense_categories (s : Tx (Ledger A)) : option (Tx (Ledger A)) :=
  match init_categories COMPREHENSIVE_EXPENSE_CATEGORIES s with
  | None => None
  | Some s' => tx_commit s'
  end.
End Categories.

(* ================================================================== *)
(** * [add_bulk_expenses] *)

(** The fields of the posted form that [add_bulk_expenses] reads. *)
Record BulkExpenseForm := mkBulkExpenseForm {
  bulk_expense_date : option string;        (* form.expense_date.data *)
  bulk_season : option string;              (* form.season.data *)
  bulk_crop_cycle : option string;          (* form.crop_cycle.data *)
  bulk_field_id : option nat;               (* form.field_id.data *)
  bulk_notes : option string;               (* form.notes.data *)
  expense_description : list string;        (* getlist('expense_description[]') *)
  expense_category : list string;           (* getlist('expense_category[]') *)
  expense_quantity : list string;           (* getlist('expense_quantity[]') *)
  expense_unit : list string;               (* getlist('expense_unit[]') *)
  expense_unit_price : list string;         (* getlist('expense_unit_price[]') *)
  expense_total : list string;              (* getlist('expense_total[]') *)
  expense_payment_method : list string      (* getlist('expense_payment_method[]') *)
}.

Inductive BulkFlash :=
| FlashBulkAdded (expenses_added : nat)
| FlashBulkError.

(** How a request on a [Tx] ends. *)
Inductive TxOutcome (S T : Type) :=
| TxReturned (t : T)
| TxUncaught (s : Tx S).
Arguments TxReturned {S T} t.
Arguments TxUncaught {S T} s.

(** The select fields that a form class defines, of the three that
    [populate_form_choices] fills. *)
Record FormClass := mkFormClass {
  has_category : bool;
  has_supplier_id : bool;
  has_field_id : bool
}.

(** [ComprehensiveExpenseForm] defines the three of them,
    [BulkExpenseForm] defines [field_id] only. *)
Definition ComprehensiveExpenseForm_class : FormClass := mkFormClass true true true.
Definition BulkExpenseForm_class : FormClass := mkFormClass false false true.

(** [populate_form_choices(form, user_id)]: three times a query, and
    its rows assigned to the [choices] of a field of the form.  [inl s]
    when an exception leaves the function in session state [s]: that of
    the query, or the [AttributeError] of [form.category],
    [form.supplier_id] or [form.field_id] on a form without the field. *)
Definition populate_form_choices {S} (form : FormClass) (s : Tx S) : Tx S + Tx S :=
  match tx_round_trip s with
  | None => inl s
  | Some s1 =>
      if has_category form then
        match tx_round_trip s1 with
        | None => inl s1
        | Some s2 =>
            if has_supplier_id form then
              match tx_round_trip s2 with
              | None => inl s2
              | Some s3 => if has_field_id form then inr s3 else inl s3
              end
            else inl s2
        end
      else inl s1
  end.

Section Bulk.
Context {A : Type} {AM : Amount A} {PL : PyLib A}.

(** [float(l[i]) if i < len(l) and l[i] else None]; the outer [None]
    when [float] raises. *)
Definition bulk_number (l : list string) (i : nat) : option (option A) :=
  match nth_error l i with
  | Some (String c r) => option_map Some (float_of_str (String c r))
  | _ => Some None
  end.

(** The three numbers of entry [i], read in the order of the code:
    quantity, unit price, total ([0.0] where there is none). *)
Definition bulk_numbers (form : BulkExpenseForm) (i : nat)
  : option (option A * option A * A) :=
  match bulk_number (expense_quantity form) i with
  | None => None
  | Some quantity =>
      match bulk_number (expense_unit_price form) i with
      | None => None
      | Some unit_price =>
          match bulk_number (expense_total form) i with
          | None => None
          | Some total_amount =>
              Some (quantity, unit_price,
                    match total_amount with
                    | Some v => v
                    | None => num_zero
                    end)
          end
      end
  end.

(** The [Expense] of entry [i], against the categories stored. *)
Definition bulk_expense (form : BulkExpenseForm) (uid : nat) (base_date : date)
    (categories : list ExpenseCategory.t) (i : nat) (description : string)
    (numbers : option A * option A * A) : ExpenseRow.t A :=
  let category := match nth_error (expense_category form) i with
                  | Some c => c
                  | None => "utilities"
                  end in
  ExpenseRow.mk (strip description) category
    (fst (fst numbers)) (nth_error (expense_unit form) i) (snd (fst numbers))
    (snd numbers)
    (option_map ExpenseCategory.id (category_named category categories))
    (match bulk_field_id form with
     | Some (S n) => Some (S n)
     | _ => None
     end)
    uid base_date
    (match nth_error (expense_payment_method form) i with
     | Some m => m
     | None => "Cash"
     end)
    "Paid" (bulk_season form) (bulk_crop_cycle form) (bulk_notes form) None.

(** [db.session.add(expense)] *)
Definition add_expense (e : ExpenseRow.t A) (l : Ledger A) : Ledger A :=
  mkLedger (expense_rows l ++ [e]) (category_rows l).

(** [for i, description in enumerate(descriptions)]; [inl s] when an
    exception leaves the loop in session state [s]. *)
Fixpoint add_bulk_items (form : BulkExpenseForm) (uid : nat) (base_date : date)
    (i : nat) (descriptions : list string) (s : Tx (Ledger A)) (expenses_added : nat)
  : Tx (Ledger A) + (Tx (Ledger A) * nat) :=
  match descriptions with
  | [] => inr (s, expenses_added)
  | description :: rest =>
      if is_empty (strip description) then
        add_bulk_items form uid base_date (S i) rest s expenses_added
      else
        match bulk_numbers form i with
        | None => inl s
        | Some numbers =>
            match tx_round_trip s with
            | None => inl s
            | Some s1 =>
                let expense :=
                  bulk_expense form uid base_date (category_rows (tx_view s1))
                    i description numbers in
                add_bulk_items form uid base_date (S i) rest
                  (tx_update (add_expense expense) s1) (S expenses_added)
            end
        end
  end.

(** The [try] block of a POST. *)
Definition add_bulk_try (uid : nat) (form : BulkExpenseForm) (s : Tx (Ledger A))
  : Tx (Ledger A) + (Tx (Ledger A) * nat) :=
  match match bulk_expense_date form with
        | Some d => strptime_ymd d
        | None => None
        end with
  | None => inl s
  | Some base_date =>
      match add_bulk_items form uid base_date 0 (expense_description form) s 0 with
      | inl s' => inl s'
      | inr (s', expenses_added) =>
          match tx_commit s' with
          | None => inl s'
          | Some s'' => inr (s'', expenses_added)
          end
      end
  end.

(** [add_bulk_expenses] on a POST: [populate_form_choices] on the
    [BulkExpenseForm], in front of the [try]; then the [try] block, and
    in the [except] the rollback, the flash and the query for the
    template. *)
Definition add_bulk_expenses (uid : nat) (form : BulkExpenseForm) (s : Tx (Ledger A))
  : TxOutcome (Ledger A) (Tx (Ledger A) * list BulkFlash) :=
  match populate_form_choices BulkExpenseForm_class s with
  | inl s0 => TxUncaught s0
  | inr s0 =>
      match add_bulk_try uid form s0 with
      | inr (s', expenses_added) => TxReturned (s', [FlashBulkAdded expenses_added])
      | inl s' =>
          match tx_round_trip (tx_rollback s') with
          | None => TxUncaught (tx_rollback s')
          | Some s'' => TxReturned (s'', [FlashBulkError])
          end
      end
  end.

(** The durable rows and the flashes once the request is over. *)
Definition bulk_durable (o : TxOutcome (Ledger A) (Tx (Ledger A) * list BulkFlash))
  : Ledger A :=
  match o with
  | TxReturned r => tx_committed (fst r)
  | TxUncaught s => tx_committed s
  end.

Definition bulk_flashes (o : TxOutcome (Ledger A) (Tx (Ledger A) * list BulkFlash))
  : list BulkFlash :=
  match o with
  | TxReturned r => snd r
  | TxUncaught _ => []
  end.

End Bulk.

(** A bulk form of three entries, the second without description. *)
Definition sample_bulk_form (second_total : string) : BulkExpenseForm :=
  mkBulkExpenseForm (Some "2025-06-15") (Some "Kharif") None None None
    ["Urea"; "  "; "Diesel"] ["fertilizers"; "seeds"; "utilities"]
    ["2"; ""; ""] ["bags"; "kg"; "liters"] ["350"; ""; ""]
    ["700"; "10"; second_total] ["Cash"; "UPI"].

Definition sample_ledger : Ledger float :=
  mkLedger []
    [ExpenseCategory.mk 1 "fertilizers" "Fertilizers & Nutrients" "fas fa-seedling"
       "success" true "kg" None true].

(** One turn of the loop of [init_expense_categories] on the rows. *)
Definition init_step {A} (l : Ledger A) (category_data : CategoryData) : Ledger A :=
  match category_named (data_name category_data) (category_rows l) with
  | Some _ => l
  | None => add_category category_data l
  end.

(* ================================================================== *)
(** * [register] *)

(** The fields of a validated [RegisterForm]. *)
Record RegisterForm := mkRegisterForm {
  register_name : option string;
  register_email : option string;
  register_farm_name : option string;
  register_location : option string
}.

Inductive RegisterFlash :=
| FlashEmailTaken
| FlashRegistered
| FlashRegistrationFailed.

(** [s.lower()] *)
Class PyStr := {
  str_lower : string -> string
}.

Section Register.
Context {A : Type} {PL : PyLib A} {PS : PyStr}.

(** [form.email.data.strip().lower() if form.email.data else ''] *)
Definition register_address (form : RegisterForm) : string :=
  match register_email form with
  | Some (String c r) => str_lower (strip (String c r))
  | _ => ""
  end.

(** [x.strip() if x else None] *)
Definition strip_or_none (x : option string) : option string :=
  match x with
  | Some (String c r) => Some (strip (String c r))
  | _ => None
  end.

(** [register] on a validated POST; [password_hash] is what
    [generate_password_hash] has made of the password. *)
Definition register (form : RegisterForm) (password_hash : string)
    (s : Tx (list User.t))
  : TxOutcome (list User.t) (Tx (list User.t) * list RegisterFlash) :=
  let email := register_address form in
  match tx_round_trip s with
  | None => TxUncaught s
  | Some s1 =>
      match find (fun u => String.eqb (User.email u) email) (tx_view s1) with
      | Some _ => TxReturned (s1, [FlashEmailTaken])
      | None =>
          let user :=
            User.mk (S (list_max (map User.id (tx_view s1))))
              (str_or (register_name form) "") email password_hash
              (strip_or_none (register_farm_name form))
              (strip_or_none (register_location form)) true in
          let s2 := tx_update (fun users => users ++ [user]) s1 in
          match tx_commit s2 with
          | Some s3 => TxReturned (s3, [FlashRegistered])
          | None => TxReturned (tx_rollback s2, [FlashRegistrationFailed])
          end
      end
  end.

(** The [user] table once the request is over. *)
Definition registered (form : RegisterForm) (password_hash : string)
    (users : list User.t) (trips : option nat) : list User.t :=
  match register form password_hash (tx_open users trips) with
  | TxReturned r => tx_committed (fst r)
  | TxUncaught s => tx_committed s
  end.
End Register.

(** ASCII letters to lower case. *)
Definition py_str : PyStr := {| str_lower := Py.lower_str |}.

(* ================================================================== *)
(** * [download_sample_csv] *)

(** The rows of the sample file. *)
Definition sample_data : list (list string) :=
  [ [ "Purchase Date"; "Bill Number"; "Fertilizer Name"; "Category";
      ("Price (" ++ rupee ++ ")")%string ];
    [ "2025-01-15"; "BILL-001"; "Coromandel Urea"; "Urea"; "350.00" ];
    [ "2025-01-15"; "BILL-001"; "IFFCO DAP"; "DAP"; "1200.00" ];
    [ "2025-01-16"; "BILL-002"; "Krishak NPK"; "NPK"; "850.00" ];
    [ "2025-01-16"; "BILL-002"; "MOP Fertilizer"; "MOP"; "600.00" ] ].

(* ================================================================== *)
(** * Properties of [calculate_total] *)

Section TotalsFacts.
Context {A : Type} {AM : Amount A}.

Lemma total_of_set_total (bid : nat) (v : A) (s : Session A) :
  total_of bid (view (set_total bid v s))
  = option_map (fun _ => v) (total_of bid (view s)).
Proof.
  unfold total_of, set_total; simpl.
  induction (bills (view s)) as [|b l IH]; simpl; [reflexivity|].
  destruct (Bill.id b =? bid) eqn:E; simpl.
  - rewrite E. reflexivity.
  - rewrite E. exact IH.
Qed.

Lemma round_trip_view (s s' : Session A) :
  round_trip s = Some s' -> view s' = view s /\ committed s' = committed s.
Proof.
  unfold round_trip. destruct (budget s) as [[|n]|]; intros E; inversion E; auto.
Qed.

Lemma calculate_total_eq (bid : nat) (s : Session A) :
  calculate_total bid s
  = match round_trip s with
    | Some s' =>
        let v := py_sum (map (@Fertilizer.price A) (fertilizers_of bid (view s))) in
        (set_total bid v s', v)
    | None => (set_total bid num_zero s, num_zero)
    end.
Proof.
  unfold calculate_total, load_fertilizers.
  destruct (round_trip s) as [s'|] eqn:E; [|reflexivity].
  destruct (round_trip_view _ E) as [-> _]. reflexivity.
Qed.
End TotalsFacts.

(** C1: after [calculate_total] the bill's [total_amount] (and the value
    returned) is the sum of the prices of its line items; it is [0.0]
    when the bill has no items and when the items cannot be read. *)
Theorem calculate_total_is_sum_of_prices :
  forall (A : Type) (AM : Amount A) (bid : nat) (s : Session A),
    let items := fertilizers_of bid (view s) in
    let expected := match round_trip s with
                    | Some _ => py_sum (map (@Fertilizer.price A) items)
                    | None => num_zero
                    end in
    snd (calculate_total bid s) = expected
    /\ total_of bid (view (fst (calculate_total bid s)))
       = option_map (fun _ => expected) (total_of bid (view s))
    /\ fertilizers (view (fst (calculate_total bid s))) = fertilizers (view s)
    /\ match items with
       | [] => snd (calculate_total bid s) = num_zero
       | _ :: _ => True
       end.
Proof.
  intros A AM bid s items expected. subst items expected.
  rewrite calculate_total_eq.
  destruct (round_trip s) as [s'|] eqn:E; cbn [fst snd].
  - destruct (round_trip_view _ E) as [Hv _].
    repeat split.
    + rewrite total_of_set_total, Hv. reflexivity.
    + simpl. now rewrite Hv.
    + destruct (fertilizers_of bid (view s)); [reflexivity | exact I].
  - repeat split.
    + apply total_of_set_total.
    + destruct (fertilizers_of bid (view s)); [reflexivity | exact I].
Qed.

(* ================================================================== *)
(** * Concrete imports *)

(** A price with the rupee sign and a thousands comma. *)
Example rupee_price :
  row_price (PL := py_lib (mkdate 2025 1 20))
    ["2025-01-15"; "BILL-001"; "Urea A"; "Urea"; (rupee ++ "1,200.50")%string]
  = Some 1200.5%float.
Proof. vm_compute. reflexivity. Qed.

(** C4: the two-row file gives one bill of total 300.00 with two items. *)
Theorem two_row_import_one_bill :
  forall (uid : nat) (now : date),
    import_data (PL := py_lib now) uid two_row_csv (open_session empty_db None)
    = Returned
        (mkImportState
           (mkSession
              (mkDb [Bill.mk 1 (Some "BILL-001") (mkdate 2025 1 15) 300%float uid]
                    [Fertilizer.mk "Urea A" 100%float "Urea" (Some 1);
                     Fertilizer.mk "DAP B" 200%float "DAP" (Some 1)])
              (mkDb [Bill.mk 1 (Some "BILL-001") (mkdate 2025 1 15) 300%float uid]
                    [Fertilizer.mk "Urea A" 100%float "Urea" (Some 1);
                     Fertilizer.mk "DAP B" 200%float "DAP" (Some 1)])
              None)
           1 2 [] (Some 1) (Some "2025-01-15_BILL-001"),
         [FlashImported 1 2]).
Proof. intros uid now. vm_compute. reflexivity. Qed.

(* ================================================================== *)
(** * The import loop refines the grouping by adjacency *)

Section RefinementFacts.
Context {A : Type} {AM : Amount A} {PL : PyLib A}.
Variable uid : nat.

Lemma bill_ids_below_next (db : Db A) :
  Forall (fun b => Bill.id b < next_bill_id db) (bills db).
Proof.
  unfold next_bill_id.
  assert (E : Forall (fun k => k <= list_max (map (@Bill.id A) (bills db)))
                (map (@Bill.id A) (bills db))).
  { apply list_max_le. lia. }
  rewrite Forall_map in E.
  eapply Forall_impl; [|exact E]. simpl. intros; lia.
Qed.

Lemma set_total_last (l : list (Bill.t A)) i nb d t u (v : A) :
  Forall (fun b => Bill.id b < i) l ->
  map (fun b => if Bill.id b =? i then Bill.set_total_amount v b else b)
    (l ++ [Bill.mk i nb d t u])
  = l ++ [Bill.mk i nb d v u].
Proof.
  intros F. rewrite map_app. f_equal.
  - induction F as [|b l Hb F IH]; simpl; [reflexivity|].
    rewrite IH. destruct (Bill.id b =? i) eqn:E; [|reflexivity].
    apply Nat.eqb_eq in E. lia.
  - simpl. rewrite Nat.eqb_refl. reflexivity.
Qed.

Lemma fertilizers_of_open (db : Db A) (g : Group A) :
  fertilizers_of (next_bill_id db) (open_view uid db g)
  = fertilizers_of (next_bill_id db) db ++ group_items (next_bill_id db) g.
Proof.
  unfold fertilizers_of, open_view; simpl. rewrite filter_app. f_equal.
  unfold group_items.
  induction (named (group_lines g)) as [|l ls IH]; simpl; [reflexivity|].
  rewrite Nat.eqb_refl, IH. reflexivity.
Qed.

(** Closing the bill in progress: [calculate_total] turns the open
    view into the store with the group added. *)
Lemma finalize_open (db0 db : Db A) (g : Group A) :
  fst (calculate_total (next_bill_id db) (mkSession db0 (open_view uid db g) None))
  = mkSession db0 (add_group uid db g) None.
Proof.
  rewrite calculate_total_eq. cbn [round_trip budget fst].
  unfold set_total. cbn [committed view budget].
  rewrite fertilizers_of_open.
  unfold open_view, add_group. cbn [bills fertilizers].
  rewrite set_total_last by apply bill_ids_below_next.
  reflexivity.
Qed.

(** Opening a bill: insert and flush. *)
Lemma open_bill (db0 db : Db A) (k nb : string) (d : date) :
  add_bill_flush (Bill.mk 0 (none_if_empty nb) d num_zero uid) (mkSession db0 db None)
  = Some (mkSession db0 (open_view uid db (mkGroup k nb d [])) None, next_bill_id db).
Proof.
  unfold add_bill_flush, open_view, group_items. simpl.
  rewrite app_nil_r. reflexivity.
Qed.

Lemma named_app (l1 l2 : list (Line A)) : named (l1 ++ l2) = named l1 ++ named l2.
Proof. apply filter_app. Qed.

Lemma open_view_extend (db : Db A) (g : Group A) (l : Line A) :
  open_view uid db (extend_group g l)
  = mkDb (bills (open_view uid db g))
      (fertilizers (open_view uid db g)
       ++ (if is_empty (line_name l) then [] else [item_of (next_bill_id db) l])).
Proof.
  unfold open_view, group_items, extend_group. cbn [group_lines group_number group_date bills fertilizers].
  rewrite named_app, map_app, app_assoc. f_equal. f_equal.
  unfold named. simpl. destruct (is_empty (line_name l)); reflexivity.
Qed.

Lemma parse_line_some (row : list string) (l : Line A) :
  parse_line row = Some l ->
  (4 <=? length row) = true
  /\ row_price row = Some (line_price l)
  /\ line_key l = row_key row
  /\ line_number l = row_bill_number row
  /\ line_date l = row_date row
  /\ line_name l = row_name row
  /\ line_category l = row_category row.
Proof.
  unfold parse_line.
  destruct (4 <=? length row); [|discriminate].
  destruct (row_price row) as [p|]; [|discriminate].
  intros E; inversion E; subst; simpl. repeat split; reflexivity.
Qed.

(** The item block on a state that tracks an open group. *)
Lemma add_item_tracks (db0 : Db A) st db g row (l : Line A) :
  parse_line row = Some l ->
  tracks uid db0 st db (Some g) ->
  tracks uid db0 (add_item row (line_price l) st) db (Some (extend_group g l))
  /\ bills_created (add_item row (line_price l) st) = bills_created st
  /\ imported_count (add_item row (line_price l) st)
     = imported_count st + length (named [l])
  /\ errors (add_item row (line_price l) st) = errors st.
Proof.
  intros P T. inversion T as [|g' Hs Hb Hk]; subst.
  destruct (parse_line_some _ P) as (_ & _ & Ek & En & Ed & Ena & Ec).
  unfold add_item, named. simpl filter. rewrite <- Ena.
  destruct (is_empty (line_name l)) eqn:E; simpl.
  - repeat split; try lia.
    constructor; auto. rewrite Hs, open_view_extend, E, app_nil_r.
    destruct (open_view uid db g); reflexivity.
  - repeat split; try lia.
    constructor; simpl; auto.
    rewrite Hs, Hb, open_view_extend, E. unfold add_fertilizer. simpl.
    unfold item_of. rewrite Ena, Ec. reflexivity.
Qed.

(** One row of the loop against one step of the specification. *)
Lemma import_row_tracks (db0 : Db A) st db cur row_num row :
  tracks uid db0 st db cur ->
  match parse_line row with
  | Some l =>
      exists st',
        import_row uid row_num row st = Returned st'
        /\ tracks uid db0 st' (fst (spec_step uid db cur l)) (snd (spec_step uid db cur l))
        /\ bills_created st' = bills_created st + opens cur l
        /\ imported_count st' = imported_count st + length (named [l])
        /\ errors st' = errors st
  | None =>
      exists st',
        import_row uid row_num row st = Returned st'
        /\ tracks uid db0 st' db cur
        /\ bills_created st' = bills_created st
        /\ imported_count st' = imported_count st
        /\ errors st' = errors st ++ spec_errors row_num [row]
  end.
Proof.
  intros T.
  destruct (parse_line row) as [l|] eqn:P.
  - destruct (parse_line_some _ P) as (L & Pr & Ek & En & Ed & Ena & Ec).
    unfold import_row. rewrite L, Pr.
    unfold start_bill. rewrite <- Ek.
    inversion T as [Hs Hb Hk | g Hs Hb Hk]; subst cur.
    + rewrite Hk, Hb, Hs. cbn [key_differs].
      rewrite <- En, <- Ed, (open_bill db0 db (line_key l)).
      match goal with |- context [add_item row _ ?st1] =>
        destruct (@add_item_tracks db0 st1 db
                    (mkGroup (line_key l) (line_number l) (line_date l) []) row l P)
          as (T' & B' & I' & E') end.
      { constructor; reflexivity. }
      eexists; split; [reflexivity|].
      simpl opens. simpl spec_step. cbn [fst snd].
      split; [exact T'|]. rewrite B', I', E'. simpl. repeat split; lia.
    + rewrite Hk. cbn [key_differs opens spec_step].
      destruct (String.eqb (group_key g) (line_key l)) eqn:K; cbn [negb fst snd].
      * destruct (@add_item_tracks db0 st db g row l P T) as (T' & B' & I' & E').
        eexists; split; [reflexivity|].
        split; [exact T'|]. rewrite B', I', E'. repeat split; lia.
      * rewrite Hb, Hs, finalize_open.
        rewrite <- En, <- Ed, (open_bill db0 (add_group uid db g) (line_key l)).
        match goal with |- context [add_item row _ ?st1] =>
          destruct (@add_item_tracks db0 st1 (add_group uid db g)
                      (mkGroup (line_key l) (line_number l) (line_date l) []) row l P)
            as (T' & B' & I' & E') end.
        { constructor; reflexivity. }
        eexists; split; [reflexivity|].
        split; [exact T'|]. rewrite B', I', E'. simpl. repeat split; lia.
  - unfold import_row. unfold parse_line in P.
    unfold spec_errors. rewrite app_nil_r.
    destruct (4 <=? length row) eqn:L.
    + destruct (row_price row) as [p|] eqn:Pr; [discriminate|].
      eexists; split; [reflexivity|]. cbn [bills_created imported_count errors].
      repeat split; auto.
      inversion T; subst; constructor; auto.
    + exists st. rewrite app_nil_r. repeat split; auto.
Qed.

Lemma fold_group_adjacent_step (db : Db A) cur (l : Line A) ls :
  fold_left (add_group uid) (group_adjacent cur (l :: ls)) db
  = fold_left (add_group uid)
      (group_adjacent (snd (spec_step uid db cur l)) ls)
      (fst (spec_step uid db cur l)).
Proof.
  destruct cur as [g|]; simpl; [|reflexivity].
  destruct (String.eqb (group_key g) (line_key l)); reflexivity.
Qed.

Lemma count_group_adjacent_step (db : Db A) cur (l : Line A) ls :
  length (group_adjacent cur (l :: ls)) + 1
  = open_count cur + opens cur l
    + length (group_adjacent (snd (spec_step uid db cur l)) ls).
Proof.
  destruct cur as [g|]; simpl; [|lia].
  destruct (String.eqb (group_key g) (line_key l)); simpl; lia.
Qed.

Lemma spec_step_opens (db : Db A) cur (l : Line A) :
  open_count (snd (spec_step uid db cur l)) = 1.
Proof.
  destruct cur as [g|]; simpl; [|reflexivity].
  destruct (String.eqb (group_key g) (line_key l)); reflexivity.
Qed.

(** After the loop: the last total and the commit. *)
Lemma finish_import_tracks (db0 : Db A) st db cur :
  tracks uid db0 st db cur ->
  exists st',
    finish_import st = (st', success_flashes st')
    /\ sess st' = mkSession (close_group uid db cur) (close_group uid db cur) None
    /\ bills_created st' = bills_created st
    /\ imported_count st' = imported_count st
    /\ errors st' = errors st.
Proof.
  intros T. unfold finish_import.
  inversion T as [Hs Hb Hk | g Hs Hb Hk]; subst cur.
  - rewrite Hb, Hs. simpl.
    match goal with |- exists st', (?x, _) = _ /\ _ => exists x end.
    split; [reflexivity|]. simpl. auto.
  - rewrite Hb, Hs, finalize_open. simpl.
    match goal with |- exists st', (?x, _) = _ /\ _ => exists x end.
    split; [reflexivity|]. simpl. auto.
Qed.

Lemma spec_errors_cons (n : nat) (row : list string) rest :
  spec_errors n (row :: rest) = spec_errors n [row] ++ spec_errors (S n) rest.
Proof. simpl. rewrite app_nil_r. reflexivity. Qed.

(** The whole run from a tracked state. *)
Lemma run_import_refines (db0 : Db A) rows :
  forall row_num st db cur,
    tracks uid db0 st db cur ->
    exists st',
      run_import uid row_num rows st = Returned (st', success_flashes st')
      /\ sess st'
         = (let final := fold_left (add_group uid)
                           (group_adjacent cur (parse_lines rows)) db in
            mkSession final final None)
      /\ bills_created st' + open_count cur
         = bills_created st + length (group_adjacent cur (parse_lines rows))
      /\ imported_count st' = imported_count st + length (named (parse_lines rows))
      /\ errors st' = errors st ++ spec_errors row_num rows.
Proof.
  induction rows as [|row rows IH]; intros row_num st db cur T.
  - unfold run_import. simpl import_rows.
    destruct (finish_import_tracks T) as (st' & F & S' & B & I & E).
    exists st'. rewrite F. split; [reflexivity|].
    rewrite S', B, I, E. simpl. rewrite app_nil_r.
    destruct cur; simpl; repeat split; lia.
  - pose proof (import_row_tracks row_num row T) as R.
    unfold run_import. simpl import_rows.
    unfold parse_lines. simpl flat_map. fold (parse_lines rows).
    rewrite spec_errors_cons.
    destruct (parse_line row) as [l|] eqn:P.
    + assert (Z : spec_errors row_num [row] = []).
      { unfold spec_errors. unfold parse_line in P.
        destruct (4 <=? length row); [|reflexivity].
        destruct (row_price row); [reflexivity|discriminate]. }
      rewrite Z.
      destruct R as (st1 & R & T1 & B1 & I1 & E1). rewrite R.
      destruct (IH (S row_num) _ _ _ T1) as (st' & Run & S' & B & I & E).
      unfold run_import in Run. exists st'. split; [exact Run|].
      simpl app. rewrite fold_group_adjacent_step. split; [exact S'|].
      rewrite spec_step_opens in B.
      pose proof (count_group_adjacent_step db cur l (parse_lines rows)) as C.
      unfold named in *. rewrite I, I1, E, E1. simpl filter.
      destruct (negb (is_empty (line_name l))); simpl length in *;
        repeat split; lia.
    + destruct R as (st1 & R & T1 & B1 & I1 & E1). rewrite R.
      destruct (IH (S row_num) _ _ _ T1) as (st' & Run & S' & B & I & E).
      unfold run_import in Run. exists st'. split; [exact Run|].
      simpl app. split; [exact S'|].
      rewrite I, I1, E, E1, <- app_assoc. repeat split; lia.
Qed.
End RefinementFacts.

(** The import on a store that does not fail: it returns, having
    committed what the grouping by adjacency prescribes. *)
Theorem import_refines_spec :
  forall (A : Type) (AM : Amount A) (PL : PyLib A) (uid : nat)
         (csv_input : list (list string)) (db : Db A),
  exists st,
    import_data uid csv_input (open_session db None)
    = Returned (st, success_flashes st)
    /\ sess st = mkSession (spec_import uid csv_input db)
                   (spec_import uid csv_input db) None
    /\ bills_created st = length (spec_groups csv_input)
    /\ imported_count st = length (named (parse_lines (tl csv_input)))
    /\ errors st = spec_errors 2 (tl csv_input).
Proof.
  intros A AM PL uid csv_input db.
  assert (T : tracks uid db (start_import (open_session db None)) db None).
  { constructor; reflexivity. }
  destruct (run_import_refines (tl csv_input) 2 T) as (st & Run & S' & B & I & E).
  exists st. unfold import_data. unfold run_import in Run.
  destruct (import_rows uid 2 (tl csv_input) (start_import (open_session db None)));
    [|discriminate].
  split; [exact Run|]. split; [exact S'|].
  simpl in B, I, E. unfold spec_groups. repeat split; try lia; assumption.
Qed.

(* ================================================================== *)
(** * Faults: a run either follows the fault-free run or commits nothing *)

Section SessionFaults.
Context {A : Type} {AM : Amount A}.

Lemma round_trip_none (s : Session A) : round_trip s = None <-> dead s.
Proof.
  unfold round_trip, dead. destruct (budget s) as [[|n]|]; split; congruence.
Qed.

Lemma round_trip_forget (s s' : Session A) :
  round_trip s = Some s' ->
  forget_budget s' = forget_budget s.
Proof.
  intros E. destruct (round_trip_view _ E) as [V C].
  unfold forget_budget. now rewrite V, C.
Qed.

Lemma round_trip_fault_free (s : Session A) :
  round_trip (forget_budget s) = Some (forget_budget s).
Proof. reflexivity. Qed.

Lemma calculate_total_committed (i : nat) (s : Session A) :
  committed (fst (calculate_total i s)) = committed s.
Proof.
  rewrite calculate_total_eq.
  destruct (round_trip s) as [s'|] eqn:E; simpl; [|reflexivity].
  now destruct (round_trip_view _ E).
Qed.

Lemma calculate_total_dead (i : nat) (s : Session A) :
  dead s -> dead (fst (calculate_total i s)).
Proof.
  intros D. rewrite calculate_total_eq.
  pose proof D as D'. apply round_trip_none in D'. rewrite D'. exact D.
Qed.

Lemma calculate_total_faults (i : nat) (s : Session A) :
  dead (fst (calculate_total i s))
  \/ forget_budget (fst (calculate_total i s))
     = fst (calculate_total i (forget_budget s)).
Proof.
  rewrite !calculate_total_eq.
  destruct (round_trip s) as [s'|] eqn:E.
  - right. rewrite round_trip_fault_free. cbn [fst].
    pose proof (round_trip_forget _ E) as F.
    unfold forget_budget in *. unfold set_total. simpl.
    inversion F as [[C V]]. rewrite C, V. reflexivity.
  - left. simpl. now apply round_trip_none in E.
Qed.

Lemma add_bill_flush_faults (b : Bill.t A) (s : Session A) :
  match add_bill_flush b s with
  | None => dead s
  | Some (s', i) =>
      committed s' = committed s
      /\ add_bill_flush b (forget_budget s) = Some (forget_budget s', i)
  end.
Proof.
  unfold add_bill_flush.
  destruct (round_trip s) as [s'|] eqn:E.
  - destruct (round_trip_view _ E) as [V C].
    split; [simpl; exact C|].
    rewrite round_trip_fault_free. unfold forget_budget. simpl.
    rewrite V, C. reflexivity.
  - now apply round_trip_none.
Qed.

Lemma commit_faults (s : Session A) :
  match commit s with
  | None => True
  | Some s' =>
      committed s' = view s /\ commit (forget_budget s) = Some (forget_budget s')
  end.
Proof.
  unfold commit. destruct (round_trip s) as [s'|] eqn:E; [|exact I].
  destruct (round_trip_view _ E) as [V C]. simpl. split; [exact V|].
  unfold forget_budget. simpl. now rewrite V.
Qed.

Lemma commit_dead (s : Session A) : dead s -> commit s = None.
Proof.
  intros D. unfold commit. apply round_trip_none in D. now rewrite D.
Qed.
End SessionFaults.

Section ImportFaults.
Context {A : Type} {AM : Amount A} {PL : PyLib A}.
Variable uid : nat.

Lemma add_item_forget row (p : A) st :
  forget_state (add_item row p st) = add_item row p (forget_state st)
  /\ committed (sess (add_item row p st)) = committed (sess st)
  /\ budget (sess (add_item row p st)) = budget (sess st).
Proof.
  unfold add_item. destruct (is_empty (row_name row)); auto.
Qed.

(** One row under faults: an escaped exception or a return with the
    durable rows untouched; a return on a live session is the
    fault-free step. *)
Lemma import_row_faults row_num row st :
  match import_row uid row_num row st with
  | Uncaught s => committed s = committed (sess st)
  | Returned st' =>
      committed (sess st') = committed (sess st)
      /\ (dead (sess st) -> dead (sess st'))
      /\ (dead (sess st')
          \/ import_row uid row_num row (forget_state st)
             = Returned (forget_state st'))
  end.
Proof.
  unfold import_row.
  destruct (4 <=? length row); [|auto].
  destruct (row_price row) as [p|]; [|simpl; auto].
  unfold start_bill. cbn [forget_state current_bill_key current_bill sess].
  destruct (key_differs (current_bill_key st) (row_key row)).
  - set (s1 := match current_bill st with
               | Some b => fst (calculate_total b (sess st))
               | None => sess st
               end).
    set (s1f := match current_bill st with
                | Some b => fst (calculate_total b (forget_budget (sess st)))
                | None => forget_budget (sess st)
                end).
    assert (C1 : committed s1 = committed (sess st)).
    { subst s1. destruct (current_bill st); [apply calculate_total_committed | reflexivity]. }
    assert (D1 : dead (sess st) -> dead s1).
    { subst s1. destruct (current_bill st); [apply calculate_total_dead | auto]. }
    assert (F1 : dead s1 \/ forget_budget s1 = s1f).
    { subst s1 s1f. destruct (current_bill st); [apply calculate_total_faults | auto]. }
    match goal with |- context [add_bill_flush ?b s1] =>
      pose proof (add_bill_flush_faults b s1) as AF;
      destruct (add_bill_flush b s1) as [[s2 i]|] eqn:E end.
    + destruct AF as [C2 AF].
      destruct (add_item_forget row p
                  (mkImportState s2 (S (bills_created st)) (imported_count st)
                     (errors st) (Some i) (Some (row_key row)))) as (FI & CI & BI).
      rewrite CI. cbn [sess]. split; [congruence|].
      split.
      * intros D. apply D1 in D. apply round_trip_none in D.
        unfold add_bill_flush in E. rewrite D in E. discriminate.
      * destruct F1 as [D|F1].
        { apply round_trip_none in D.
          unfold add_bill_flush in E. rewrite D in E. discriminate. }
        right. rewrite <- F1, AF, FI. reflexivity.
    + exact C1.
  - destruct (add_item_forget row p st) as (FI & CI & BI).
    split; [exact CI|]. split.
    + unfold dead. now rewrite BI.
    + right. rewrite FI. destruct st; reflexivity.
Qed.

Lemma import_rows_faults rows :
  forall row_num st,
    match import_rows uid row_num rows st with
    | Uncaught s => committed s = committed (sess st)
    | Returned st' =>
        committed (sess st') = committed (sess st)
        /\ (dead (sess st) -> dead (sess st'))
        /\ (dead (sess st')
            \/ import_rows uid row_num rows (forget_state st)
               = Returned (forget_state st'))
    end.
Proof.
  induction rows as [|row rows IH]; intros row_num st; simpl.
  - auto.
  - pose proof (import_row_faults row_num row st) as R.
    destruct (import_row uid row_num row st) as [st1|s]; [|exact R].
    destruct R as (C1 & D1 & F1).
    pose proof (IH (S row_num) st1) as R2.
    destruct (import_rows uid (S row_num) rows st1) as [st2|s]; [|congruence].
    destruct R2 as (C2 & D2 & F2).
    split; [congruence|]. split; [auto|].
    destruct F1 as [D|F1]; [left; auto|].
    rewrite F1. exact F2.
Qed.

Lemma finish_import_faults st :
  let r := finish_import st in
  committed (sess (fst r)) = committed (sess st)
  \/ (fst (finish_import (forget_state st)) = forget_state (fst r)
      /\ committed (sess (fst r)) = view (sess (fst r))).
Proof.
  unfold finish_import. cbn [forget_state current_bill sess].
  set (s1 := match current_bill st with
             | Some b => fst (calculate_total b (sess st))
             | None => sess st
             end).
  set (s1f := match current_bill st with
              | Some b => fst (calculate_total b (forget_budget (sess st)))
              | None => forget_budget (sess st)
              end).
  assert (C1 : committed s1 = committed (sess st)).
  { subst s1. destruct (current_bill st); [apply calculate_total_committed | reflexivity]. }
  assert (F1 : dead s1 \/ forget_budget s1 = s1f).
  { subst s1 s1f. destruct (current_bill st); [apply calculate_total_faults | auto]. }
  pose proof (commit_faults s1) as CF.
  destruct (commit s1) as [s2|] eqn:E; cbn [fst sess].
  - destruct CF as [V CF]. destruct F1 as [D|F1].
    + rewrite (commit_dead D) in E. discriminate.
    + right. rewrite <- F1, CF. cbn [fst]. split; [reflexivity|].
      unfold commit in E. destruct (round_trip s1); inversion E. reflexivity.
  - left. exact C1.
Qed.

Lemma finish_import_dead st :
  dead (sess st) ->
  committed (sess (fst (finish_import st))) = committed (sess st).
Proof.
  intros D. unfold finish_import.
  set (s1 := match current_bill st with
             | Some b => fst (calculate_total b (sess st))
             | None => sess st
             end).
  assert (D1 : dead s1).
  { subst s1. destruct (current_bill st); [now apply calculate_total_dead | auto]. }
  rewrite (commit_dead D1). cbn [fst sess rollback committed].
  subst s1. destruct (current_bill st); [apply calculate_total_committed | reflexivity].
Qed.
(** A commit that goes through ends a run that no fault has touched. *)
Lemma finish_import_committed st :
  snd (finish_import st) <> [FlashImportFailed] ->
  finish_import (forget_state st)
  = (forget_state (fst (finish_import st)), snd (finish_import st))
  /\ ~ dead (sess st).
Proof.
  unfold finish_import. cbn [forget_state current_bill sess].
  set (s1 := match current_bill st with
             | Some b => fst (calculate_total b (sess st))
             | None => sess st
             end).
  set (s1f := match current_bill st with
              | Some b => fst (calculate_total b (forget_budget (sess st)))
              | None => forget_budget (sess st)
              end).
  assert (D1 : dead (sess st) -> dead s1).
  { subst s1. destruct (current_bill st); [apply calculate_total_dead | auto]. }
  assert (F1 : dead s1 \/ forget_budget s1 = s1f).
  { subst s1 s1f. destruct (current_bill st); [apply calculate_total_faults | auto]. }
  pose proof (commit_faults s1) as CF.
  destruct (commit s1) as [s2|] eqn:E; cbn [fst snd]; [|congruence].
  intros _. destruct CF as [V CF]. split.
  - destruct F1 as [D|F1]; [rewrite (commit_dead D) in E; discriminate|].
    rewrite <- F1, CF. reflexivity.
  - intros D. apply D1 in D. rewrite (commit_dead D) in E. discriminate.
Qed.
End ImportFaults.

(** Whatever the store does, [import_data] leaves the durable rows as
    they were or as the run on a store that does not fail leaves them. *)
Lemma import_data_atomic :
  forall (A : Type) (AM : Amount A) (PL : PyLib A) (uid : nat)
         (csv_input : list (list string)) (db : Db A) (trips : option nat),
    import_durable (import_data uid csv_input (open_session db trips)) = db
    \/ import_durable (import_data uid csv_input (open_session db trips))
       = import_durable (import_data uid csv_input (open_session db None)).
Proof.
  intros A AM PL uid csv_input db trips.
  unfold import_data.
  pose proof (import_rows_faults uid (tl csv_input) 2
                (start_import (open_session db trips))) as R.
  destruct (import_rows uid 2 (tl csv_input) (start_import (open_session db trips)))
    as [st|s]; [|left; exact R].
  destruct R as (C & _ & [D|F]).
  - left. unfold import_durable, durable.
    rewrite (finish_import_dead st D). exact C.
  - change (forget_state (start_import (open_session db trips)))
      with (start_import (open_session db None)) in F.
    rewrite F. unfold import_durable, durable.
    destruct (finish_import_faults st) as [E|[E V]].
    + left. simpl in *. congruence.
    + right. rewrite E. reflexivity.
Qed.

(** A run that flashes its success message has committed what the
    grouping by adjacency prescribes, whatever faults the store had in
    store for later; the message counts the groups and the named
    lines. *)
Lemma import_success_is_spec :
  forall (A : Type) (AM : Amount A) (PL : PyLib A) (uid : nat)
         (csv_input : list (list string)) (db : Db A) (trips : option nat)
         (n m : nat),
    In (FlashImported n m)
      (import_flashes (import_data uid csv_input (open_session db trips))) ->
    import_durable (import_data uid csv_input (open_session db trips))
    = spec_import uid csv_input db
    /\ n = length (spec_groups csv_input)
    /\ m = length (named (parse_lines (tl csv_input))).
Proof.
  intros A AM PL uid csv_input db trips n m.
  destruct (import_refines_spec AM PL uid csv_input db) as (st0 & R0 & S0 & B0 & I0 & _).
  unfold import_data in *.
  pose proof (import_rows_faults uid (tl csv_input) 2
                (start_import (open_session db trips))) as R.
  change (forget_state (start_import (open_session db trips)))
    with (start_import (open_session db None)) in R.
  destruct (import_rows uid 2 (tl csv_input) (start_import (open_session db trips)))
    as [st|s]; [|intros []].
  cbn [import_flashes]. intros Hin.
  assert (NF : snd (finish_import st) <> [FlashImportFailed]).
  { intros C. rewrite C in Hin. destruct Hin as [Hin|[]]. discriminate. }
  destruct (finish_import_committed st NF) as [FF ND].
  destruct R as (_ & _ & [D|F]); [contradiction|].
  rewrite F, FF in R0. inversion R0 as [[E1 E2]].
  assert (Bc : bills_created st0 = bills_created st).
  { rewrite <- E1. unfold finish_import. now destruct (commit _). }
  assert (Ic : imported_count st0 = imported_count st).
  { rewrite <- E1. unfold finish_import. now destruct (commit _). }
  assert (Cd : committed (sess (fst (finish_import st))) = spec_import uid csv_input db).
  { assert (C0 : committed (sess st0) = spec_import uid csv_input db)
      by (rewrite S0; reflexivity).
    rewrite <- C0, <- E1. reflexivity. }
  unfold import_durable, durable. cbn [fst]. split; [exact Cd|].
  assert (N : n = bills_created st /\ m = imported_count st).
  { unfold finish_import in Hin. destruct (commit _); cbn [snd] in Hin.
    - unfold success_flashes in Hin. apply in_app_or in Hin.
      destruct Hin as [Hin|Hin].
      + destruct (0 <? bills_created st); [|destruct Hin].
        destruct Hin as [Hin|[]]. inversion Hin. auto.
      + destruct (errors st); [destruct Hin|].
        destruct Hin as [Hin|[]]. discriminate.
    - destruct Hin as [Hin|[]]. discriminate. }
  destruct N as [-> ->]. split; congruence.
Qed.

(* ================================================================== *)
(** * Every bill of an import carries the sum of its items *)

Section GroupFacts.
Context {A : Type} {AM : Amount A} {PL : PyLib A}.
Variable uid : nat.

Lemma next_bill_id_add_group (db : Db A) (g : Group A) :
  next_bill_id (add_group uid db g) = S (next_bill_id db).
Proof.
  unfold next_bill_id, add_group. cbn [bills].
  rewrite map_app, list_max_app. simpl. lia.
Qed.

Lemma fertilizers_of_add_group (db : Db A) (g : Group A) (i : nat) :
  fertilizers_of i (add_group uid db g)
  = fertilizers_of i db
    ++ (if next_bill_id db =? i then group_items (next_bill_id db) g else []).
Proof.
  unfold fertilizers_of, add_group. cbn [fertilizers]. rewrite filter_app.
  f_equal. unfold group_items. generalize (next_bill_id db). intros n.
  induction (named (group_lines g)) as [|l ls IH]; simpl.
  - destruct (n =? i); reflexivity.
  - destruct (n =? i); simpl; [now rewrite IH | exact IH].
Qed.

(** A bill with an id already given keeps its sum when a group is
    added. *)
Lemma consistent_add_group (db : Db A) (g : Group A) (b : Bill.t A) :
  Bill.id b < next_bill_id db ->
  consistent db b -> consistent (add_group uid db g) b.
Proof.
  unfold consistent. intros L C. rewrite fertilizers_of_add_group.
  destruct (next_bill_id db =? Bill.id b) eqn:E.
  - apply Nat.eqb_eq in E. lia.
  - now rewrite app_nil_r.
Qed.

Lemma consistent_add_groups (gs : list (Group A)) :
  forall (db : Db A) (b : Bill.t A),
    Bill.id b < next_bill_id db ->
    consistent db b -> consistent (fold_left (add_group uid) gs db) b.
Proof.
  induction gs as [|g gs IH]; intros db b L C; simpl; [exact C|].
  apply IH.
  - rewrite next_bill_id_add_group. lia.
  - now apply consistent_add_group.
Qed.

(** The bill that [add_group] appends is consistent. *)
Lemma add_group_new_consistent (db : Db A) (g : Group A) :
  exists b,
    bills (add_group uid db g) = bills db ++ [b]
    /\ Bill.id b = next_bill_id db
    /\ consistent (add_group uid db g) b.
Proof.
  eexists. split; [reflexivity|]. split; [reflexivity|].
  unfold consistent. cbn [Bill.id Bill.total_amount].
  rewrite fertilizers_of_add_group, Nat.eqb_refl. reflexivity.
Qed.

Lemma add_groups_created (gs : list (Group A)) :
  forall db : Db A,
  exists created,
    bills (fold_left (add_group uid) gs db) = bills db ++ created
    /\ length created = length gs
    /\ Forall (consistent (fold_left (add_group uid) gs db)) created.
Proof.
  induction gs as [|g gs IH]; intros db; simpl.
  - exists []. rewrite app_nil_r. auto.
  - destruct (add_group_new_consistent db g) as (b & Eb & Ib & Cb).
    destruct (IH (add_group uid db g)) as (created & Ec & Lc & Fc).
    exists (b :: created). rewrite Ec, Eb, <- app_assoc. simpl.
    split; [reflexivity|]. split; [lia|].
    constructor; [|exact Fc].
    apply consistent_add_groups; [|exact Cb].
    rewrite next_bill_id_add_group, Ib. lia.
Qed.
End GroupFacts.

(** What an import has made durable, under faults or not, are bills
    with the sum of their items. *)
Lemma import_finalizes_every_bill_all :
  forall (A : Type) (AM : Amount A) (PL : PyLib A) (uid : nat)
         (csv_input : list (list string)) (db : Db A) (trips : option nat),
    let db' := import_durable (import_data uid csv_input (open_session db trips)) in
    exists created,
      bills db' = bills db ++ created /\ Forall (consistent db') created.
Proof.
  intros A AM PL uid csv_input db trips db'. subst db'.
  destruct (import_refines_spec AM PL uid csv_input db) as (st & R & S' & B & _).
  destruct (add_groups_created uid (spec_groups csv_input) db)
    as (created & Ec & Lc & Fc).
  fold (spec_import uid csv_input db) in Ec, Fc.
  assert (C : committed (sess st) = spec_import uid csv_input db)
    by (rewrite S'; reflexivity).
  destruct (import_data_atomic AM PL uid csv_input db trips) as [E|E]; rewrite E.
  - exists []. rewrite app_nil_r. auto.
  - rewrite R. unfold import_durable, durable. cbn [fst].
    exists created. rewrite C. auto.
Qed.

(** C5: every bill that an import creates, the one still in progress
    after the last row included, ends with [total_amount] equal to the
    sum of the prices of its line items.  Whatever the store does, the
    bills that the import has made durable carry the sum of their items;
    and when the import flashes its success message, with [n] for its
    count of bills, the [n] bills of the file, one for every run of
    adjacent rows of one key, are durable and carry it. *)
Theorem import_finalizes_every_bill :
  forall (A : Type) (AM : Amount A) (PL : PyLib A) (uid : nat)
         (csv_input : list (list string)) (db : Db A) (trips : option nat),
    let o := import_data uid csv_input (open_session db trips) in
    (exists created,
        bills (import_durable o) = bills db ++ created
        /\ Forall (consistent (import_durable o)) created)
    /\ (forall n m : nat,
          In (FlashImported n m) (import_flashes o) ->
          exists created,
            bills (import_durable o) = bills db ++ created
            /\ length created = n
            /\ n = length (spec_groups csv_input)
            /\ Forall (consistent (import_durable o)) created).
Proof.
  intros A AM PL uid csv_input db trips o. subst o. split.
  - apply import_finalizes_every_bill_all.
  - intros n m Hin.
    destruct (import_success_is_spec AM PL uid csv_input db trips n m Hin) as (E & N & _).
    rewrite E.
    destruct (add_groups_created uid (spec_groups csv_input) db)
      as (created & Ec & Lc & Fc).
    fold (spec_import uid csv_input db) in Ec, Fc.
    exists created. repeat split; auto; congruence.
Qed.

(** The two-row file on a store that fails at its sixth round trip: the
    import flashes its success message, and its bill carries 300.00. *)
Lemma import_finalizes_every_bill_witness :
  let o := import_data (PL := py_lib (mkdate 2025 1 20)) 7 two_row_csv
             (open_session empty_db (Some 5)) in
  In (FlashImported 1 2) (import_flashes o)
  /\ exists created,
       bills (import_durable o) = bills (@empty_db float) ++ created
       /\ length created = 1
       /\ 1 = length (spec_groups (PL := py_lib (mkdate 2025 1 20)) two_row_csv)
       /\ Forall (consistent (import_durable o)) created.
Proof.
  assert (H : In (FlashImported 1 2)
                (import_flashes
                   (import_data (PL := py_lib (mkdate 2025 1 20)) 7 two_row_csv
                      (open_session empty_db (Some 5))))).
  { vm_compute. left. reflexivity. }
  split; [exact H|].
  exact (proj2 (@import_finalizes_every_bill float float_Amount
                  (py_lib (mkdate 2025 1 20)) 7 two_row_csv empty_db (Some 5)) 1 2 H).
Defined.

(* ================================================================== *)
(** * Grouping is by adjacency *)

Section Adjacency.
Context {A : Type} {AM : Amount A} {PL : PyLib A}.
Variable uid : nat.

Lemma fertilizers_of_add_groups (gs : list (Group A)) :
  forall (db : Db A) (i : nat),
    fertilizers_of i (fold_left (add_group uid) gs db)
    = fertilizers_of i db ++ items_at (next_bill_id db) gs i.
Proof.
  induction gs as [|g gs IH]; intros db i; simpl.
  - now rewrite app_nil_r.
  - rewrite IH, fertilizers_of_add_group, next_bill_id_add_group, app_assoc.
    reflexivity.
Qed.

Lemma items_at_below (gs : list (Group A)) :
  forall n i, i < n -> items_at n gs i = [].
Proof.
  induction gs as [|g gs IH]; intros n i L; simpl; [reflexivity|].
  rewrite IH by lia.
  destruct (n =? i) eqn:E; [apply Nat.eqb_eq in E; lia | reflexivity].
Qed.



Lemma group_adjacent_some (g : Group A) (l : Line A) (r : list (Line A)) :
  group_adjacent (Some g) (l :: r)
  = if String.eqb (group_key g) (line_key l)
    then group_adjacent (Some (extend_group g l)) r
    else g :: group_adjacent (Some (new_group l)) r.
Proof. reflexivity. Qed.



Lemma parse_lines_app (r1 r2 : list (list string)) :
  parse_lines r1 ++ parse_lines r2 = parse_lines (A := A) (r1 ++ r2).
Proof. unfold parse_lines. now rewrite flat_map_app. Qed.

Lemma parse_lines_cons (r : list string) (l : Line A) rest :
  parse_line r = Some l -> parse_lines (r :: rest) = l :: parse_lines rest.
Proof. intros P. unfold parse_lines. simpl. now rewrite P. Qed.

End Adjacency.

(* ================================================================== *)
(** * Rows that are skipped *)

Section SkippedRows.
Context {A : Type} {AM : Amount A} {PL : PyLib A}.

Lemma spec_errors_app (r1 : list (list string)) :
  forall (n : nat) (r2 : list (list string)),
    spec_errors n (r1 ++ r2) = spec_errors n r1 ++ spec_errors (n + length r1) r2.
Proof.
  induction r1 as [|r r1 IH]; intros n r2.
  - simpl. now rewrite Nat.add_0_r.
  - cbn [app length]. rewrite (spec_errors_cons n r (r1 ++ r2)), IH.
    rewrite (spec_errors_cons n r r1), <- app_assoc.
    replace (S n + length r1) with (n + S (length r1)) by lia. reflexivity.
Qed.

Lemma spec_errors_length (rows : list (list string)) :
  forall n m : nat, length (spec_errors n rows) = length (spec_errors m rows).
Proof.
  induction rows as [|r rows IH]; intros n m; [reflexivity|].
  rewrite (spec_errors_cons n), (spec_errors_cons m), !length_app, (IH (S n) (S m)).
  f_equal. unfold spec_errors. rewrite !app_nil_r.
  destruct (4 <=? length r); [|reflexivity].
  destruct (row_price r); reflexivity.
Qed.

Lemma parse_line_short (row : list string) :
  length row < 4 -> parse_line (A := A) row = None.
Proof.
  intros L. unfold parse_line.
  destruct (4 <=? length row) eqn:E; [|reflexivity].
  apply Nat.leb_le in E. lia.
Qed.
End SkippedRows.

(** C8: a data row with fewer than four fields changes nothing: no
    error entry, no bill, no item, the grouping state as it was, and the
    loop goes on with the next row; a file with such a row is imported
    as the file without it. *)
Theorem short_row_is_skipped :
  forall (A : Type) (AM : Amount A) (PL : PyLib A) (uid : nat) (row : list string),
    length row < 4 ->
    (forall (row_num : nat) (rest : list (list string)) (st : ImportState A),
        import_row uid row_num row st = Returned st
        /\ import_rows uid row_num (row :: rest) st
           = import_rows uid (S row_num) rest st)
    /\ (forall (header : list string) (pre post : list (list string)) (db : Db A),
          exists st1 st2,
            import_data uid (header :: pre ++ row :: post) (open_session db None)
            = Returned (st1, success_flashes st1)
            /\ import_data uid (header :: pre ++ post) (open_session db None)
               = Returned (st2, success_flashes st2)
            /\ sess st1 = sess st2
            /\ bills_created st1 = bills_created st2
            /\ imported_count st1 = imported_count st2
            /\ length (errors st1) = length (errors st2)).
Proof.
  intros A AM PL uid row Hlen. split.
  - intros row_num rest st.
    assert (E : import_row uid row_num row st = Returned st).
    { unfold import_row.
      destruct (4 <=? length row) eqn:L; [|reflexivity].
      apply Nat.leb_le in L. lia. }
    split; [exact E|]. simpl. rewrite E. reflexivity.
  - intros header pre post db.
    destruct (import_refines_spec AM PL uid (header :: pre ++ row :: post) db)
      as (st1 & R1 & S1 & B1 & I1 & E1).
    destruct (import_refines_spec AM PL uid (header :: pre ++ post) db)
      as (st2 & R2 & S2 & B2 & I2 & E2).
    assert (P : parse_lines (A := A) (pre ++ row :: post) = parse_lines (pre ++ post)).
    { rewrite <- !parse_lines_app. f_equal.
      unfold parse_lines at 1. cbn [flat_map].
      now rewrite (parse_line_short row Hlen). }
    exists st1, st2. split; [exact R1|]. split; [exact R2|].
    unfold spec_import, spec_groups in *. cbn [tl] in *.
    rewrite P in *. repeat split; try congruence.
    rewrite E1, E2, !spec_errors_app, !length_app, (spec_errors_cons _ row post).
    rewrite length_app. f_equal.
    assert (Z : spec_errors (2 + length pre) [row] = []).
    { unfold spec_errors. destruct (4 <=? length row) eqn:L; [|reflexivity].
      apply Nat.leb_le in L. lia. }
    rewrite Z. cbn [length]. apply spec_errors_length.
Qed.

Lemma short_row_is_skipped_witness :
  let st := start_import (open_session (@empty_db float) None) in
  length ["2025-01-15"; "BILL-001"] < 4
  /\ import_row (PL := py_lib (mkdate 2025 1 20)) 1 2 ["2025-01-15"; "BILL-001"] st
     = Returned st
  /\ import_rows (PL := py_lib (mkdate 2025 1 20)) 1 2
       [["2025-01-15"; "BILL-001"]; urea_row] st
     = import_rows (PL := py_lib (mkdate 2025 1 20)) 1 3 [urea_row] st.
Proof.
  intros st.
  assert (L : length ["2025-01-15"; "BILL-001"] < 4) by (simpl; lia).
  split; [exact L|].
  exact (proj1 (@short_row_is_skipped float float_Amount (py_lib (mkdate 2025 1 20))
                  1 ["2025-01-15"; "BILL-001"] L) 2 [urea_row] st).
Defined.

(** The spec's own example of it: a row of two fields between the two
    rows of a bill leaves the bill as it is, and the error list empty. *)
Example two_field_row_between :
  forall (uid : nat) (now : date),
    import_data (PL := py_lib now) uid
      [sample_header; urea_row; ["2025-01-15"; "BILL-001"]; dap_row]
      (open_session empty_db None)
    = import_data (PL := py_lib now) uid two_row_csv (open_session empty_db None).
Proof. intros uid now. vm_compute. reflexivity. Qed.




(** The spec's own example of it: three rows, two bills numbered
    [BILL-001] with one item each. *)
Example three_row_import_three_bills :
  forall (uid : nat) (now : date),
    import_durable
      (import_data (PL := py_lib now) uid
         [sample_header; urea_row; npk_row; dap_row] (open_session empty_db None))
    = mkDb [Bill.mk 1 (Some "BILL-001") (mkdate 2025 1 15) 100%float uid;
            Bill.mk 2 (Some "BILL-002") (mkdate 2025 1 15) 50%float uid;
            Bill.mk 3 (Some "BILL-001") (mkdate 2025 1 15) 200%float uid]
           [Fertilizer.mk "Urea A" 100%float "Urea" (Some 1);
            Fertilizer.mk "NPK C" 50%float "NPK" (Some 2);
            Fertilizer.mk "DAP B" 200%float "DAP" (Some 3)].
Proof. intros uid now. vm_compute. reflexivity. Qed.

(** C10: a row with four fields or more, a price that parses and an
    item name that is empty once stripped makes the import create and
    count a bill and add no item: the bill is stored with no line items
    and a total of [0.0]. *)
Theorem blank_name_row_creates_empty_bill :
  forall (A : Type) (AM : Amount A) (PL : PyLib A) (uid : nat)
         (header row : list string) (p : A),
    (4 <=? length row) = true ->
    row_price row = Some p ->
    row_name row = "" ->
    exists st,
      import_data uid [header; row] (open_session empty_db None)
      = Returned (st, [FlashImported 1 0])
      /\ bills_created st = 1
      /\ imported_count st = 0
      /\ committed (sess st)
         = mkDb [Bill.mk 1 (none_if_empty (row_bill_number row)) (row_date row)
                   num_zero uid] []
      /\ fertilizer_count 1 (committed (sess st)) = 0.
Proof.
  intros A AM PL uid header row p L P N.
  destruct (import_refines_spec AM PL uid [header; row] empty_db)
    as (st & R & S' & B & I & E).
  assert (PL1 : parse_lines [row]
                = [mkLine (row_key row) (row_bill_number row) (row_date row)
                     (row_name row) (row_category row) p]).
  { unfold parse_lines, parse_line. cbn [flat_map]. rewrite L, P. reflexivity. }
  assert (Er : errors st = []).
  { rewrite E. cbn [tl spec_errors]. rewrite L, P. reflexivity. }
  unfold spec_import, spec_groups in *. cbn [tl] in *.
  rewrite PL1 in *. unfold named in I. simpl in B, I, S'.
  rewrite N in I. simpl in I.
  assert (C : committed (sess st)
              = mkDb [Bill.mk 1 (none_if_empty (row_bill_number row)) (row_date row)
                        num_zero uid] []).
  { rewrite S'. unfold add_group, group_items, named. simpl. rewrite N. reflexivity. }
  exists st. split.
  - rewrite R. unfold success_flashes. rewrite B, I, Er. reflexivity.
  - rewrite C. auto.
Qed.

Lemma blank_name_row_creates_empty_bill_witness :
  exists st,
    import_data (PL := py_lib (mkdate 2025 1 20)) 7 [sample_header; blank_name_row]
      (open_session empty_db None)
    = Returned (st, [FlashImported 1 0])
    /\ bills_created st = 1
    /\ imported_count st = 0
    /\ committed (sess st)
       = mkDb [Bill.mk 1 (none_if_empty
                            (row_bill_number (PL := py_lib (mkdate 2025 1 20)) blank_name_row))
                 (row_date (PL := py_lib (mkdate 2025 1 20)) blank_name_row)
                 num_zero 7] []
    /\ fertilizer_count 1 (committed (sess st)) = 0.
Proof.
  apply (@blank_name_row_creates_empty_bill float float_Amount
           (py_lib (mkdate 2025 1 20)) 7 sample_header blank_name_row 100%float).
  - reflexivity.
  - vm_compute. reflexivity.
  - vm_compute. reflexivity.
Defined.

(* ================================================================== *)
(** * [add_bill] and the atomicity of the two batches *)

Section AddBillFacts.
Context {A : Type} {AM : Amount A} {PL : PyLib A}.
Variable uid : nat.

Lemma add_bill_items_spec (form : BillForm) (bid : nat) (nb : string) (d : date)
    (names : list string) :
  forall (i : nat) (s : Session A) (n : nat),
    add_bill_items form bid i names s n
    = match form_lines form nb d i names with
      | Some ls =>
          Some (mkSession (committed s)
                  (mkDb (bills (view s))
                     (fertilizers (view s) ++ map (item_of bid) ls))
                  (budget s),
                n + length ls)
      | None => None
      end.
Proof.
  induction names as [|name rest IH]; intros i s n; simpl.
  - rewrite app_nil_r, Nat.add_0_r. destruct s as [c [b f] bu]; reflexivity.
  - destruct (is_empty (strip name)); [apply IH|].
    destruct (form_price form i) as [p|]; [|reflexivity].
    rewrite IH. unfold add_fertilizer. cbn [committed view budget bills fertilizers].
    destruct (form_lines form nb d (S i) rest) as [ls|]; [|reflexivity].
    simpl. rewrite <- app_assoc. simpl. do 3 f_equal. lia.
Qed.

Lemma form_lines_named (form : BillForm) (nb : string) (d : date)
    (names : list string) :
  forall (i : nat) (ls : list (Line A)),
    form_lines form nb d i names = Some ls -> named ls = ls.
Proof.
  induction names as [|name rest IH]; intros i ls; simpl.
  - intros E; inversion E. reflexivity.
  - destruct (is_empty (strip name)) eqn:N; [apply IH|].
    destruct (form_price form i) as [p|]; [|discriminate].
    destruct (form_lines form nb d (S i) rest) as [ls'|] eqn:F; [|discriminate].
    intros E; inversion E; subst. unfold named. simpl. rewrite N. simpl.
    f_equal. exact (IH _ _ F).
Qed.

(** On a store that does not fail, [add_bill] commits the group of the
    form, or nothing when the form is rejected. *)
Lemma add_bill_fault_free (form : BillForm) (db : Db A) :
  committed (fst (add_bill uid form (open_session db None)))
  = match form_group form with
    | Some g => add_group uid db g
    | None => db
    end.
Proof.
  unfold add_bill, add_bill_try, form_group, form_date, open_session.
  destruct (match form_purchase_date form with
            | Some (String c r) => strptime_ymd (String c r)
            | _ => Some today
            end) as [d|]; [|reflexivity].
  rewrite (open_bill uid db db "").
  rewrite (add_bill_items_spec form (next_bill_id db)
             (strip (form_bill_number form)) d).
  destruct (form_lines form (strip (form_bill_number form)) d 0
              (fertilizer_names form)) as [ls|] eqn:F; [|reflexivity].
  cbn [committed view budget].
  assert (V : mkDb (bills (open_view uid db (mkGroup "" (strip (form_bill_number form)) d [])))
                (fertilizers (open_view uid db (mkGroup "" (strip (form_bill_number form)) d []))
                 ++ map (item_of (next_bill_id db)) ls)
              = open_view uid db (mkGroup "" (strip (form_bill_number form)) d ls)).
  { unfold open_view, group_items. cbn [bills fertilizers group_lines group_number group_date].
    rewrite (form_lines_named _ _ _ _ _ F). unfold named. simpl.
    rewrite app_nil_r. reflexivity. }
  rewrite V.
  pose proof (finalize_open uid db db (mkGroup "" (strip (form_bill_number form)) d ls)) as Fin.
  destruct (calculate_total (next_bill_id db)
              (mkSession db (open_view uid db (mkGroup "" (strip (form_bill_number form)) d ls)) None))
    as [s3 total].
  cbn [fst] in Fin. subst s3. reflexivity.
Qed.

(** Whatever the store does, [add_bill] leaves the durable rows as
    they were or as the run on a store that does not fail leaves
    them. *)
Lemma add_bill_atomic (form : BillForm) (db : Db A) (trips : option nat) :
  committed (fst (add_bill uid form (open_session db trips))) = db
  \/ committed (fst (add_bill uid form (open_session db trips)))
     = committed (fst (add_bill uid form (open_session db None))).
Proof.
  unfold add_bill, add_bill_try.
  destruct (match form_purchase_date form with
            | Some (String c r) => strptime_ymd (String c r)
            | _ => Some today
            end) as [d|]; [|left; reflexivity].
  match goal with |- context [add_bill_flush ?b (open_session db trips)] =>
    pose proof (add_bill_flush_faults b (open_session db trips)) as AF;
    destruct (add_bill_flush b (open_session db trips)) as [[s1 bid]|] end;
    [|left; reflexivity].
  destruct AF as [C1 AF].
  change (forget_budget (open_session db trips)) with (open_session db None) in AF.
  rewrite AF.
  rewrite !(add_bill_items_spec form bid (strip (form_bill_number form)) d).
  destruct (form_lines form (strip (form_bill_number form)) d 0
              (fertilizer_names form)) as [ls|]; [|left; exact C1].
  cbn [committed view budget forget_budget].
  set (s2 := mkSession (committed s1)
               (mkDb (bills (view s1))
                  (fertilizers (view s1) ++ map (item_of bid) ls)) (budget s1)).
  change (mkSession (committed s1)
            (mkDb (bills (view s1)) (fertilizers (view s1) ++ map (item_of bid) ls))
            None) with (forget_budget s2).
  pose proof (calculate_total_committed bid s2) as C3.
  pose proof (calculate_total_faults bid s2) as F3.
  destruct (calculate_total bid s2) as [s3 total].
  destruct (calculate_total bid (forget_budget s2)) as [s3f totalf].
  cbn [fst] in C3, F3.
  pose proof (commit_faults s3) as CF.
  destruct (commit s3) as [s4|] eqn:E4.
  - destruct CF as [V4 CF]. destruct F3 as [D|F3].
    + rewrite (commit_dead D) in E4. discriminate.
    + right. rewrite <- F3, CF. reflexivity.
  - left. cbn [fst rollback committed]. rewrite C3. exact C1.
Qed.

Lemma add_bill_consistent (form : BillForm) (db : Db A) (trips : option nat) :
  let d := committed (fst (add_bill uid form (open_session db trips))) in
  exists created,
    bills d = bills db ++ created /\ Forall (consistent d) created.
Proof.
  intros d. subst d.
  destruct (add_bill_atomic form db trips) as [E|E]; rewrite E.
  - exists []. rewrite app_nil_r. auto.
  - rewrite add_bill_fault_free.
    destruct (form_group form) as [g|].
    + destruct (add_group_new_consistent uid db g) as (b & Eb & _ & Cb).
      exists [b]. auto.
    + exists []. rewrite app_nil_r. auto.
Qed.
End AddBillFacts.

(** C9: an import and a bill-add are atomic against the store.  Whatever
    round trip fails, what is durable afterwards is either what was
    durable before or the whole batch of the run without faults; and
    every bill that has become durable carries the sum of its items. *)
Theorem batches_are_atomic :
  forall (A : Type) (AM : Amount A) (PL : PyLib A) (uid : nat) (db : Db A)
         (trips : option nat),
    (forall csv_input : list (list string),
        let d := import_durable (import_data uid csv_input (open_session db trips)) in
        (d = db
         \/ d = import_durable (import_data uid csv_input (open_session db None)))
        /\ exists created,
             bills d = bills db ++ created /\ Forall (consistent d) created)
    /\ (forall form : BillForm,
          let d := committed (fst (add_bill uid form (open_session db trips))) in
          (d = db
           \/ d = committed (fst (add_bill uid form (open_session db None))))
          /\ exists created,
               bills d = bills db ++ created /\ Forall (consistent d) created).
Proof.
  intros A AM PL uid db trips. split.
  - intros csv_input d. subst d. split.
    + apply import_data_atomic.
    + destruct (import_finalizes_every_bill_all AM PL uid csv_input db trips)
        as (created & E & F).
      exists created. auto.
  - intros form d. subst d. split.
    + apply add_bill_atomic.
    + apply add_bill_consistent.
Qed.

(* ================================================================== *)
(** * The dashboard: category breakdown against the grand total *)

Section BreakdownFacts.
Context {A : Type} {AM : Amount A}.

Lemma category_breakdown_entries (expenses : list (Expense.t A))
    (bills : list (Bill.t A)) :
  category_breakdown expenses bills
  = file_entries (rollup_entries expenses bills) [].
Proof.
  unfold category_breakdown, file_entries, rollup_entries.
  rewrite fold_left_app.
  assert (M : forall (X : Type) (f : X -> string * A) (l : list X) (d : dict),
             fold_left (fun d kv => dict_add (fst kv) (snd kv) d) (map f l) d
             = fold_left (fun d x => dict_add (fst (f x)) (snd (f x)) d) l d).
  { intros X f l. induction l as [|x l IH]; intros d; simpl; [reflexivity|apply IH]. }
  rewrite !M. reflexivity.
Qed.

Lemma dict_get_add (k k' : string) (v : A) (d : dict) :
  dict_get k (dict_add k' v d)
  = if String.eqb k' k
    then Some (match dict_get k d with
               | Some x => num_add x v
               | None => v
               end)
    else dict_get k d.
Proof.
  induction d as [|[k0 v0] r IH]; simpl.
  - destruct (String.eqb k' k); reflexivity.
  - destruct (String.eqb_spec k0 k') as [E0|N0]; simpl.
    + subst k0. destruct (String.eqb k' k); reflexivity.
    + rewrite IH.
      destruct (String.eqb_spec k0 k) as [E1|N1];
        destruct (String.eqb_spec k' k) as [E2|N2]; try reflexivity.
      congruence.
Qed.

Lemma dict_get_file_entries (k : string) (entries : list (string * A)) :
  forall d : dict,
    dict_get k (file_entries entries d)
    = extend_sum (dict_get k d)
        (map snd (filter (fun kv => String.eqb (fst kv) k) entries)).
Proof.
  unfold file_entries.
  induction entries as [|[k' v] entries IH]; intros d; simpl.
  - destruct (dict_get k d); reflexivity.
  - rewrite IH, dict_get_add.
    destruct (String.eqb k' k); simpl; [|reflexivity].
    destruct (dict_get k d); reflexivity.
Qed.

Lemma amounts_under_entries (k : string) (expenses : list (Expense.t A))
    (bills : list (Bill.t A)) :
  map snd (filter (fun kv => String.eqb (fst kv) k) (rollup_entries expenses bills))
  = amounts_under k expenses bills.
Proof.
  unfold rollup_entries, amounts_under. rewrite filter_app, map_app. f_equal.
  - induction expenses as [|e l IH]; simpl; [reflexivity|].
    destruct (String.eqb (Expense.category e) k); simpl; now rewrite IH.
  - destruct (String.eqb "fertilizers" k) eqn:E;
      induction bills as [|b l IH]; cbn [map filter fst snd];
      try reflexivity; rewrite E; cbn [map snd]; now rewrite IH.
Qed.

(** Each key of the breakdown holds the running sum of the amounts
    filed under it: an expense under its category, a bill under
    ["fertilizers"].  This holds of any arithmetic, rounding or not. *)
Lemma category_breakdown_attribution (k : string) (expenses : list (Expense.t A))
    (bills : list (Bill.t A)) :
  dict_get k (category_breakdown expenses bills)
  = running_sum (amounts_under k expenses bills).
Proof.
  rewrite category_breakdown_entries, dict_get_file_entries, amounts_under_entries.
  reflexivity.
Qed.
End BreakdownFacts.

(* ================================================================== *)
(** * Sums of whole amounts are exact *)

Section WholeFloats.
Local Open Scope Z_scope.

Lemma digits2_size (p : positive) : digits2_pos p = Pos.size p.
Proof. induction p; simpl; congruence. Qed.

Lemma digits2_bound (p : positive) : 2 ^ (Zpos (digits2_pos p) - 1) <= Zpos p.
Proof.
  rewrite digits2_size.
  pose proof (Pos.size_le p) as L.
  assert (E : (Zpos (2 ^ Pos.size p) <= Zpos (p~0)))
    by (apply Pos2Z.pos_le_pos; exact L).
  rewrite Pos2Z.inj_pow in E. change (Zpos (p~0)) with (2 * Zpos p) in E.
  replace (Zpos (Pos.size p)) with ((Zpos (Pos.size p) - 1) + 1) in E by lia.
  rewrite Z.pow_add_r in E by lia. lia.
Qed.

Lemma digits2_upper (p : positive) : Zpos p < 2 ^ Zpos (digits2_pos p).
Proof.
  rewrite digits2_size. pose proof (Pos.size_gt p) as L.
  apply Pos2Z.pos_lt_pos in L. now rewrite Pos2Z.inj_pow in L.
Qed.

Lemma digits2_unique (p : positive) (d : Z) :
  2 ^ (d - 1) <= Zpos p < 2 ^ d -> Zpos (digits2_pos p) = d.
Proof.
  intros [L U].
  pose proof (digits2_bound p) as L'. pose proof (digits2_upper p) as U'.
  set (d' := Zpos (digits2_pos p)) in *.
  assert (Hd' : 1 <= d') by (subst d'; lia).
  assert (Hd : 0 <= d).
  { destruct (Z.ltb_spec d 0) as [N|N]; [|exact N].
    rewrite (Z.pow_neg_r 2 d N) in U. lia. }
  destruct (Z.lt_trichotomy d' d) as [C|[C|C]]; [|exact C|].
  - assert (2 ^ d' <= 2 ^ (d - 1)) by (apply Z.pow_le_mono_r; lia). lia.
  - assert (2 ^ d <= 2 ^ (d' - 1)) by (apply Z.pow_le_mono_r; lia). lia.
Qed.

Lemma scale_pos (p : positive) (k : Z) :
  0 <= k -> Zpos (Z.to_pos (Zpos p * 2 ^ k)) = Zpos p * 2 ^ k.
Proof.
  intros K. assert (0 < 2 ^ k) by (apply Z.pow_pos_nonneg; lia).
  rewrite Z2Pos.id; nia.
Qed.

Lemma digits2_scale (p q : positive) (k : Z) :
  0 <= k -> Zpos q = Zpos p * 2 ^ k ->
  Zpos (digits2_pos q) = Zpos (digits2_pos p) + k.
Proof.
  intros K E. apply digits2_unique. rewrite E.
  pose proof (digits2_bound p) as L. pose proof (digits2_upper p) as U.
  set (d := Zpos (digits2_pos p)) in *.
  assert (Hd : 1 <= d) by (subst d; lia).
  replace (d + k - 1) with ((d - 1) + k) by lia.
  rewrite !Z.pow_add_r by lia.
  assert (0 < 2 ^ k) by (apply Z.pow_pos_nonneg; lia).
  split; nia.
Qed.

Lemma digits2_le_prec (p : positive) :
  Zpos p < 2 ^ prec -> Zpos (digits2_pos p) <= prec.
Proof.
  intros U. pose proof (digits2_bound p) as L.
  assert (H : 2 ^ (Zpos (digits2_pos p) - 1) < 2 ^ prec) by lia.
  apply Z.pow_lt_mono_r_iff in H; unfold prec in *; lia.
Qed.

Lemma digits2_mono (p q : positive) :
  Zpos p <= Zpos q -> Zpos (digits2_pos p) <= Zpos (digits2_pos q).
Proof.
  intros L. pose proof (digits2_bound p) as Lp. pose proof (digits2_upper q) as Uq.
  assert (H : 2 ^ (Zpos (digits2_pos p) - 1) < 2 ^ Zpos (digits2_pos q)) by lia.
  apply Z.pow_lt_mono_r_iff in H; lia.
Qed.

Lemma shl_align_val (m : positive) (e e' : Z) :
  e' <= e -> Zpos (fst (shl_align m e e')) = Zpos m * 2 ^ (e - e').
Proof.
  intros L. unfold shl_align.
  destruct (e' - e) as [|d|d] eqn:E; cbn [fst]; try lia.
  - replace (e - e') with 0 by lia. simpl. lia.
  - change (Pos.iter xO m d) with (shift_pos d m).
    rewrite Zpower.shift_pos_correct. replace (e - e') with (Zpos d) by lia.
    rewrite Z.pow_pos_fold. lia.
Qed.

Lemma shr_1_double (x : Z) :
  0 <= x -> shr_1 (Build_shr_record (2 * x) false false) = Build_shr_record x false false.
Proof. destruct x as [|p|p]; intros P; try lia; reflexivity. Qed.

Lemma iter_shr_1_exact (n : positive) :
  forall c, 0 <= c ->
    iter_pos shr_1 n (Build_shr_record (c * 2 ^ Zpos n) false false)
    = Build_shr_record c false false.
Proof.
  induction n as [n IH|n IH|]; intros c P; cbn [iter_pos].
  - replace (c * 2 ^ Zpos n~1) with (2 * ((c * 2 ^ Zpos n) * 2 ^ Zpos n)).
    2:{ rewrite Pos2Z.inj_xI, Z.pow_add_r, Z.pow_mul_r by lia.
        rewrite Z.pow_1_r. change (2 ^ 2) with 4.
        replace (4 ^ Zpos n) with (2 ^ Zpos n * 2 ^ Zpos n); [ring|].
        rewrite <- Z.pow_add_r by lia. replace (Zpos n + Zpos n) with (2 * Zpos n) by lia.
        now rewrite Z.pow_mul_r by lia. }
    assert (0 < 2 ^ Zpos n) by (apply Z.pow_pos_nonneg; lia).
    rewrite shr_1_double by nia. rewrite IH by nia. now rewrite IH.
  - replace (c * 2 ^ Zpos n~0) with ((c * 2 ^ Zpos n) * 2 ^ Zpos n).
    2:{ rewrite Pos2Z.inj_xO, <- Z.mul_assoc, <- Z.pow_add_r by lia.
        f_equal. f_equal. lia. }
    assert (0 < 2 ^ Zpos n) by (apply Z.pow_pos_nonneg; lia).
    rewrite IH by nia. now rewrite IH.
  - rewrite Z.pow_1_r, Z.mul_comm. now apply shr_1_double.
Qed.

Lemma shr_exact (c e k : Z) :
  0 <= c -> 0 <= k ->
  shr (Build_shr_record (c * 2 ^ k) false false) e k
  = (Build_shr_record c false false, e + k).
Proof.
  intros C K. unfold shr. destruct k as [|p|p]; try lia.
  - simpl. rewrite Z.mul_1_r, Z.add_0_r. reflexivity.
  - now rewrite iter_shr_1_exact.
Qed.

Lemma fexp_small (d : Z) : 1 <= d -> fexp prec emax d = d - prec.
Proof. intros D. unfold fexp, emin, prec, emax. lia. Qed.

(** Rounding a whole number below 2^53 that comes with zeros to its
    right gives the number. *)
Lemma binary_round_aux_whole (sx : bool) (M ps : positive) (e : Z) :
  e <= 0 ->
  Zpos M = Zpos ps * 2 ^ (- e) ->
  Zpos ps < 2 ^ prec ->
  e <= Zpos (digits2_pos ps) - prec ->
  binary_round_aux prec emax sx (Zpos M) e loc_Exact
  = S754_finite sx (Z.to_pos (Zpos ps * 2 ^ (prec - Zpos (digits2_pos ps))))
      (Zpos (digits2_pos ps) - prec).
Proof.
  intros E0 EM U Ed.
  pose proof (digits2_le_prec U) as D53.
  set (ds := Zpos (digits2_pos ps)) in *.
  assert (Hds : 1 <= ds) by (subst ds; lia).
  assert (DM : Zpos (digits2_pos M) = ds - e).
  { rewrite (@digits2_scale ps M (- e)) by (lia || exact EM). subst ds. lia. }
  destruct (ds - prec - e) as [|k|k] eqn:Ek; try lia.
  - (* no shift at all *)
    unfold binary_round_aux, shr_fexp. cbn [Zdigits2 shr_record_of_loc].
    rewrite DM. replace (ds - e + e) with ds by lia.
    rewrite fexp_small by exact Hds.
    replace (ds - prec - e) with 0 by lia. cbn [shr shr_m loc_of_shr_record round_nearest_even].
    cbn [Zdigits2 shr_record_of_loc]. rewrite DM.
    replace (ds - e + e) with ds by lia.
    rewrite fexp_small by exact Hds.
    replace (ds - prec - e) with 0 by lia. cbn [shr shr_m].
    assert (Le : (e <=? emax - prec) = true) by (apply Z.leb_le; unfold emax, prec in *; lia).
    rewrite Le.
    assert (Ee : e = ds - prec) by lia.
    f_equal; [|exact Ee].
    apply Pos2Z.inj. rewrite scale_pos by lia. rewrite EM. f_equal. f_equal. lia.
  - unfold binary_round_aux, shr_fexp. cbn [Zdigits2 shr_record_of_loc].
    rewrite DM. replace (ds - e + e) with ds by lia.
    rewrite fexp_small by exact Hds. rewrite Ek.
    set (q := Zpos ps * 2 ^ (prec - ds)).
    assert (Q0 : 0 < q).
    { subst q. assert (0 < 2 ^ (prec - ds)) by (apply Z.pow_pos_nonneg; lia). nia. }
    assert (EMq : Zpos M = q * 2 ^ Zpos k).
    { rewrite EM. subst q. rewrite <- Z.mul_assoc, <- Z.pow_add_r by lia.
      f_equal. f_equal. lia. }
    rewrite EMq, shr_exact by lia.
    cbn [shr_m loc_of_shr_record round_nearest_even shr_r shr_s].
    destruct q as [|qp|qp] eqn:Eq; try lia.
    assert (Dq : Zpos (digits2_pos qp) = prec).
    { rewrite (@digits2_scale ps qp (prec - ds)) by (lia || (subst q; exact Eq)).
      subst ds. lia. }
    cbn [Zdigits2 shr_record_of_loc]. rewrite Dq.
    replace (prec + (e + Zpos k)) with ds by lia.
    rewrite fexp_small by exact Hds.
    replace (ds - prec - (e + Zpos k)) with 0 by lia. cbn [shr shr_m].
    assert (Le : (e + Zpos k <=? emax - prec) = true)
      by (apply Z.leb_le; unfold emax, prec in *; lia).
    rewrite Le. f_equal. lia.
Qed.

Lemma binary_round_whole (sx : bool) (M ps : positive) (e : Z) :
  e <= 0 ->
  Zpos M = Zpos ps * 2 ^ (- e) ->
  Zpos ps < 2 ^ prec ->
  binary_round prec emax sx M e
  = S754_finite sx (Z.to_pos (Zpos ps * 2 ^ (prec - Zpos (digits2_pos ps))))
      (Zpos (digits2_pos ps) - prec).
Proof.
  intros E0 EM U.
  pose proof (digits2_le_prec U) as D53.
  assert (Hds : 1 <= Zpos (digits2_pos ps)) by lia.
  assert (DM : Zpos (digits2_pos M) = Zpos (digits2_pos ps) - e).
  { rewrite (@digits2_scale ps M (- e)) by (lia || exact EM). lia. }
  unfold binary_round. rewrite DM.
  replace (Zpos (digits2_pos ps) - e + e) with (Zpos (digits2_pos ps)) by lia.
  rewrite fexp_small by exact Hds.
  pose proof (@shl_align_val M e (Zpos (digits2_pos ps) - prec)) as S.
  unfold shl_align in *.
  destruct (Zpos (digits2_pos ps) - prec - e) as [|k|k] eqn:Ek.
  - apply binary_round_aux_whole; try assumption; lia.
  - apply binary_round_aux_whole; try assumption; lia.
  - specialize (S ltac:(lia)). cbn [fst] in S.
    apply binary_round_aux_whole; try assumption; try lia.
    rewrite S. rewrite EM, <- Z.mul_assoc, <- Z.pow_add_r by lia.
    f_equal. f_equal. lia.
Qed.

Lemma whole_sf_valid_exp (p : positive) :
  Zpos p < 2 ^ prec ->
  exists m, whole_sf (Zpos p) = S754_finite false m (Zpos (digits2_pos p) - prec)
            /\ Zpos m = Zpos p * 2 ^ (prec - Zpos (digits2_pos p)).
Proof.
  intros U. pose proof (digits2_le_prec U).
  eexists. split; [reflexivity|]. apply scale_pos. lia.
Qed.

Lemma SFadd_whole (a b : Z) :
  0 <= a -> 0 <= b -> a + b < 2 ^ prec ->
  SFadd prec emax (whole_sf a) (whole_sf b) = whole_sf (a + b).
Proof.
  intros A0 B0 U.
  destruct a as [|pa|pa]; try lia; destruct b as [|pb|pb]; try lia; try reflexivity.
  assert (Ua : Zpos pa < 2 ^ prec) by lia.
  assert (Ub : Zpos pb < 2 ^ prec) by lia.
  destruct (whole_sf_valid_exp Ua) as (ma & Ea & Va).
  destruct (whole_sf_valid_exp Ub) as (mb & Eb & Vb).
  pose proof (digits2_le_prec Ua) as Da. pose proof (digits2_le_prec Ub) as Db.
  rewrite Ea, Eb. clear Ea Eb.
  set (da := Zpos (digits2_pos pa)) in *. set (db := Zpos (digits2_pos pb)) in *.
  unfold SFadd. cbv zeta. unfold cond_Zopp.
  set (ez := Z.min (da - prec) (db - prec)).
  assert (Hda : 1 <= da) by (subst da; lia).
  assert (Hdb : 1 <= db) by (subst db; lia).
  pose proof (@shl_align_val ma (da - prec) ez ltac:(subst ez; lia)) as Sa.
  pose proof (@shl_align_val mb (db - prec) ez ltac:(subst ez; lia)) as Sb.
  set (xa := fst (shl_align ma (da - prec) ez)) in *.
  set (xb := fst (shl_align mb (db - prec) ez)) in *.
  change (Zpos xa + Zpos xb) with (Zpos (xa + xb)).
  cbn [binary_normalize].
  change (Zpos pa + Zpos pb) with (Zpos (pa + pb)) in *.
  change (whole_sf (Zpos (pa + pb)))
    with (S754_finite false
            (Z.to_pos (Zpos (pa + pb) * 2 ^ (prec - Zpos (digits2_pos (pa + pb)))))
            (Zpos (digits2_pos (pa + pb)) - prec)).
  apply binary_round_whole.
  - subst ez. unfold prec in *. lia.
  - rewrite Pos2Z.inj_add, Sa, Sb, Va, Vb.
    rewrite <- !Z.mul_assoc, <- !Z.pow_add_r by (subst ez; lia).
    replace (prec - da + (da - prec - ez)) with (- ez) by lia.
    replace (prec - db + (db - prec - ez)) with (- ez) by lia.
    rewrite Pos2Z.inj_add. ring.
  - exact U.
Qed.

(** [a - (a + b)] is [- b], without rounding. *)
Lemma SFsub_whole (a b : Z) :
  0 <= a -> 0 <= b -> a + b < 2 ^ prec ->
  SFsub prec emax (whole_sf a) (whole_sf (a + b))
  = match b with
    | Zpos _ => SFopp (whole_sf b)
    | _ => S754_zero false
    end.
Proof.
  intros A0 B0 U.
  destruct a as [|pa|pa]; try lia; destruct b as [|pb|pb]; try lia; try reflexivity.
  - (* a - a *)
    rewrite Z.add_0_r.
    assert (Ua : Zpos pa < 2 ^ prec) by lia.
    destruct (whole_sf_valid_exp Ua) as (ma & Ea & Va). rewrite Ea.
    unfold SFsub. cbv zeta. unfold cond_Zopp. rewrite Z.sub_diag. reflexivity.
  - assert (Ua : Zpos pa < 2 ^ prec) by lia.
    assert (Ub : Zpos pb < 2 ^ prec) by lia.
    assert (Ut : Zpos (pa + pb) < 2 ^ prec) by lia.
    change (Zpos pa + Zpos pb) with (Zpos (pa + pb)).
    destruct (whole_sf_valid_exp Ua) as (ma & Ea & Va).
    destruct (whole_sf_valid_exp Ut) as (mt & Et & Vt).
    pose proof (digits2_le_prec Ua) as Da. pose proof (digits2_le_prec Ut) as Dt.
    assert (Dat : Zpos (digits2_pos pa) <= Zpos (digits2_pos (pa + pb)))
      by (apply digits2_mono; lia).
    rewrite Ea, Et. clear Ea Et.
    set (da := Zpos (digits2_pos pa)) in *. set (dt := Zpos (digits2_pos (pa + pb))) in *.
    assert (Hda : 1 <= da) by (subst da; lia).
    unfold SFsub. cbv zeta. unfold cond_Zopp.
    replace (Z.min (da - prec) (dt - prec)) with (da - prec) by lia.
    pose proof (@shl_align_val ma (da - prec) (da - prec) ltac:(lia)) as Sa.
    pose proof (@shl_align_val mt (dt - prec) (da - prec) ltac:(lia)) as St.
    set (xa := fst (shl_align ma (da - prec) (da - prec))) in *.
    set (xt := fst (shl_align mt (dt - prec) (da - prec))) in *.
    assert (Ediff : Zpos xa - Zpos xt = - (Zpos pb * 2 ^ (- (da - prec)))).
    { rewrite Sa, St, Va, Vt.
      replace (da - prec - (da - prec)) with 0 by lia.
      rewrite Z.pow_0_r, Z.mul_1_r.
      rewrite <- Z.mul_assoc, <- Z.pow_add_r by lia.
      replace (prec - dt + (dt - prec - (da - prec))) with (prec - da) by lia.
      replace (- (da - prec)) with (prec - da) by lia.
      rewrite Pos2Z.inj_add. ring. }
    assert (P : 0 < Zpos pb * 2 ^ (- (da - prec))).
    { assert (0 < 2 ^ (- (da - prec))) by (apply Z.pow_pos_nonneg; lia). nia. }
    destruct (Zpos xa - Zpos xt) as [|M|M] eqn:EM; try lia.
    cbn [binary_normalize].
    unfold SFopp, whole_sf. cbv zeta. cbn [negb].
    apply binary_round_whole; [lia | lia | exact Ub].
Qed.

Lemma SFadd_opp_whole (b : positive) :
  SFadd prec emax (SFopp (whole_sf (Zpos b))) (whole_sf (Zpos b)) = S754_zero false.
Proof.
  unfold whole_sf, SFopp. cbv zeta. unfold SFadd. cbv zeta.
  rewrite Z.min_id. unfold shl_align. rewrite Z.sub_diag. cbn [fst cond_Zopp negb].
  rewrite Z.add_opp_diag_l. reflexivity.
Qed.

Lemma whole_zero : whole 0 0%float.
Proof. split; [unfold prec; lia | reflexivity]. Qed.

Lemma whole_add (a b : Z) (x y : float) :
  whole a x -> whole b y -> a + b < 2 ^ prec -> whole (a + b) (x + y)%float.
Proof.
  intros [Ra Ea] [Rb Eb] U. split; [lia|].
  rewrite add_spec, Ea, Eb. apply SFadd_whole; lia.
Qed.

(** The correction term of compensated summation is zero on whole
    amounts: [(x - (x + y)) + y = 0]. *)
Lemma whole_compensation (a b : Z) (x y t : float) :
  whole a x -> whole b y -> whole (a + b) t ->
  ((x - t) + y)%float = 0%float.
Proof.
  intros [Ra Ea] [Rb Eb] [Rt Et]. apply Prim2SF_inj.
  rewrite add_spec, sub_spec, Ea, Eb, Et.
  change (Prim2SF 0) with (S754_zero false).
  change SF64sub with (SFsub prec emax). change SF64add with (SFadd prec emax).
  rewrite SFsub_whole by lia.
  destruct b as [|pb|pb]; try lia; [reflexivity|].
  apply SFadd_opp_whole.
Qed.

Lemma whole_inj (n : Z) (x y : float) : whole n x -> whole n y -> x = y.
Proof. intros [_ Ex] [_ Ey]. apply Prim2SF_inj. congruence. Qed.

Lemma whole_of_whole (n : Z) (x : float) : whole n x -> whole_of x = n.
Proof.
  intros [R E]. unfold whole_of. rewrite E.
  destruct n as [|p|p]; try lia; [reflexivity|].
  assert (U : Zpos p < 2 ^ prec) by lia.
  pose proof (digits2_le_prec U) as D.
  unfold whole_sf. cbv zeta.
  set (d := Zpos (digits2_pos p)) in *.
  replace (d - prec) with (- (prec - d)) by lia.
  rewrite Z.shiftl_opp_r, Z.shiftr_div_pow2 by lia.
  rewrite scale_pos by lia.
  apply Z.div_mul. apply Z.pow_nonzero; lia.
Qed.

Lemma Whole_whole (n : Z) (x : float) : whole n x -> Whole x.
Proof. intros W. unfold Whole. now rewrite (whole_of_whole W). Qed.

End WholeFloats.

Section WholeSums.
Local Open Scope Z_scope.

Lemma Whole_range (x : float) : Whole x -> 0 <= whole_of x < 2 ^ prec.
Proof. intros [R _]. exact R. Qed.

Lemma Whole_zero : Whole 0%float /\ whole_of 0%float = 0.
Proof. split; [exact (Whole_whole whole_zero) | reflexivity]. Qed.

Lemma Whole_add (x y : float) :
  Whole x -> Whole y -> whole_of x + whole_of y < 2 ^ prec ->
  Whole (x + y)%float /\ whole_of (x + y)%float = whole_of x + whole_of y.
Proof.
  intros Wx Wy U. pose proof (whole_add Wx Wy U) as W.
  split; [exact (Whole_whole W) | exact (whole_of_whole W)].
Qed.

Lemma Whole_eq (x y : float) :
  Whole x -> Whole y -> whole_of x = whole_of y -> x = y.
Proof. intros Wx Wy E. unfold Whole in Wy. rewrite <- E in Wy. exact (whole_inj Wx Wy). Qed.

Lemma sum_Z_nonneg (l : list float) :
  Forall Whole l -> 0 <= sum_Z (map whole_of l).
Proof.
  induction 1 as [|x l Wx _ IH]; cbn [map sum_Z]; [lia|].
  pose proof (Whole_range Wx). lia.
Qed.

Lemma sum_Z_app (l1 l2 : list Z) : sum_Z (l1 ++ l2) = sum_Z l1 + sum_Z l2.
Proof. induction l1 as [|x l1 IH]; simpl; lia. Qed.

(** A run of [+=] over whole amounts whose total stays below 2^53 is
    exact. *)
Lemma fold_add_whole (l : list float) :
  forall acc : float,
    Whole acc -> Forall Whole l ->
    whole_of acc + sum_Z (map whole_of l) < 2 ^ prec ->
    Whole (fold_left PrimFloat.add l acc)
    /\ whole_of (fold_left PrimFloat.add l acc) = whole_of acc + sum_Z (map whole_of l).
Proof.
  induction l as [|x l IH]; intros acc Wa F U;
    cbn [map sum_Z fold_left] in *.
  - split; [exact Wa | lia].
  - inversion F as [|? ? Wx Fl]; subst.
    pose proof (sum_Z_nonneg Fl) as P.
    destruct (@Whole_add acc x Wa Wx ltac:(lia)) as [W E].
    destruct (IH (acc + x)%float W Fl ltac:(lia)) as [W' E'].
    split; [exact W' | lia].
Qed.

Lemma py_sum_whole (l : list float) :
  Forall Whole l -> sum_Z (map whole_of l) < 2 ^ prec ->
  Whole (py_sum l) /\ whole_of (py_sum l) = sum_Z (map whole_of l).
Proof.
  intros F U. destruct Whole_zero as [W0 E0].
  destruct (@fold_add_whole l 0%float W0 F ltac:(rewrite E0; lia)) as [W E].
  change (py_sum l) with (fold_left PrimFloat.add l 0%float).
  split; [exact W|]. rewrite E, E0. lia.
Qed.

(** Compensated summation (the [sum] of Python 3.12) on whole amounts:
    the compensation stays zero, the result is that of the plain fold. *)
Lemma neumaier_step_whole (f x : float) :
  Whole f -> Whole x -> whole_of f + whole_of x < 2 ^ prec ->
  neumaier_step (f, 0%float) x = ((f + x)%float, 0%float).
Proof.
  intros Wf Wx U. unfold neumaier_step.
  destruct (Whole_add Wf Wx U) as [Wt Vt].
  assert (C1 : ((f - (f + x)) + x)%float = 0%float).
  { apply (@whole_compensation (whole_of f) (whole_of x)); try assumption.
    rewrite <- Vt. exact Wt. }
  assert (C2 : ((x - (f + x)) + f)%float = 0%float).
  { apply (@whole_compensation (whole_of x) (whole_of f)); try assumption.
    replace (whole_of x + whole_of f) with (whole_of f + whole_of x) by lia.
    rewrite <- Vt. exact Wt. }
  rewrite C1, C2.
  destruct (PrimFloat.leb (abs x) (abs f)); reflexivity.
Qed.

Lemma fold_neumaier_whole (l : list float) :
  forall acc : float,
    Whole acc -> Forall Whole l ->
    whole_of acc + sum_Z (map whole_of l) < 2 ^ prec ->
    fold_left neumaier_step l (acc, 0%float)
    = (fold_left PrimFloat.add l acc, 0%float).
Proof.
  induction l as [|x l IH]; intros acc Wa F U;
    cbn [map sum_Z fold_left] in *; [reflexivity|].
  inversion F as [|? ? Wx Fl]; subst.
  pose proof (sum_Z_nonneg Fl) as P.
  destruct (@Whole_add acc x Wa Wx ltac:(lia)) as [W E].
  rewrite neumaier_step_whole by (assumption || lia).
  apply IH; [exact W | exact Fl | lia].
Qed.

Lemma py312_sum_whole (l : list float) :
  Forall Whole l -> sum_Z (map whole_of l) < 2 ^ prec ->
  py312_sum l = py_sum l.
Proof.
  intros F U. destruct Whole_zero as [W0 E0]. unfold py312_sum.
  rewrite fold_neumaier_whole by (assumption || (rewrite E0; lia)).
  reflexivity.
Qed.

(** [d[k] += v] on a breakdown of whole amounts. *)
Lemma dict_add_whole (k : string) (v : float) (d : dict) :
  Forall Whole (dict_values d) -> Whole v ->
  sum_Z (map whole_of (dict_values d)) + whole_of v < 2 ^ prec ->
  Forall Whole (dict_values (dict_add k v d))
  /\ sum_Z (map whole_of (dict_values (dict_add k v d)))
     = sum_Z (map whole_of (dict_values d)) + whole_of v.
Proof.
  intros F Wv. pose proof (Whole_range Wv) as Rv. revert F.
  induction d as [|[k0 v0] r IH]; intros F U;
    cbn [dict_add dict_values map snd sum_Z] in *.
  - split; [constructor; [exact Wv | constructor] | lia].
  - inversion F as [|? ? W0 Fr]; subst.
    pose proof (sum_Z_nonneg Fr) as P. pose proof (Whole_range W0) as R0.
    destruct (String.eqb k0 k); cbn [map snd sum_Z num_add float_Amount].
    + destruct (@Whole_add v0 v W0 Wv ltac:(lia)) as [W E].
      split; [constructor; assumption | rewrite E; lia].
    + destruct (IH Fr ltac:(unfold dict_values; lia)) as [F' E'].
      split; [constructor; assumption|].
      unfold dict_values in E'. rewrite E'. lia.
Qed.

Lemma file_entries_whole (entries : list (string * float)) :
  forall d : dict,
    Forall Whole (dict_values d) -> Forall Whole (map snd entries) ->
    sum_Z (map whole_of (dict_values d)) + sum_Z (map whole_of (map snd entries))
    < 2 ^ prec ->
    Forall Whole (dict_values (file_entries entries d))
    /\ sum_Z (map whole_of (dict_values (file_entries entries d)))
       = sum_Z (map whole_of (dict_values d)) + sum_Z (map whole_of (map snd entries)).
Proof.
  unfold file_entries.
  induction entries as [|[k v] entries IH]; intros d Fd Fe U;
    cbn [map snd fst sum_Z fold_left] in *.
  - split; [exact Fd | lia].
  - inversion Fe as [|? ? Wv Fr]; subst.
    pose proof (sum_Z_nonneg Fr) as P.
    destruct (@dict_add_whole k v d Fd Wv ltac:(lia)) as [F' E'].
    destruct (IH (dict_add k v d) F' Fr ltac:(lia)) as [F'' E''].
    split; [exact F''|]. rewrite E'', E'. lia.
Qed.

(** On whole amounts that total less than 2^53 the values of the
    breakdown add up to [total_expenses]: no addition rounds. *)
Lemma breakdown_sum_whole (expenses : list (Expense.t float))
    (bills : list (Bill.t float)) :
  Forall (fun e => Whole (Expense.total_amount e)) expenses ->
  Forall (fun b => Whole (Bill.total_amount b)) bills ->
  sum_Z (map (fun e => whole_of (Expense.total_amount e)) expenses)
  + sum_Z (map (fun b => whole_of (Bill.total_amount b)) bills) < 2 ^ prec ->
  py_sum (dict_values (category_breakdown expenses bills))
  = total_expenses expenses bills.
Proof.
  intros Fe Fb U.
  assert (Fe' : Forall Whole (map (@Expense.total_amount float) expenses))
    by (apply Forall_map; exact Fe).
  assert (Fb' : Forall Whole (map (@Bill.total_amount float) bills))
    by (apply Forall_map; exact Fb).
  rewrite <- (map_map (@Expense.total_amount float) whole_of),
    <- (map_map (@Bill.total_amount float) whole_of) in U.
  pose proof (sum_Z_nonneg Fe') as Pe. pose proof (sum_Z_nonneg Fb') as Pb.
  assert (S : map snd (rollup_entries expenses bills)
              = map (@Expense.total_amount float) expenses
                ++ map (@Bill.total_amount float) bills).
  { unfold rollup_entries. rewrite map_app, !map_map. reflexivity. }
  destruct (@file_entries_whole (rollup_entries expenses bills) [])
    as [F E].
  { constructor. }
  { rewrite S. apply Forall_app. split; assumption. }
  { rewrite S, map_app, sum_Z_app. cbn [dict_values map sum_Z]. lia. }
  rewrite <- category_breakdown_entries in F, E.
  rewrite S, map_app, sum_Z_app in E. cbn [dict_values map sum_Z] in E.
  destruct (py_sum_whole F ltac:(lia)) as [W1 V1].
  destruct (py_sum_whole Fe' ltac:(lia)) as [We Ve].
  destruct (py_sum_whole Fb' ltac:(lia)) as [Wb Vb].
  unfold total_expenses. cbv zeta. cbn [num_add float_Amount].
  destruct (@Whole_add _ _ We Wb ltac:(lia)) as [W2 V2].
  apply Whole_eq; [exact W1 | exact W2 | lia].
Qed.

Lemma breakdown_sum_whole_312 (expenses : list (Expense.t float))
    (bills : list (Bill.t float)) :
  Forall (fun e => Whole (Expense.total_amount e)) expenses ->
  Forall (fun b => Whole (Bill.total_amount b)) bills ->
  sum_Z (map (fun e => whole_of (Expense.total_amount e)) expenses)
  + sum_Z (map (fun b => whole_of (Bill.total_amount b)) bills) < 2 ^ prec ->
  py312_sum (dict_values (category_breakdown expenses bills))
  = total_expenses_312 expenses bills.
Proof.
  intros Fe Fb U.
  pose proof (breakdown_sum_whole Fe Fb U) as B.
  assert (Fe' : Forall Whole (map (@Expense.total_amount float) expenses))
    by (apply Forall_map; exact Fe).
  assert (Fb' : Forall Whole (map (@Bill.total_amount float) bills))
    by (apply Forall_map; exact Fb).
  rewrite <- (map_map (@Expense.total_amount float) whole_of),
    <- (map_map (@Bill.total_amount float) whole_of) in U.
  pose proof (sum_Z_nonneg Fe') as Pe. pose proof (sum_Z_nonneg Fb') as Pb.
  assert (S : map snd (rollup_entries expenses bills)
              = map (@Expense.total_amount float) expenses
                ++ map (@Bill.total_amount float) bills).
  { unfold rollup_entries. rewrite map_app, !map_map. reflexivity. }
  destruct (@file_entries_whole (rollup_entries expenses bills) [])
    as [F E].
  { constructor. }
  { rewrite S. apply Forall_app. split; assumption. }
  { rewrite S, map_app, sum_Z_app. cbn [dict_values map sum_Z]. lia. }
  rewrite <- category_breakdown_entries in F, E.
  rewrite S, map_app, sum_Z_app in E. cbn [dict_values map sum_Z] in E.
  unfold total_expenses_312.
  rewrite !py312_sum_whole by (assumption || lia).
  exact B.
Qed.

(** Bills sorted by owner. *)
Lemma sum_Z_owner (o : nat) (x : Z) (g : User.t -> Z) (users : list User.t) :
  NoDup (map User.id users) ->
  In o (map User.id users) ->
  sum_Z (map (fun u => if (o =? User.id u)%nat then x + g u else g u) users)
  = x + sum_Z (map g users).
Proof.
  induction users as [|u l IH]; intros N Hin; [destruct Hin|].
  simpl in N. inversion N as [|? ? Hu Nl]; subst. simpl.
  destruct (Nat.eqb_spec o (User.id u)) as [E|E].
  - assert (M : map (fun v => if (o =? User.id v)%nat then x + g v else g v) l = map g l).
    { apply map_ext_in. intros v Hv.
      destruct (Nat.eqb_spec o (User.id v)) as [E'|E']; [|reflexivity].
      exfalso. apply Hu. rewrite <- E, E'. now apply in_map. }
    rewrite M. lia.
  - destruct Hin as [Hin|Hin]; [congruence|].
    rewrite (IH Nl Hin). lia.
Qed.

Lemma sum_Z_by_owner (f : Bill.t float -> Z) (users : list User.t)
    (l : list (Bill.t float)) :
  NoDup (map User.id users) ->
  Forall (fun b => In (Bill.user_id b) (map User.id users)) l ->
  sum_Z (map (fun u => sum_Z (map f (filter (fun b => (Bill.user_id b =? User.id u)%nat) l)))
           users)
  = sum_Z (map f l).
Proof.
  intros N. induction 1 as [|b l Hb F IH]; simpl.
  - clear N. induction users as [|u r IHr]; simpl; [reflexivity | exact IHr].
  - rewrite <- IH.
    rewrite <- (@sum_Z_owner (Bill.user_id b) (f b)
                  (fun u => sum_Z (map f (filter (fun b => (Bill.user_id b =? User.id u)%nat) l)))
                  users N Hb).
    f_equal. apply map_ext. intros u.
    destruct (Bill.user_id b =? User.id u)%nat; reflexivity.
Qed.

Lemma sum_Z_filter_le (p : Bill.t float -> bool) (l : list (Bill.t float)) :
  Forall (fun b => Whole (Bill.total_amount b)) l ->
  sum_Z (map (fun b => whole_of (Bill.total_amount b)) (filter p l))
  <= sum_Z (map (fun b => whole_of (Bill.total_amount b)) l).
Proof.
  induction 1 as [|b l Wb _ IH]; cbn [filter map sum_Z]; [lia|].
  pose proof (Whole_range Wb). destruct (p b); cbn [filter map sum_Z]; lia.
Qed.

(** On whole totals that add up to less than 2^53 the users' totals add
    up to the total of the platform. *)
Lemma total_by_owner_whole (users : list User.t) (l : list (Bill.t float)) :
  NoDup (map User.id users) ->
  Forall (fun b => In (Bill.user_id b) (map User.id users)) l ->
  Forall (fun b => Whole (Bill.total_amount b)) l ->
  sum_Z (map (fun b => whole_of (Bill.total_amount b)) l) < 2 ^ prec ->
  py_sum (map (fun u => py_sum (map (@Bill.total_amount float)
                                  (filter (fun b => (Bill.user_id b =? User.id u)%nat) l)))
            users)
  = py_sum (map (@Bill.total_amount float) l).
Proof.
  intros N Own Fw U.
  set (f := fun b : Bill.t float => whole_of (Bill.total_amount b)) in *.
  set (own := fun (u : User.t) (b : Bill.t float) => (Bill.user_id b =? User.id u)%nat).
  assert (Each : forall u,
             Whole (py_sum (map (@Bill.total_amount float) (filter (own u) l)))
             /\ whole_of (py_sum (map (@Bill.total_amount float) (filter (own u) l)))
                = sum_Z (map f (filter (own u) l))).
  { intros u.
    assert (Fu : Forall Whole (map (@Bill.total_amount float) (filter (own u) l))).
    { apply Forall_map. rewrite Forall_forall in *. intros b Hb.
      apply filter_In in Hb. apply Fw. tauto. }
    pose proof (sum_Z_filter_le (own u) Fw) as Le. fold f in Le.
    destruct (py_sum_whole Fu) as [W V].
    { rewrite map_map. fold f. lia. }
    split; [exact W|]. rewrite V, map_map. reflexivity. }
  assert (Fl : Forall Whole (map (@Bill.total_amount float) l))
    by (apply Forall_map; exact Fw).
  destruct (py_sum_whole Fl) as [Wr Vr].
  { rewrite map_map. exact U. }
  rewrite map_map in Vr. fold f in Vr.
  assert (Fo : Forall Whole
                 (map (fun u => py_sum (map (@Bill.total_amount float) (filter (own u) l)))
                    users)).
  { apply Forall_map. rewrite Forall_forall. intros u _. apply Each. }
  assert (Vo : sum_Z (map whole_of
                        (map (fun u => py_sum (map (@Bill.total_amount float)
                                                 (filter (own u) l))) users))
               = sum_Z (map f l)).
  { rewrite map_map.
    rewrite <- (@sum_Z_by_owner f users l N Own).
    f_equal. apply map_ext. intros u. apply Each. }
  destruct (py_sum_whole Fo) as [Wl Vl]; [rewrite Vo; exact U|].
  subst own. cbv beta in *.
  apply Whole_eq; [exact Wl | exact Wr |].
  rewrite Vl, Vo. symmetry. exact Vr.
Qed.
End WholeSums.

(** 300 rupees are a whole amount; 0.5, -1 and 2^53 are not. *)
Example whole_amounts :
  whole 300 300%float
  /\ whole_of 300%float = 300%Z
  /\ ~ Whole 0.5%float /\ ~ Whole (-1)%float /\ ~ Whole 0x1p53%float.
Proof.
  split; [split; [vm_compute; split; [discriminate | reflexivity]
                 | vm_compute; reflexivity]|].
  split; [vm_compute; reflexivity|].
  repeat split; intros [_ E]; vm_compute in E; discriminate E.
Qed.

(** C6, as the code has it, on the floats of the program.  The breakdown
    files each expense under its own category and each bill under
    ["fertilizers"], every key holding the sum of its amounts as [+=]
    builds it: this holds of all amounts.  When every amount is a whole
    number from 0 up and the amounts total less than 2^53, no addition
    rounds and the values of the breakdown add up to [total_expenses],
    with the [sum] of Python before 3.12 and with the one since. *)
Theorem breakdown_matches_total_when_exact :
  forall (expenses : list (Expense.t float)) (bills : list (Bill.t float)),
    (forall k : string,
        dict_get k (category_breakdown expenses bills)
        = running_sum (amounts_under k expenses bills))
    /\ (Forall (fun e => Whole (Expense.total_amount e)) expenses ->
        Forall (fun b => Whole (Bill.total_amount b)) bills ->
        (sum_Z (map (fun e => whole_of (Expense.total_amount e)) expenses)
         + sum_Z (map (fun b => whole_of (Bill.total_amount b)) bills) < 2 ^ 53)%Z ->
        py_sum (dict_values (category_breakdown expenses bills))
        = total_expenses expenses bills
        /\ py312_sum (dict_values (category_breakdown expenses bills))
           = total_expenses_312 expenses bills).
Proof.
  intros expenses bills. split.
  - intros k. apply category_breakdown_attribution.
  - intros Fe Fb U. split.
    + now apply breakdown_sum_whole.
    + now apply breakdown_sum_whole_312.
Qed.

(** Expenses of 10, 20 and 5 rupees and a bill of 7: the breakdown
    holds 15 (seeds), 20 (labor) and 7 (fertilizers), and 42 in all. *)
Lemma breakdown_matches_total_when_exact_witness :
  let expenses := [Expense.mk "seeds" 10%float; Expense.mk "labor" 20%float;
                   Expense.mk "seeds" 5%float] in
  let bills := [Bill.mk 1 None (mkdate 2025 1 15) 7%float 1] in
  (Forall (fun e => Whole (Expense.total_amount e)) expenses
   /\ Forall (fun b => Whole (Bill.total_amount b)) bills
   /\ (sum_Z (map (fun e => whole_of (Expense.total_amount e)) expenses)
       + sum_Z (map (fun b => whole_of (Bill.total_amount b)) bills) < 2 ^ 53)%Z)
  /\ category_breakdown expenses bills
     = [("seeds", 15%float); ("labor", 20%float); ("fertilizers", 7%float)]
  /\ (forall k : string,
         dict_get k (category_breakdown expenses bills)
         = running_sum (amounts_under k expenses bills))
  /\ py_sum (dict_values (category_breakdown expenses bills))
     = total_expenses expenses bills
  /\ py312_sum (dict_values (category_breakdown expenses bills))
     = total_expenses_312 expenses bills.
Proof.
  intros expenses bills.
  assert (W : forall x : float,
             ((0 <=? whole_of x) && (whole_of x <? 2 ^ 53))%Z = true ->
             Prim2SF x = whole_sf (whole_of x) -> Whole x).
  { intros x R E. apply andb_prop in R. destruct R as [R1 R2].
    apply Z.leb_le in R1. apply Z.ltb_lt in R2. split; [split|]; assumption. }
  assert (Fe : Forall (fun e => Whole (Expense.total_amount e)) expenses).
  { unfold expenses.
    repeat (apply Forall_cons; [apply W; vm_compute; reflexivity|]). apply Forall_nil. }
  assert (Fb : Forall (fun b => Whole (Bill.total_amount b)) bills).
  { unfold bills.
    repeat (apply Forall_cons; [apply W; vm_compute; reflexivity|]). apply Forall_nil. }
  assert (U : (sum_Z (map (fun e => whole_of (Expense.total_amount e)) expenses)
               + sum_Z (map (fun b => whole_of (Bill.total_amount b)) bills) < 2 ^ 53)%Z).
  { vm_compute. reflexivity. }
  split; [auto|]. split; [vm_compute; reflexivity|].
  destruct (breakdown_matches_total_when_exact expenses bills) as [At Eq].
  split; [exact At|]. exact (Eq Fe Fb U).
Defined.

(** C6 as stated fails on binary64: with expenses of 0.1 (seeds), 0.1
    (labor) and 0.4 (seeds) and no bill, [total_expenses] is
    0.6000000000000001 and the values of the breakdown add up to 0.6,
    with the [sum] of Python before 3.12 and with the one since. *)
Lemma breakdown_sum_differs_on_floats :
  category_breakdown seeds_labor_seeds []
  = [("seeds", 0.5%float); ("labor", f0_1)]
  /\ total_expenses seeds_labor_seeds [] = 0x1.3333333333334p-1%float
  /\ py_sum (dict_values (category_breakdown seeds_labor_seeds []))
     = 0x1.3333333333333p-1%float
  /\ PrimFloat.eqb
       (py_sum (dict_values (category_breakdown seeds_labor_seeds [])))
       (total_expenses seeds_labor_seeds []) = false
  /\ PrimFloat.eqb
       (py312_sum (dict_values (category_breakdown seeds_labor_seeds [])))
       (total_expenses_312 seeds_labor_seeds []) = false
  /\ ~ (forall (expenses : list (Expense.t float)) (bills : list (Bill.t float)),
           py_sum (dict_values (category_breakdown expenses bills))
           = total_expenses expenses bills).
Proof.
  repeat split; try (vm_compute; reflexivity).
  intros C. specialize (C seeds_labor_seeds []).
  assert (E : PrimFloat.eqb
                (py_sum (dict_values (category_breakdown seeds_labor_seeds [])))
                (total_expenses seeds_labor_seeds []) = false)
    by (vm_compute; reflexivity).
  rewrite C in E. vm_compute in E. discriminate E.
Qed.

(* ================================================================== *)
(** * The sum of areas is positive or empty *)

Section FloatSigns.
Local Open Scope Z_scope.

Lemma shr_1_m (mrs : shr_record) :
  0 <= shr_m mrs -> shr_m (shr_1 mrs) = Z.div2 (shr_m mrs).
Proof.
  destruct mrs as [m r s]. simpl. destruct m as [|[p|p|]|p]; simpl; try reflexivity; lia.
Qed.

Lemma iter_shr_1_m (n : positive) :
  forall mrs, 0 <= shr_m mrs ->
    shr_m (iter_pos shr_1 n mrs) = Z.shiftr (shr_m mrs) (Zpos n).
Proof.
  induction n as [n IH|n IH|]; intros mrs P; simpl iter_pos.
  - assert (P1 : 0 <= shr_m (shr_1 mrs)).
    { rewrite shr_1_m by exact P. apply Z.div2_nonneg. exact P. }
    assert (P2 : 0 <= shr_m (iter_pos shr_1 n (shr_1 mrs))).
    { rewrite IH by exact P1. apply Z.shiftr_nonneg. exact P1. }
    rewrite IH by exact P2. rewrite IH by exact P1. rewrite shr_1_m by exact P.
    rewrite Z.div2_spec, !Z.shiftr_shiftr by lia. f_equal. lia.
  - assert (P2 : 0 <= shr_m (iter_pos shr_1 n mrs)).
    { rewrite IH by exact P. apply Z.shiftr_nonneg. exact P. }
    rewrite IH by exact P2. rewrite IH by exact P.
    rewrite Z.shiftr_shiftr by lia. f_equal. lia.
  - rewrite shr_1_m by exact P. apply Z.div2_spec.
Qed.

Lemma shr_record_of_loc_m (m : Z) (l : location) : shr_m (shr_record_of_loc m l) = m.
Proof. destruct l as [|[]]; reflexivity. Qed.

Lemma shr_fexp_positive (p : positive) (ex : Z) (lx : location) :
  emin <= ex ->
  0 < shr_m (fst (shr_fexp prec emax (Zpos p) ex lx))
  /\ emin <= snd (shr_fexp prec emax (Zpos p) ex lx).
Proof.
  intros L. unfold shr_fexp, shr.
  pose proof (digits2_bound p) as D.
  set (d := Zpos (digits2_pos p)) in *.
  assert (Hd : 1 <= d) by (subst d; lia).
  change (Zdigits2 (Zpos p)) with d.
  destruct (fexp prec emax (d + ex) - ex) as [|n|n] eqn:E; cbn [fst snd].
  - rewrite shr_record_of_loc_m. lia.
  - split; [|lia].
    rewrite iter_shr_1_m by (rewrite shr_record_of_loc_m; lia).
    rewrite shr_record_of_loc_m, Z.shiftr_div_pow2 by lia.
    assert (Hn : Zpos n <= d - 1).
    { unfold fexp, emin, prec, emax in *. lia. }
    assert (2 ^ Zpos n <= 2 ^ (d - 1)) by (apply Z.pow_le_mono_r; lia).
    apply Z.div_str_pos. lia.
  - rewrite shr_record_of_loc_m. lia.
Qed.

Lemma binary_round_aux_positive (p : positive) (ex : Z) (lx : location) :
  emin <= ex ->
  sf_positive (binary_round_aux prec emax false (Zpos p) ex lx).
Proof.
  intros L. unfold binary_round_aux.
  destruct (@shr_fexp_positive p ex lx L) as [P1 E1].
  destruct (shr_fexp prec emax (Zpos p) ex lx) as [mrs' e'].
  cbn [fst snd] in P1, E1.
  assert (R : 0 < round_nearest_even (shr_m mrs') (loc_of_shr_record mrs')).
  { unfold round_nearest_even.
    destruct (loc_of_shr_record mrs') as [|[]]; try lia.
    destruct (Z.even (shr_m mrs')); lia. }
  destruct (round_nearest_even (shr_m mrs') (loc_of_shr_record mrs')) as [|q|q]; try lia.
  destruct (@shr_fexp_positive q e' loc_Exact E1) as [P2 E2].
  destruct (shr_fexp prec emax (Zpos q) e' loc_Exact) as [mrs'' e''].
  cbn [fst snd] in P2, E2.
  destruct (shr_m mrs'') as [|m|m]; try lia.
  destruct (e'' <=? emax - prec); exact I.
Qed.

Lemma valid_emin (s : bool) (m : positive) (e : Z) :
  valid_binary (S754_finite s m e) = true -> emin <= e.
Proof.
  unfold SpecFloat.valid_binary, bounded, canonical_mantissa.
  intros V. apply andb_prop in V. destruct V as [V _].
  apply Z.eqb_eq in V. unfold fexp in V. lia.
Qed.

Lemma SFadd_finite_positive (mx my : positive) (ex ey : Z) :
  emin <= ex -> emin <= ey ->
  sf_positive (SFadd prec emax (S754_finite false mx ex) (S754_finite false my ey)).
Proof.
  intros Ex Ey. unfold SFadd, cond_Zopp.
  set (ez := Z.min ex ey).
  assert (Ez : emin <= ez) by (subst ez; lia).
  cbn [Z.add]. unfold binary_normalize, binary_round.
  set (p := (fst (shl_align mx ex ez) + fst (shl_align my ey ez))%positive).
  unfold shl_align at 1.
  destruct (fexp prec emax (Zpos (digits2_pos p) + ez) - ez) as [|d|d] eqn:E.
  - apply binary_round_aux_positive. exact Ez.
  - apply binary_round_aux_positive. exact Ez.
  - apply binary_round_aux_positive. unfold fexp. lia.
Qed.

Lemma SFadd_positive (x y : spec_float) :
  valid_binary x = true -> valid_binary y = true ->
  (sf_positive x \/ exists s, x = S754_zero s) ->
  sf_positive y ->
  sf_positive (SFadd prec emax x y).
Proof.
  intros Vx Vy Px Py.
  destruct y as [sy|sy| |sy my ey]; simpl in Py; try contradiction;
    destruct sy; try contradiction;
    destruct x as [sx|sx| |sx mx ex];
    destruct Px as [Px|[s Px]]; simpl in Px; try contradiction; try discriminate;
    try destruct sx; try contradiction; try exact I.
  apply SFadd_finite_positive; eapply valid_emin; eassumption.
Qed.

Lemma positive_float_sf (x : float) : positive_float x <-> sf_positive (Prim2SF x).
Proof.
  unfold positive_float. rewrite ltb_spec.
  change (Prim2SF PrimFloat.zero) with (S754_zero false).
  unfold SFltb, SFcompare.
  destruct (Prim2SF x) as [s|[|]| |[|] m e]; simpl; split; intros; try discriminate; try contradiction; auto.
Qed.

Lemma float_add_positive (a b : float) :
  (PrimFloat.leb PrimFloat.zero a = true) ->
  positive_float b ->
  positive_float (PrimFloat.add a b).
Proof.
  intros La Pb. apply positive_float_sf. apply positive_float_sf in Pb.
  rewrite add_spec. apply SFadd_positive; try apply Prim2SF_valid; [|exact Pb].
  rewrite leb_spec in La. change (Prim2SF PrimFloat.zero) with (S754_zero false) in La.
  unfold SFleb, SFcompare in La.
  destruct (Prim2SF a) as [s|[|]| |[|] m e]; simpl in *; try discriminate; eauto.
Qed.

Lemma positive_float_leb (x : float) :
  positive_float x -> PrimFloat.leb PrimFloat.zero x = true.
Proof.
  unfold positive_float. rewrite ltb_spec, leb_spec. unfold SFltb, SFleb.
  destruct (SFcompare (Prim2SF PrimFloat.zero) (Prim2SF x)) as [[]|];
    try discriminate; reflexivity.
Qed.

Lemma positive_float_not_zero (x : float) :
  positive_float x -> PrimFloat.eqb x PrimFloat.zero = false.
Proof.
  intros P. apply positive_float_sf in P. rewrite eqb_spec.
  change (Prim2SF PrimFloat.zero) with (S754_zero false).
  unfold SFeqb, SFcompare.
  destruct (Prim2SF x) as [s|[|]| |[|] m e]; simpl in *; try contradiction;
    reflexivity.
Qed.

Lemma nonzero_valid_positive (v : float) :
  PrimFloat.leb PrimFloat.zero v = true ->
  PrimFloat.eqb v PrimFloat.zero = false ->
  positive_float v.
Proof.
  intros L E. apply positive_float_sf.
  rewrite leb_spec in L. rewrite eqb_spec in E.
  change (Prim2SF PrimFloat.zero) with (S754_zero false) in *.
  unfold SFleb, SFeqb, SFcompare in *.
  destruct (Prim2SF v) as [s|[|]| |[|] m e]; simpl in *; try discriminate;
    exact I.
Qed.

Lemma fold_add_positive (l : list float) :
  forall acc : float,
    PrimFloat.leb PrimFloat.zero acc = true ->
    Forall positive_float l ->
    l <> [] ->
    positive_float (fold_left PrimFloat.add l acc).
Proof.
  induction l as [|v r IH]; intros acc La F N; [congruence|].
  inversion F as [|v' r' Pv Fr]; subst. simpl.
  pose proof (float_add_positive La Pv) as P.
  destruct r as [|w r]; [exact P|].
  apply IH; [now apply positive_float_leb | exact Fr | discriminate].
Qed.

Lemma counted_areas_positive (user_fields : list Field.t) :
  forallb valid_area user_fields = true ->
  Forall positive_float (counted_areas user_fields).
Proof.
  unfold counted_areas.
  induction user_fields as [|f l IH]; simpl; intros V; [constructor|].
  apply andb_prop in V. destruct V as [Vf Vl].
  apply Forall_app. split; [|now apply IH].
  unfold valid_area in Vf.
  destruct (Field.area_acres f) as [v|]; [|constructor].
  unfold truthy. destruct (PrimFloat.eqb v PrimFloat.zero) eqn:E; simpl;
    [constructor|].
  constructor; [|constructor]. now apply nonzero_valid_positive.
Qed.
End FloatSigns.

(** C7: with areas as the field form admits them, [cost_per_acre] is 0
    when the areas of the active fields add up to 0 and
    [total_expenses] divided by that sum otherwise; the guard of the
    division and a zero divisor never hold together. *)
Theorem cost_per_acre_never_divides_by_zero :
  forall (expenses : list (Expense.t float)) (bills : list (Bill.t float))
         (fields : list Field.t),
    forallb valid_area (active_fields fields) = true ->
    let acres := total_acres (active_fields fields) in
    dashboard_cost_per_acre expenses bills fields
    = (if PrimFloat.eqb acres PrimFloat.zero then PrimFloat.zero
       else PrimFloat.div (total_expenses expenses bills) acres)
    /\ (PrimFloat.ltb PrimFloat.zero acres && PrimFloat.eqb acres PrimFloat.zero)
       = false.
Proof.
  intros expenses bills fields V acres.
  pose proof (counted_areas_positive _ V) as F.
  unfold dashboard_cost_per_acre, cost_per_acre.
  fold acres. subst acres. unfold total_acres. fold (counted_areas (active_fields fields)).
  destruct (counted_areas (active_fields fields)) as [|v r] eqn:E.
  - split; reflexivity.
  - assert (P : positive_float (py_sum (v :: r))).
    { unfold py_sum. apply fold_add_positive; [reflexivity | exact F | discriminate]. }
    pose proof (positive_float_not_zero P) as Z.
    unfold positive_float in P. rewrite P, Z. split; reflexivity.
Qed.

Lemma cost_per_acre_never_divides_by_zero_witness :
  let expenses := [Expense.mk "seeds" 100%float] in
  let acres := total_acres (active_fields sample_fields) in
  forallb valid_area (active_fields sample_fields) = true
  /\ dashboard_cost_per_acre expenses [] sample_fields
     = (if PrimFloat.eqb acres PrimFloat.zero then PrimFloat.zero
        else PrimFloat.div (total_expenses expenses []) acres)
  /\ (PrimFloat.ltb PrimFloat.zero acres && PrimFloat.eqb acres PrimFloat.zero)
     = false.
Proof.
  intros expenses acres.
  split; [reflexivity|].
  apply (cost_per_acre_never_divides_by_zero expenses [] sample_fields).
  reflexivity.
Defined.

(** The dashboard on the sample: 100 over the 2 acres of the one active
    field with an area. *)
Example cost_per_acre_sample :
  dashboard_cost_per_acre [Expense.mk "seeds" 100%float] [] sample_fields = 50%float.
Proof. reflexivity. Qed.

(* ================================================================== *)
(** * The round trip through CSV *)

Example export_ledger :
  export_data (PL := py_lib (mkdate 2025 1 20)) 7 ledger_db
  = [ export_header;
      ["2025-01-16"; "BILL-2"; "NPK C"; "NPK"; "50.25"; "50.25"; "1"];
      ["2025-01-15"; "BILL-001"; "Urea A"; "Urea"; "100.00"; "300.00"; "2"];
      ["2025-01-15"; "BILL-001"; "DAP B"; "DAP"; "200.00"; "300.00"; "2"] ].
Proof. vm_compute. reflexivity. Qed.

(** C2 as stated fails: a bill without line items is not exported, so
    the round trip of a store with one such bill has no bill at all. *)
Lemma round_trip_loses_empty_bill :
  user_bills 7 empty_bill_db
  = [Bill.mk 1 (Some "BILL-001") (mkdate 2025 1 15) 0%float 7]
  /\ export_data (PL := py_lib (mkdate 2025 1 20)) 7 empty_bill_db = [export_header]
  /\ round_trip_db (PL := py_lib (mkdate 2025 1 20)) 7 7 empty_bill_db = empty_db
  /\ length (bills (round_trip_db (PL := py_lib (mkdate 2025 1 20)) 7 7 empty_bill_db))
     <> length (user_bills 7 empty_bill_db).
Proof.
  repeat split; try (vm_compute; reflexivity).
  vm_compute. discriminate.
Qed.

(** A price with more than two decimals comes back rounded: 0.125 is
    exported as [0.12], and the total of the bill changes with it. *)
Example round_trip_rounds_prices :
  round_trip_db (PL := py_lib (mkdate 2025 1 20)) 7 7 eighth_db
  = mkDb [Bill.mk 1 (Some "BILL-001") (mkdate 2025 1 15) 0x1.eb851eb851eb8p-4%float 7]
         [Fertilizer.mk "Urea A" 0x1.eb851eb851eb8p-4%float "Urea" (Some 1)]
  /\ Py.float_of_str "0.12" = Some 0x1.eb851eb851eb8p-4%float
  /\ PrimFloat.eqb 0x1.eb851eb851eb8p-4%float 0.125%float = false.
Proof. repeat split; vm_compute; reflexivity. Qed.

(** Two bills of one date and one number, exported one after the other,
    come back as one bill. *)
Example round_trip_merges_twins :
  round_trip_db (PL := py_lib (mkdate 2025 1 20)) 7 7 twin_db
  = mkDb [Bill.mk 1 (Some "BILL-001") (mkdate 2025 1 15) 300%float 7]
         [Fertilizer.mk "Urea A" 100%float "Urea" (Some 1);
          Fertilizer.mk "DAP B" 200%float "DAP" (Some 1)].
Proof. vm_compute. reflexivity. Qed.

Section RoundTripFacts.
Context {A : Type} {AM : Amount A} {PL : PyLib A}.

Lemma parse_export_row (db : Db A) (b : Bill.t A) (f : Fertilizer.t A) :
  survives f ->
  parse_line (export_row db b f) = Some (export_line db b f).
Proof.
  intros [_ P]. unfold parse_line.
  change (4 <=? length (export_row db b f)) with true. cbv iota.
  assert (R : row_price (export_row db b f) = Some (Fertilizer.price f)).
  { unfold row_price.
    change (4 <? length (export_row db b f)) with true. cbv iota. exact P. }
  rewrite R. reflexivity.
Qed.

Lemma parse_export_rows (db : Db A) (b : Bill.t A) (fs : list (Fertilizer.t A)) :
  Forall survives fs ->
  parse_lines (map (export_row db b) fs) = map (export_line db b) fs.
Proof.
  induction 1 as [|f fs S F IH]; [reflexivity|].
  simpl map. rewrite (parse_lines_cons (export_row db b f) _ (parse_export_row db b S)).
  now rewrite IH.
Qed.

Lemma parse_exported_bills (db : Db A) (bs : list (Bill.t A)) :
  Forall (rebuildable db) bs ->
  parse_lines
    (flat_map (fun b => map (export_row db b) (fertilizers_of (Bill.id b) db)) bs)
  = flat_map (bill_lines db) bs.
Proof.
  induction 1 as [|b bs (_ & S & _) F IH]; [reflexivity|].
  simpl flat_map. rewrite <- parse_lines_app, IH, parse_export_rows by exact S.
  reflexivity.
Qed.

(** The group in progress takes a run of lines with its key. *)
Lemma group_adjacent_run (ls : list (Line A)) :
  forall (g : Group A) (rest : list (Line A)),
    Forall (fun l => line_key l = group_key g) ls ->
    group_adjacent (Some g) (ls ++ rest)
    = group_adjacent
        (Some (mkGroup (group_key g) (group_number g) (group_date g)
                 (group_lines g ++ ls))) rest.
Proof.
  induction ls as [|l ls IH]; intros g rest F.
  - rewrite app_nil_r. destruct g; reflexivity.
  - inversion F as [|l' ls' K F']; subst.
    cbn [app]. rewrite group_adjacent_some, K, String.eqb_refl.
    rewrite IH by exact F'. cbn [extend_group group_key group_number group_date group_lines].
    rewrite <- app_assoc. reflexivity.
Qed.

Lemma bill_lines_key (db : Db A) (b : Bill.t A) :
  Forall (fun l => line_key l = reimport_key b) (bill_lines db b).
Proof.
  unfold bill_lines. apply Forall_forall. intros l In.
  apply in_map_iff in In. destruct In as (f & <- & _). reflexivity.
Qed.

(** Exported bills come back as one group each. *)
Lemma group_exported_bills (db : Db A) (bs : list (Bill.t A)) :
  forall cur : option (Group A),
    Forall (rebuildable db) bs ->
    adjacent_distinct (map reimport_key bs) ->
    key_free cur bs ->
    group_adjacent cur (flat_map (bill_lines db) bs)
    = closed_list cur ++ map (bill_group db) bs.
Proof.
  induction bs as [|b bs IH]; intros cur F D K.
  - destruct cur; reflexivity.
  - inversion F as [|b' bs' (N & S & C) F']; subst.
    cbn [flat_map map].
    pose proof (bill_lines_key db b) as BK.
    assert (NL : bill_lines db b <> []).
    { unfold bill_lines. destruct (fertilizers_of (Bill.id b) db); [congruence|discriminate]. }
    destruct (bill_lines db b) as [|l ls] eqn:E; [congruence|].
    inversion BK as [|l' ls' Kl Kls]; subst.
    assert (Step : group_adjacent (Some (new_group l)) (ls ++ flat_map (bill_lines db) bs)
                   = bill_group db b :: map (bill_group db) bs).
    { rewrite group_adjacent_run by (cbn [new_group group_key]; rewrite Kl; exact Kls).
      rewrite IH; [| exact F' | | ].
      - cbn [closed_list app new_group group_key group_number group_date group_lines].
        unfold bill_group. rewrite E. f_equal.
        assert (El : In l (bill_lines db b)) by (rewrite E; left; reflexivity).
        unfold bill_lines in El. apply in_map_iff in El.
        destruct El as (f & <- & _). reflexivity.
      - destruct bs as [|b2 bs]; [exact I|]. simpl in D. apply D.
      - destruct bs as [|b2 bs]; [exact I|].
        cbn [key_free new_group group_key]. rewrite Kl. simpl in D. apply D. }
    cbn [app]. destruct cur as [g|].
    + rewrite group_adjacent_some.
      cbn [key_free] in K.
      destruct (String.eqb_spec (group_key g) (line_key l)) as [Eq|Ne];
        [congruence|].
      rewrite Step. reflexivity.
    + exact Step.
Qed.

Lemma no_orphans_add_group (uid : nat) (db : Db A) (g : Group A) :
  no_orphans db -> no_orphans (add_group uid db g).
Proof.
  intros NO i L. rewrite next_bill_id_add_group in L.
  rewrite fertilizers_of_add_group, NO by lia.
  destruct (next_bill_id db =? i) eqn:E; [apply Nat.eqb_eq in E; lia | reflexivity].
Qed.

Lemma map_price_items (i : nat) (ls : list (Line A)) :
  map (@Fertilizer.price A) (map (item_of i) ls) = map (@line_price A) ls.
Proof. rewrite map_map. reflexivity. Qed.

(** The bills that a list of groups adds to a store without orphans
    have the summaries of the groups. *)
Lemma add_groups_summaries (uid : nat) (gs : list (Group A)) :
  forall db : Db A,
    no_orphans db ->
    exists created,
      bills (fold_left (add_group uid) gs db) = bills db ++ created
      /\ Forall (fun b => next_bill_id db <= Bill.id b) created
      /\ map (bill_summary (fold_left (add_group uid) gs db)) created
         = map group_summary gs.
Proof.
  induction gs as [|g gs IH]; intros db NO.
  - exists []. simpl. rewrite app_nil_r. auto.
  - cbn [fold_left].
    destruct (IH (add_group uid db g) (@no_orphans_add_group uid db g NO))
      as (created & Eb & Ids & Sm).
    set (final := fold_left (add_group uid) gs (add_group uid db g)) in *.
    set (i := next_bill_id db).
    exists (Bill.mk i (none_if_empty (group_number g)) (group_date g)
              (py_sum (map (@Fertilizer.price A)
                         (fertilizers_of i db ++ group_items i g))) uid
            :: created).
    split; [|split].
    + rewrite Eb. unfold add_group. cbn [bills]. rewrite <- app_assoc. reflexivity.
    + constructor; [cbn [Bill.id]; subst i; lia|].
      eapply Forall_impl; [|exact Ids]. cbn beta. intros b.
      rewrite next_bill_id_add_group. lia.
    + cbn [map]. rewrite Sm. f_equal.
      unfold bill_summary, fertilizer_count, group_summary. cbn [Bill.id Bill.total_amount].
      subst final. rewrite fertilizers_of_add_groups, fertilizers_of_add_group.
      rewrite next_bill_id_add_group, items_at_below by (subst i; lia).
      subst i. rewrite Nat.eqb_refl, app_nil_r, (NO (next_bill_id db)) by lia.
      cbn [app]. unfold group_items. rewrite length_map, map_price_items.
      reflexivity.
Qed.

Lemma add_groups_numbers (uid : nat) (gs : list (Group A)) :
  forall db : Db A,
    map (fun b => Bill.bill_number b) (bills (fold_left (add_group uid) gs db))
    = map (fun b => Bill.bill_number b) (bills db)
      ++ map (fun g => none_if_empty (group_number g)) gs.
Proof.
  induction gs as [|g gs IH]; intros db; cbn [fold_left map].
  - now rewrite app_nil_r.
  - rewrite IH. unfold add_group. cbn [bills]. rewrite map_app, <- app_assoc.
    reflexivity.
Qed.

Lemma spec_errors_parsed (rows : list (list string)) :
  forall n : nat,
    Forall (fun r => parse_line (A := A) r <> None) rows ->
    spec_errors n rows = [].
Proof.
  induction rows as [|r rows IH]; intros n F; [reflexivity|].
  inversion F as [|r' rows' P F']; subst.
  rewrite spec_errors_cons, IH by exact F'. rewrite app_nil_r.
  unfold spec_errors. rewrite app_nil_r. unfold parse_line in P.
  destruct (4 <=? length r); [|reflexivity].
  destruct (row_price r); [reflexivity|congruence].
Qed.

Lemma bill_lines_named (db : Db A) (b : Bill.t A) :
  Forall survives (fertilizers_of (Bill.id b) db) ->
  named (bill_lines db b) = bill_lines db b.
Proof.
  unfold bill_lines, named.
  induction 1 as [|f fs [N _] F IH]; [reflexivity|].
  cbn [map filter].
  change (line_name (export_line db b f)) with (strip (Fertilizer.name f)).
  rewrite N. cbn [negb]. f_equal. exact IH.
Qed.

Lemma bill_group_summary (db : Db A) (b : Bill.t A) :
  rebuildable db b ->
  group_summary (bill_group db b) = bill_summary db b.
Proof.
  intros (N & S & C). unfold group_summary, bill_summary, bill_group.
  cbn [group_lines]. rewrite (bill_lines_named db b S).
  unfold bill_lines, fertilizer_count. rewrite length_map, map_map.
  cbn [export_line line_price]. rewrite C. reflexivity.
Qed.
End RoundTripFacts.

(** C2, as the code has it: for a store in which every bill of the
    user has a line item, the items have a name that is not blank and a
    price that its two-decimal text gives back, the totals are the sums
    of the items, and bills exported one after the other come back
    under different grouping keys, exporting and importing into the
    empty store gives as many bills, in the order of the export, with
    the same item counts and the same totals.  A bill without a number
    is exported as [BILL-<id>] and comes back under that number. *)
Theorem export_import_round_trip :
  forall (A : Type) (AM : Amount A) (PL : PyLib A) (uid uid' : nat) (db : Db A),
    exportable uid db ->
    exists st,
      import_data uid' (export_data uid db) (open_session empty_db None)
      = Returned (st, success_flashes st)
      /\ round_trip_db uid uid' db = committed (sess st)
      /\ bills_created st = length (user_bills uid db)
      /\ errors st = []
      /\ map (bill_summary (round_trip_db uid uid' db))
           (bills (round_trip_db uid uid' db))
         = map (bill_summary db) (user_bills uid db)
      /\ map (fun b => Bill.bill_number b) (bills (round_trip_db uid uid' db))
         = map (fun b => none_if_empty (strip (export_number b))) (user_bills uid db).
Proof.
  intros A AM PL uid uid' db [F D].
  destruct (import_refines_spec AM PL uid' (export_data uid db) empty_db)
    as (st & R & S' & B & I & E).
  assert (PLs : parse_lines (tl (export_data uid db))
                = flat_map (bill_lines db) (user_bills uid db)).
  { unfold export_data. cbn [tl]. now apply parse_exported_bills. }
  assert (G : spec_groups (export_data uid db)
              = map (bill_group db) (user_bills uid db)).
  { unfold spec_groups. rewrite PLs.
    rewrite group_exported_bills; [reflexivity | exact F | exact D | exact Logic.I]. }
  assert (C : round_trip_db uid uid' db
              = fold_left (add_group uid') (map (bill_group db) (user_bills uid db))
                  empty_db).
  { unfold round_trip_db. rewrite R. unfold import_durable, durable. cbn [fst].
    rewrite S'. cbn [committed]. unfold spec_import. now rewrite G. }
  exists st. split; [exact R|].
  split. { unfold round_trip_db at 1. rewrite R. reflexivity. }
  split. { rewrite B, G. apply length_map. }
  split.
  { rewrite E. unfold export_data. cbn [tl]. apply spec_errors_parsed.
    clear -F. induction F as [|b bs (_ & S & _) F IH]; [constructor|].
    cbn [flat_map]. apply Forall_app. split; [|exact IH].
    apply Forall_forall. intros r In. apply in_map_iff in In.
    destruct In as (f & <- & Inf).
    rewrite (parse_export_row db b (proj1 (Forall_forall _ _) S f Inf)).
    discriminate. }
  destruct (add_groups_summaries uid' (map (bill_group db) (user_bills uid db))
              (db := empty_db)) as (created & Eb & _ & Sm).
  { intros i _. reflexivity. }
  rewrite <- C in Eb, Sm. cbn [empty_db bills app] in Eb. subst created.
  split.
  - rewrite Sm, map_map. apply map_ext_in. intros b In.
    apply bill_group_summary. exact (proj1 (Forall_forall _ _) F b In).
  - rewrite C, add_groups_numbers, map_map. reflexivity.
Qed.


Lemma ledger_exportable : exportable (PL := py_lib (mkdate 2025 1 20)) 7 ledger_db.
Proof.
  assert (B : user_bills 7 ledger_db
              = [Bill.mk 2 None (mkdate 2025 1 16) 50.25%float 7;
                 Bill.mk 1 (Some "BILL-001") (mkdate 2025 1 15) 300%float 7])
    by (vm_compute; reflexivity).
  assert (F1 : fertilizers_of 1 ledger_db
               = [Fertilizer.mk "Urea A" 100%float "Urea" (Some 1);
                  Fertilizer.mk "DAP B" 200%float "DAP" (Some 1)])
    by (vm_compute; reflexivity).
  assert (F2 : fertilizers_of 2 ledger_db
               = [Fertilizer.mk "NPK C" 50.25%float "NPK" (Some 2)])
    by (vm_compute; reflexivity).
  unfold exportable. rewrite B. split.
  - repeat apply Forall_cons; try apply Forall_nil;
      unfold rebuildable, consistent; cbn [Bill.id Bill.total_amount];
      rewrite ?F1, ?F2;
      (split; [discriminate|]; split; [|vm_compute; reflexivity]);
      repeat apply Forall_cons; try apply Forall_nil;
      split; vm_compute; reflexivity.
  - cbn [map adjacent_distinct]. split; [|exact I].
    vm_compute. discriminate.
Qed.

Lemma export_import_round_trip_witness :
  exportable (PL := py_lib (mkdate 2025 1 20)) 7 ledger_db
  /\ exists st,
       import_data (PL := py_lib (mkdate 2025 1 20)) 9
         (export_data (PL := py_lib (mkdate 2025 1 20)) 7 ledger_db)
         (open_session empty_db None)
       = Returned (st, success_flashes st)
       /\ round_trip_db (PL := py_lib (mkdate 2025 1 20)) 7 9 ledger_db
          = committed (sess st)
       /\ bills_created st = length (user_bills 7 ledger_db)
       /\ errors st = []
       /\ map (bill_summary (round_trip_db (PL := py_lib (mkdate 2025 1 20)) 7 9 ledger_db))
            (bills (round_trip_db (PL := py_lib (mkdate 2025 1 20)) 7 9 ledger_db))
          = map (bill_summary ledger_db) (user_bills 7 ledger_db)
       /\ map (fun b => Bill.bill_number b)
            (bills (round_trip_db (PL := py_lib (mkdate 2025 1 20)) 7 9 ledger_db))
          = map (fun b => none_if_empty
                            (strip (PyLib := py_lib (mkdate 2025 1 20)) (export_number b)))
              (user_bills 7 ledger_db).
Proof.
  split; [exact ledger_exportable|].
  exact (@export_import_round_trip float float_Amount (py_lib (mkdate 2025 1 20))
           7 9 ledger_db ledger_exportable).
Defined.

(** The round trip of the sample ledger: two bills of user 7 come back,
    the unnumbered one as [BILL-2]. *)
Example round_trip_ledger :
  round_trip_db (PL := py_lib (mkdate 2025 1 20)) 7 9 ledger_db
  = mkDb [Bill.mk 1 (Some "BILL-2") (mkdate 2025 1 16) 50.25%float 9;
          Bill.mk 2 (Some "BILL-001") (mkdate 2025 1 15) 300%float 9]
         [Fertilizer.mk "NPK C" 50.25%float "NPK" (Some 1);
          Fertilizer.mk "Urea A" 100%float "Urea" (Some 2);
          Fertilizer.mk "DAP B" 200%float "DAP" (Some 2)].
Proof. vm_compute. reflexivity. Qed.

Section ByDateFacts.
Context {T : Type}.
Variable key : T -> date.

Lemma date_ltb_spec (a b : date) :
  date_ltb a b = true
  <-> (year a < year b
       \/ (year a = year b
           /\ (month a < month b \/ (month a = month b /\ day a < day b)))).
Proof.
  unfold date_ltb.
  rewrite !orb_true_iff, !andb_true_iff, !orb_true_iff, !andb_true_iff,
    !Nat.ltb_lt, !Nat.eqb_eq.
  tauto.
Qed.

Lemma date_ltb_false (a b : date) :
  date_ltb a b = false
  <-> (year b < year a
       \/ (year b = year a
           /\ (month b < month a \/ (month b = month a /\ day b <= day a)))).
Proof.
  destruct (date_ltb a b) eqn:E.
  - apply date_ltb_spec in E. split; [discriminate|]. lia.
  - split; [|reflexivity]. intros _.
    assert (N : ~ (year a < year b
       \/ (year a = year b
           /\ (month a < month b \/ (month a = month b /\ day a < day b))))).
    { intros H. apply date_ltb_spec in H. congruence. }
    lia.
Qed.

Lemma date_not_before_trans (a b c : date) :
  date_ltb a b = false -> date_ltb b c = false -> date_ltb a c = false.
Proof. rewrite !date_ltb_false. lia. Qed.

Lemma date_ltb_asym (a b : date) : date_ltb a b = true -> date_ltb b a = false.
Proof. rewrite date_ltb_spec, date_ltb_false. lia. Qed.

Lemma date_eqb_eq (a b : date) : date_eqb a b = true <-> a = b.
Proof.
  unfold date_eqb. rewrite !andb_true_iff, !Nat.eqb_eq.
  destruct a, b; simpl. split.
  - intros [[-> ->] ->]. reflexivity.
  - intros E; inversion E. auto.
Qed.

Lemma insert_by_date_perm (x : T) (l : list T) :
  Permutation (insert_by_date key x l) (x :: l).
Proof.
  induction l as [|y r IH]; simpl; [reflexivity|].
  destruct (date_ltb (key x) (key y)); [|reflexivity].
  rewrite IH. apply perm_swap.
Qed.

Lemma sort_by_date_desc_perm (l : list T) :
  Permutation (sort_by_date_desc key l) l.
Proof.
  induction l as [|x l IH]; simpl; [reflexivity|].
  rewrite insert_by_date_perm. now constructor.
Qed.

Lemma insert_by_date_sorted (x : T) (l : list T) :
  latest_first key l -> latest_first key (insert_by_date key x l).
Proof.
  unfold latest_first.
  induction l as [|y r IH]; intros S; simpl.
  - constructor; constructor.
  - inversion S as [|? ? Sr Fy]; subst.
    destruct (date_ltb (key x) (key y)) eqn:E.
    + constructor; [now apply IH|].
      rewrite insert_by_date_perm. constructor; [|exact Fy].
      now apply date_ltb_asym.
    + constructor; [exact S|]. constructor; [exact E|].
      rewrite Forall_forall in *. intros z Hz.
      eapply date_not_before_trans; [exact E | now apply Fy].
Qed.

Lemma sort_by_date_desc_sorted (l : list T) :
  latest_first key (sort_by_date_desc key l).
Proof.
  induction l as [|x l IH]; simpl.
  - constructor.
  - now apply insert_by_date_sorted.
Qed.

(** The sort is stable: the rows of one date keep their order. *)
Lemma insert_by_date_on_date (d : date) (x : T) (l : list T) :
  on_date key d (insert_by_date key x l) = on_date key d (x :: l).
Proof.
  unfold on_date.
  induction l as [|y r IH]; simpl; [reflexivity|].
  destruct (date_ltb (key x) (key y)) eqn:E; [|reflexivity].
  simpl. rewrite IH. simpl.
  destruct (date_eqb (key x) d) eqn:Ex; destruct (date_eqb (key y) d) eqn:Ey;
    try reflexivity.
  apply date_eqb_eq in Ex, Ey. rewrite Ex, Ey in E.
  assert (F : date_ltb d d = false) by (apply date_ltb_false; lia).
  congruence.
Qed.

Lemma sort_by_date_desc_on_date (d : date) (l : list T) :
  on_date key d (sort_by_date_desc key l) = on_date key d l.
Proof.
  induction l as [|x l IH]; simpl; [reflexivity|].
  rewrite insert_by_date_on_date. unfold on_date in *. simpl. now rewrite IH.
Qed.

(** In a sorted list no row of the front is older than a row behind. *)
Lemma latest_first_split (n : nat) (l : list T) :
  latest_first key l ->
  forall a b, In a (firstn n l) -> In b (skipn n l) ->
              date_ltb (key a) (key b) = false.
Proof.
  unfold latest_first. revert n.
  induction l as [|x l IH]; intros n S a b Ha Hb.
  - destruct n; simpl in Ha; contradiction.
  - destruct n as [|n]; simpl in Ha; [contradiction|].
    inversion S as [|? ? Sl Fx]; subst. simpl in Hb.
    destruct Ha as [<-|Ha].
    + rewrite Forall_forall in Fx. apply Fx.
      rewrite <- (firstn_skipn n l). apply in_or_app. now right.
    + now apply (IH n Sl).
Qed.

Lemma latest_first_firstn (n : nat) (l : list T) :
  latest_first key l -> latest_first key (firstn n l).
Proof.
  unfold latest_first. revert n.
  induction l as [|x l IH]; intros n S.
  - destruct n; constructor.
  - destruct n as [|n]; simpl; [constructor|].
    inversion S as [|? ? Sl Fx]; subst.
    constructor; [now apply IH|].
    rewrite Forall_forall in *. intros y Hy. apply Fx.
    rewrite <- (firstn_skipn n l). apply in_or_app. now left.
Qed.
End ByDateFacts.

Lemma order_by_date_desc_sort {A} (l : list (Bill.t A)) :
  order_by_date_desc l = sort_by_date_desc (@Bill.purchase_date A) l.
Proof.
  unfold order_by_date_desc, sort_by_date_desc.
  induction l as [|b l IH]; simpl; [reflexivity|].
  rewrite IH. generalize (fold_right (insert_by_date (@Bill.purchase_date A)) [] l).
  intros r. induction r as [|x r IHr]; simpl; [reflexivity|].
  now rewrite IHr.
Qed.

(* ================================================================== *)
(** * What [export_data] writes *)

Section ExportFacts.
Context {A : Type} {AM : Amount A} {PL : PyLib A}.

Lemma user_bills_perm (uid : nat) (db : Db A) :
  Permutation (user_bills uid db)
    (filter (fun b => Bill.user_id b =? uid) (bills db)).
Proof.
  unfold user_bills. rewrite order_by_date_desc_sort.
  apply sort_by_date_desc_perm.
Qed.

Lemma user_bills_In (uid : nat) (db : Db A) (b : Bill.t A) :
  In b (user_bills uid db) <-> In b (bills db) /\ Bill.user_id b = uid.
Proof.
  split.
  - intros H. apply (Permutation_in _ (user_bills_perm uid db)) in H.
    apply filter_In in H. now rewrite Nat.eqb_eq in H.
  - intros [H E].
    apply (Permutation_in _ (Permutation_sym (user_bills_perm uid db))).
    apply filter_In. now rewrite Nat.eqb_eq.
Qed.

Lemma list_sum_perm (l l' : list nat) :
  Permutation l l' -> list_sum l = list_sum l'.
Proof. induction 1; simpl; lia. Qed.

Lemma length_flat_map_sum {X Y : Type} (f : X -> list Y) (l : list X) :
  length (flat_map f l) = list_sum (map (fun x => length (f x)) l).
Proof.
  induction l as [|x l IH]; simpl; [reflexivity|].
  now rewrite length_app, IH.
Qed.
End ExportFacts.

(** X1: [export_data] writes the header and then, bill after bill, one
    row for every item of the bill.  The bills are those of the user, each
    once, none in front of a bill of a later purchase date. *)
Theorem export_lists_bills_latest_first :
  forall (A : Type) (AM : Amount A) (PL : PyLib A) (uid : nat) (db : Db A),
  exists bs : list (Bill.t A),
    export_data uid db
    = export_header
      :: flat_map (fun b => map (export_row db b) (fertilizers_of (Bill.id b) db)) bs
    /\ Permutation bs (filter (fun b => Bill.user_id b =? uid) (bills db))
    /\ latest_first (@Bill.purchase_date A) bs.
Proof.
  intros A AM PL uid db. exists (user_bills uid db).
  split; [reflexivity|]. split; [apply user_bills_perm|].
  unfold user_bills. rewrite order_by_date_desc_sort.
  apply sort_by_date_desc_sorted.
Qed.

(** X2: a data row of the export is the row of an item of a bill of the
    exporting user, and every such item has its row: no row comes from
    another user's bill, and a bill without items has none.  The number
    of data rows is the number of items of the user's bills. *)
Theorem export_rows_are_the_users_items :
  forall (A : Type) (AM : Amount A) (PL : PyLib A) (uid : nat) (db : Db A),
    (forall row : list string,
        In row (tl (export_data uid db))
        <-> exists b f,
              In b (bills db) /\ Bill.user_id b = uid
              /\ In f (fertilizers db) /\ Fertilizer.bill_id f = Some (Bill.id b)
              /\ row = export_row db b f)
    /\ length (tl (export_data uid db))
       = list_sum (map (fun b => fertilizer_count (Bill.id b) db)
                     (filter (fun b => Bill.user_id b =? uid) (bills db))).
Proof.
  intros A AM PL uid db. unfold export_data. cbn [tl]. split.
  - intros row. rewrite in_flat_map. split.
    + intros (b & Hb & Hr). apply in_map_iff in Hr. destruct Hr as (f & <- & Hf).
      apply user_bills_In in Hb. destruct Hb as [Hb Hu].
      unfold fertilizers_of in Hf. apply filter_In in Hf. destruct Hf as [Hf Hi].
      exists b, f. repeat split; auto.
      destruct (Fertilizer.bill_id f) as [i|]; [|discriminate].
      apply Nat.eqb_eq in Hi. now subst.
    + intros (b & f & Hb & Hu & Hf & Hi & ->).
      exists b. split; [now apply user_bills_In|].
      apply in_map. unfold fertilizers_of. apply filter_In. split; [exact Hf|].
      rewrite Hi. apply Nat.eqb_refl.
  - rewrite length_flat_map_sum.
    rewrite <- (list_sum_perm
                  (Permutation_map (fun b => fertilizer_count (Bill.id b) db)
                     (user_bills_perm uid db))).
    f_equal. apply map_ext. intros b. now rewrite length_map.
Qed.

(* ================================================================== *)
(** * Recent activities and the season of [index] *)

(** X3: [recent_activities] holds at most 8 entries, none in front of a
    later one; they are the latest of the entries that the two loops of
    [index] collect: what is left out is never later than what is shown. *)
Theorem recent_activities_are_the_latest :
  forall (A : Type) (PM : PyMore A) (expenses : list (ExpenseRow.t A))
         (bills : list (Bill.t A)) (db : Db A),
    let candidates := activity_candidates expenses bills db in
    let shown := recent_activities expenses bills db in
    length shown = Nat.min 8 (length candidates)
    /\ latest_first (@act_date A) shown
    /\ exists dropped : list (Activity A),
         Permutation (shown ++ dropped) candidates
         /\ forall a b : Activity A,
              In a shown -> In b dropped ->
              date_ltb (act_date a) (act_date b) = false.
Proof.
  intros A PM expenses bills db candidates shown. subst shown.
  unfold recent_activities. fold candidates.
  split; [|split].
  - rewrite length_firstn.
    now rewrite (Permutation_length (sort_by_date_desc_perm (@act_date A) candidates)).
  - apply latest_first_firstn, sort_by_date_desc_sorted.
  - exists (skipn 8 (sort_by_date_desc (@act_date A) candidates)). split.
    + rewrite firstn_skipn. apply sort_by_date_desc_perm.
    + apply latest_first_split, sort_by_date_desc_sorted.
Qed.

(** X4: among the entries of one date, [recent_activities] keeps the
    order in which [index] collected them (the expenses in front of the
    items of the bills), cutting at the end only: [list.sort] is stable,
    with [reverse=True] too. *)
Theorem recent_activities_keep_ties_in_order :
  forall (A : Type) (PM : PyMore A) (expenses : list (ExpenseRow.t A))
         (bills : list (Bill.t A)) (db : Db A) (d : date),
  exists cut : list (Activity A),
    on_date (@act_date A) d (activity_candidates expenses bills db)
    = on_date (@act_date A) d (recent_activities expenses bills db) ++ cut.
Proof.
  intros A PM expenses bills db d.
  exists (on_date (@act_date A) d
            (skipn 8 (sort_by_date_desc (@act_date A)
                        (activity_candidates expenses bills db)))).
  unfold recent_activities, on_date. rewrite <- filter_app, firstn_skipn.
  symmetry. apply sort_by_date_desc_on_date.
Qed.

(** X5: in the twelve months of the calendar [current_season] is Kharif
    from June to October, Rabi from November to April, and Zaid in May
    only. *)
Theorem zaid_is_may_only :
  forall now : date,
    1 <= month now <= 12 ->
    (current_season now = "Kharif" <-> 6 <= month now <= 10)
    /\ (current_season now = "Rabi" <-> month now <= 4 \/ 11 <= month now)
    /\ (current_season now = "Zaid" <-> month now = 5).
Proof.
  intros now [L U]. unfold current_season.
  destruct (month now) as [|m]; [lia|].
  do 12 (destruct m as [|m];
         [simpl; repeat split; intros; try discriminate; try lia; try reflexivity|]).
  lia.
Qed.

Lemma zaid_is_may_only_witness :
  1 <= month (mkdate 2025 5 20) <= 12
  /\ (current_season (mkdate 2025 5 20) = "Kharif" <-> 6 <= month (mkdate 2025 5 20) <= 10)
  /\ (current_season (mkdate 2025 5 20) = "Rabi"
      <-> month (mkdate 2025 5 20) <= 4 \/ 11 <= month (mkdate 2025 5 20))
  /\ (current_season (mkdate 2025 5 20) = "Zaid" <-> month (mkdate 2025 5 20) = 5).
Proof.
  split; [simpl; lia|].
  apply (zaid_is_may_only (mkdate 2025 5 20)). simpl. lia.
Defined.

(** X6: [seasonal_expenses] counts the expenses tagged with the current
    season only: an expense without a season or tagged Year-round (the
    fourth choice of the forms) is in no month's figure. *)
Theorem seasonal_expenses_skip_year_round :
  forall (A : Type) (AM : Amount A) (now : date) (expenses : list (ExpenseRow.t A)),
    seasonal_expenses now expenses
    = seasonal_expenses now
        (filter (fun e => match ExpenseRow.season e with
                          | Some s => negb (String.eqb s "Year-round")
                          | None => false
                          end) expenses).
Proof.
  intros A AM now expenses. unfold seasonal_expenses. do 2 f_equal.
  induction expenses as [|e l IH]; simpl; [reflexivity|].
  destruct (in_season now e) eqn:S.
  - assert (P : match ExpenseRow.season e with
                | Some s => negb (String.eqb s "Year-round")
                | None => false
                end = true).
    { unfold in_season in S. destruct (ExpenseRow.season e) as [s|]; [|discriminate].
      apply String.eqb_eq in S. subst s. unfold current_season.
      destruct (existsb _ _); [reflexivity|]. destruct (existsb _ _); reflexivity. }
    rewrite P. simpl. rewrite S. now f_equal.
  - destruct (match ExpenseRow.season e with
              | Some s => negb (String.eqb s "Year-round")
              | None => false
              end); simpl; [rewrite S|]; exact IH.
Qed.

(* ================================================================== *)
(** * What an import adds to the store *)

Section ImportGrowth.
Context {A : Type} {AM : Amount A} {PL : PyLib A}.
Variable uid : nat.

Lemma fertilizers_add_groups (gs : list (Group A)) :
  forall db : Db A,
    fertilizers (fold_left (add_group uid) gs db)
    = fertilizers db ++ items_from (next_bill_id db) gs.
Proof.
  induction gs as [|g gs IH]; intros db; simpl.
  - now rewrite app_nil_r.
  - rewrite IH, next_bill_id_add_group. unfold add_group at 1. cbn [fertilizers].
    now rewrite <- app_assoc.
Qed.

Lemma bills_add_groups (gs : list (Group A)) :
  forall db : Db A,
  exists created,
    bills (fold_left (add_group uid) gs db) = bills db ++ created
    /\ map (@Bill.id A) created = seq (next_bill_id db) (length gs)
    /\ Forall (fun b => Bill.user_id b = uid) created.
Proof.
  induction gs as [|g gs IH]; intros db; simpl.
  - exists []. rewrite app_nil_r. auto.
  - destruct (IH (add_group uid db g)) as (created & E & I & U).
    rewrite next_bill_id_add_group in I.
    eexists (_ :: created). split.
    { rewrite E. unfold add_group. cbn [bills]. rewrite <- app_assoc. reflexivity. }
    simpl. split.
    + now rewrite I.
    + constructor; [reflexivity | exact U].
Qed.

Lemma next_bill_id_add_groups (gs : list (Group A)) :
  forall db : Db A,
    next_bill_id (fold_left (add_group uid) gs db) = next_bill_id db + length gs.
Proof.
  induction gs as [|g gs IH]; intros db; cbn [fold_left length];
    [now rewrite Nat.add_0_r|].
  rewrite IH, next_bill_id_add_group. lia.
Qed.

Lemma items_from_filed (gs : list (Group A)) :
  forall n : nat,
    Forall (fun f => exists k l,
                k < length gs /\ Fertilizer.bill_id f = Some (n + k)
                /\ In l (concat (map (@group_lines A) gs))
                /\ is_empty (line_name l) = false
                /\ Fertilizer.name f = line_name l
                /\ Fertilizer.category f = line_category l)
      (items_from n gs).
Proof.
  induction gs as [|g gs IH]; intros n; simpl; [constructor|].
  apply Forall_app. split.
  - unfold group_items, named. rewrite Forall_forall. intros f Hf.
    apply in_map_iff in Hf. destruct Hf as (l & <- & Hl).
    apply filter_In in Hl. destruct Hl as [Hl Hn].
    exists 0, l. rewrite Nat.add_0_r. simpl.
    repeat split; try lia.
    + apply in_or_app. now left.
    + now destruct (is_empty (line_name l)).
  - specialize (IH (S n)). rewrite Forall_forall in *. intros f Hf.
    destruct (IH f Hf) as (k & l & Hk & Hb & Hl & Hn & En & Ec).
    exists (S k), l. repeat split; auto; try lia.
    + rewrite Hb. f_equal. lia.
    + apply in_or_app. now right.
Qed.

Lemma length_items_from (gs : list (Group A)) :
  forall n : nat,
    length (items_from n gs)
    = length (named (concat (map (@group_lines A) gs))).
Proof.
  induction gs as [|g gs IH]; intros n; simpl; [reflexivity|].
  rewrite length_app, named_app, length_app, IH.
  unfold group_items. now rewrite length_map.
Qed.

Lemma concat_group_adjacent (ls : list (Line A)) :
  forall cur : option (Group A),
    concat (map (@group_lines A) (group_adjacent cur ls)) = lines_of cur ++ ls.
Proof.
  induction ls as [|l ls IH]; intros cur.
  - destruct cur; simpl; [now rewrite app_nil_r | reflexivity].
  - destruct cur as [g|].
    + cbn [group_adjacent].
      destruct (String.eqb (group_key g) (line_key l)).
      * rewrite IH. simpl. now rewrite <- app_assoc.
      * cbn [map concat]. rewrite IH. reflexivity.
    + cbn [group_adjacent]. rewrite IH. reflexivity.
Qed.

Lemma row_category_known (row : list string) :
  is_category (row_category row) = true.
Proof.
  unfold row_category.
  destruct (is_category (strip (nth 3 row ""))) eqn:E; [exact E | reflexivity].
Qed.

Lemma parse_lines_category (rows : list (list string)) :
  Forall (fun l => is_category (line_category l) = true) (parse_lines rows).
Proof.
  induction rows as [|row rows IH]; simpl; [constructor|].
  apply Forall_app. split; [|exact IH].
  unfold parse_line.
  destruct (4 <=? length row); [|constructor].
  destruct (row_price row); constructor; [|constructor].
  apply row_category_known.
Qed.

(** What the grouping prescribes for a file, against the store before. *)
Lemma spec_import_growth (csv_input : list (list string)) (db : Db A) :
  exists bs fs,
    bills (spec_import uid csv_input db) = bills db ++ bs
    /\ fertilizers (spec_import uid csv_input db) = fertilizers db ++ fs
    /\ length bs = length (spec_groups csv_input)
    /\ length fs = length (named (parse_lines (tl csv_input)))
    /\ Forall (new_bill_of uid db) bs
    /\ Forall (filed_under bs) fs.
Proof.
  unfold spec_import.
  destruct (bills_add_groups (spec_groups csv_input) db) as (bs & Eb & Ib & Ub).
  exists bs, (items_from (next_bill_id db) (spec_groups csv_input)).
  split; [exact Eb|]. split; [apply fertilizers_add_groups|].
  assert (Lb : length bs = length (spec_groups csv_input)).
  { rewrite <- (length_map (@Bill.id A)), Ib. apply length_seq. }
  split; [exact Lb|]. split.
  { rewrite length_items_from. unfold spec_groups.
    now rewrite concat_group_adjacent. }
  split.
  - rewrite Forall_forall in *. intros b Hb. split; [|now apply Ub].
    assert (Hi : In (Bill.id b) (seq (next_bill_id db) (length (spec_groups csv_input))))
      by (rewrite <- Ib; now apply in_map).
    apply in_seq in Hi. lia.
  - pose proof (items_from_filed (spec_groups csv_input) (next_bill_id db)) as F.
    pose proof (parse_lines_category (tl csv_input)) as C.
    rewrite Forall_forall in *. intros f Hf.
    destruct (F f Hf) as (k & l & Hk & Hb & Hl & Hn & En & Ec).
    unfold spec_groups in Hl. rewrite concat_group_adjacent in Hl. simpl in Hl.
    repeat split.
    + now rewrite En.
    + rewrite Ec. now apply C.
    + assert (Hi : In (next_bill_id db + k) (map (@Bill.id A) bs)).
      { rewrite Ib. apply in_seq. lia. }
      apply in_map_iff in Hi. destruct Hi as (b & Eb' & Hb').
      exists b. split; [exact Hb'|]. now rewrite Hb, Eb'.
Qed.

End ImportGrowth.

(** X7: whatever the store does, [import_data] only appends: the bills
    and the items that were stored stay as they were, in place; the
    bills added are new bills of the importing user, and every item
    added has a name, a category of [FERTILIZER_CATEGORIES] and the id
    of one of the bills added by this import. *)
Theorem import_only_appends :
  forall (A : Type) (AM : Amount A) (PL : PyLib A) (uid : nat)
         (csv_input : list (list string)) (db : Db A) (trips : option nat),
    let db' := import_durable (import_data uid csv_input (open_session db trips)) in
    exists bs fs,
      bills db' = bills db ++ bs
      /\ fertilizers db' = fertilizers db ++ fs
      /\ Forall (new_bill_of uid db) bs
      /\ Forall (filed_under bs) fs.
Proof.
  intros A AM PL uid csv_input db trips db'. subst db'.
  destruct (import_data_atomic AM PL uid csv_input db trips) as [E|E]; rewrite E.
  - exists [], []. rewrite !app_nil_r. auto.
  - destruct (import_refines_spec AM PL uid csv_input db) as (st & R & S' & _).
    rewrite R. unfold import_durable, durable. cbn [fst]. rewrite S'. cbn [committed].
    destruct (spec_import_growth uid csv_input db)
      as (bs & fs & Eb & Ef & _ & _ & Nb & Ff).
    exists bs, fs. auto.
Qed.

(** X8: the figures of the success message are the growth of the store.
    Whenever [import_data] flashes [FlashImported n m], with or without
    faults of the store before, exactly [n] bills and [m] items have
    become durable on top of what was stored. *)
Theorem import_flash_counts_the_growth :
  forall (A : Type) (AM : Amount A) (PL : PyLib A) (uid : nat)
         (csv_input : list (list string)) (db : Db A) (trips : option nat)
         (n m : nat),
    let o := import_data uid csv_input (open_session db trips) in
    In (FlashImported n m) (import_flashes o) ->
    exists bs fs,
      bills (import_durable o) = bills db ++ bs
      /\ fertilizers (import_durable o) = fertilizers db ++ fs
      /\ length bs = n /\ length fs = m.
Proof.
  intros A AM PL uid csv_input db trips n m o. subst o.
  destruct (import_refines_spec AM PL uid csv_input db) as (st0 & R0 & S0 & B0 & I0 & _).
  unfold import_data in *.
  pose proof (import_rows_faults uid (tl csv_input) 2
                (start_import (open_session db trips))) as R.
  change (forget_state (start_import (open_session db trips)))
    with (start_import (open_session db None)) in R.
  destruct (import_rows uid 2 (tl csv_input) (start_import (open_session db trips)))
    as [st|s]; [|intros []].
  cbn [import_flashes]. intros Hin.
  assert (NF : snd (finish_import st) <> [FlashImportFailed]).
  { intros C. rewrite C in Hin. destruct Hin as [Hin|[]]. discriminate. }
  destruct (finish_import_committed st NF) as [FF ND].
  destruct R as (_ & _ & [D|F]); [contradiction|].
  rewrite F, FF in R0. inversion R0 as [[E1 E2]].
  assert (Bc : bills_created st0 = bills_created (fst (finish_import st))).
  { rewrite <- E1. reflexivity. }
  assert (Ic : imported_count st0 = imported_count (fst (finish_import st))).
  { rewrite <- E1. reflexivity. }
  assert (Cd : committed (sess (fst (finish_import st))) = spec_import uid csv_input db).
  { assert (C0 : committed (sess st0) = spec_import uid csv_input db)
      by (rewrite S0; reflexivity).
    rewrite <- C0, <- E1. reflexivity. }
  unfold import_durable, durable. cbn [fst]. rewrite Cd.
  destruct (spec_import_growth uid csv_input db)
    as (bs & fs & Eb & Ef & Lb & Lf & _ & _).
  exists bs, fs. split; [exact Eb|]. split; [exact Ef|].
  assert (K : bills_created (fst (finish_import st)) = bills_created st
              /\ imported_count (fst (finish_import st)) = imported_count st).
  { unfold finish_import. destruct (commit _); split; reflexivity. }
  destruct K as [Kb Ki].
  assert (N : n = bills_created st /\ m = imported_count st).
  { unfold finish_import in Hin. destruct (commit _); cbn [snd] in Hin.
    - unfold success_flashes in Hin. apply in_app_or in Hin.
      destruct Hin as [Hin|Hin].
      + destruct (0 <? bills_created st); [|destruct Hin].
        destruct Hin as [Hin|[]]. inversion Hin. auto.
      + destruct (errors st); [destruct Hin|].
        destruct Hin as [Hin|[]]. discriminate.
    - destruct Hin as [Hin|[]]. discriminate. }
  destruct N as [-> ->]. split; lia.
Qed.

Lemma import_flash_counts_the_growth_witness :
  let o := import_data (PL := py_lib (mkdate 2025 1 20)) 7 two_row_csv
             (open_session empty_db (Some 5)) in
  In (FlashImported 1 2) (import_flashes o)
  /\ exists bs fs,
       bills (import_durable o) = bills (@empty_db float) ++ bs
       /\ fertilizers (import_durable o) = fertilizers (@empty_db float) ++ fs
       /\ length bs = 1 /\ length fs = 2.
Proof.
  assert (H : In (FlashImported 1 2)
                (import_flashes
                   (import_data (PL := py_lib (mkdate 2025 1 20)) 7 two_row_csv
                      (open_session empty_db (Some 5))))).
  { vm_compute. left. reflexivity. }
  split; [exact H|].
  exact (@import_flash_counts_the_growth float float_Amount (py_lib (mkdate 2025 1 20))
           7 two_row_csv empty_db (Some 5) 1 2 H).
Defined.

(* ================================================================== *)
(** * The keys of the category breakdown *)

Section BreakdownKeys.
Context {A : Type} {AM : Amount A}.

Lemma dict_add_keys (k : string) (v : A) (d : dict) :
  map fst (dict_add k v d)
  = if existsb (String.eqb k) (map fst d) then map fst d else map fst d ++ [k].
Proof.
  induction d as [|[k0 v0] r IH]; simpl; [reflexivity|].
  rewrite (String.eqb_sym k k0).
  destruct (String.eqb k0 k) eqn:E; simpl; [reflexivity|].
  rewrite IH. destruct (existsb (String.eqb k) (map fst r)); reflexivity.
Qed.

Lemma existsb_eqb_In (k : string) (l : list string) :
  existsb (String.eqb k) l = true <-> In k l.
Proof.
  rewrite existsb_exists. split.
  - intros (x & Hx & E). apply String.eqb_eq in E. now subst.
  - intros H. exists k. split; [exact H | apply String.eqb_refl].
Qed.

Lemma file_entries_keys (entries : list (string * A)) :
  forall d : dict,
    NoDup (map fst d) ->
    NoDup (map fst (file_entries entries d))
    /\ forall k, In k (map fst (file_entries entries d))
                 <-> In k (map fst d) \/ In k (map fst entries).
Proof.
  unfold file_entries.
  induction entries as [|[k0 v0] entries IH]; intros d N; simpl.
  - split; [exact N|]. intros k. tauto.
  - assert (N' : NoDup (map fst (dict_add k0 v0 d))
                 /\ forall k, In k (map fst (dict_add k0 v0 d))
                              <-> In k (map fst d) \/ k0 = k).
    { rewrite dict_add_keys.
      destruct (existsb (String.eqb k0) (map fst d)) eqn:E.
      - split; [exact N|]. intros k. apply existsb_eqb_In in E.
        split; [tauto|]. intros [H| <-]; assumption.
      - split.
        + apply NoDup_app; [exact N | repeat constructor; intros [] | ].
          intros x Hx [<-|[]].
          apply existsb_eqb_In in Hx. congruence.
        + intros k. rewrite in_app_iff. simpl. tauto. }
    destruct N' as [N1 K1]. destruct (IH _ N1) as [N2 K2].
    split; [exact N2|]. intros k. rewrite K2, K1. tauto.
Qed.
End BreakdownKeys.

(** X9: a category is a key of [category_breakdown] exactly when an
    expense has it, and ["fertilizers"] also when there is a bill; no key
    occurs twice. *)
Theorem breakdown_keys_are_the_categories :
  forall (A : Type) (AM : Amount A) (expenses : list (Expense.t A))
         (bills : list (Bill.t A)),
    NoDup (map fst (category_breakdown expenses bills))
    /\ forall k : string,
         In k (map fst (category_breakdown expenses bills))
         <-> (exists e, In e expenses /\ Expense.category e = k)
             \/ (k = "fertilizers" /\ bills <> []).
Proof.
  intros A AM expenses bills. rewrite category_breakdown_entries.
  destruct (@file_entries_keys A AM (rollup_entries expenses bills) [])
    as [N K]; [constructor|].
  split; [exact N|]. intros k. rewrite K. unfold rollup_entries.
  rewrite map_app, !map_map, in_app_iff. cbn [fst map].
  split.
  - intros [[]|[H|H]].
    + apply in_map_iff in H. destruct H as (e & <- & He). left. now exists e.
    + apply in_map_iff in H. destruct H as (b & <- & Hb). right.
      split; [reflexivity|]. intros ->. destruct Hb.
  - intros [(e & He & <-)|[-> Hb]]; right.
    + left. now apply in_map.
    + right. destruct bills as [|b l]; [congruence|]. now left.
Qed.

(* ================================================================== *)
(** * [calculate_total] touches one total *)

(** X10: [calculate_total] changes nothing but the total of its bill: the
    durable rows, the items, the other bills and the number, date and
    owner of the bill itself stay as they are; and on a store that does
    not fail a second call changes nothing any more. *)
Theorem calculate_total_touches_one_total :
  forall (A : Type) (AM : Amount A) (bid : nat) (s : Session A),
    let s' := fst (calculate_total bid s) in
    committed s' = committed s
    /\ fertilizers (view s') = fertilizers (view s)
    /\ filter (fun b => negb (Bill.id b =? bid)) (bills (view s'))
       = filter (fun b => negb (Bill.id b =? bid)) (bills (view s))
    /\ map (fun b => (Bill.id b, Bill.bill_number b, Bill.purchase_date b, Bill.user_id b))
         (bills (view s'))
       = map (fun b => (Bill.id b, Bill.bill_number b, Bill.purchase_date b, Bill.user_id b))
           (bills (view s))
    /\ (budget s = None -> calculate_total bid s' = (s', snd (calculate_total bid s))).
Proof.
  intros A AM bid s s'. subst s'.
  assert (F : forall v (l : list (Bill.t A)),
             filter (fun b => negb (Bill.id b =? bid))
               (map (fun b => if Bill.id b =? bid then Bill.set_total_amount v b else b) l)
             = filter (fun b => negb (Bill.id b =? bid)) l).
  { intros v l. induction l as [|b l IH]; simpl; [reflexivity|].
    destruct (Bill.id b =? bid) eqn:E; simpl; rewrite E; simpl; now rewrite IH. }
  assert (M : forall v (l : list (Bill.t A)),
             map (fun b => (Bill.id b, Bill.bill_number b, Bill.purchase_date b, Bill.user_id b))
               (map (fun b => if Bill.id b =? bid then Bill.set_total_amount v b else b) l)
             = map (fun b => (Bill.id b, Bill.bill_number b, Bill.purchase_date b, Bill.user_id b)) l).
  { intros v l. rewrite map_map. apply map_ext. intros b.
    destruct (Bill.id b =? bid); reflexivity. }
  assert (I : forall v (l : list (Bill.t A)),
             map (fun b => if Bill.id b =? bid then Bill.set_total_amount v b else b)
               (map (fun b => if Bill.id b =? bid then Bill.set_total_amount v b else b) l)
             = map (fun b => if Bill.id b =? bid then Bill.set_total_amount v b else b) l).
  { intros v l. rewrite map_map. apply map_ext. intros b.
    destruct (Bill.id b =? bid) eqn:E; simpl; rewrite E; reflexivity. }
  rewrite calculate_total_eq.
  destruct (round_trip s) as [s1|] eqn:E; cbn [fst snd].
  - destruct (round_trip_view _ E) as [V C].
    unfold set_total. cbn [committed view fertilizers bills]. rewrite V.
    repeat split; auto.
    intros B. rewrite calculate_total_eq.
    assert (S1 : s1 = s).
    { unfold round_trip in E. rewrite B in E. now inversion E. }
    subst s1. unfold round_trip. cbn [budget]. rewrite B.
    unfold set_total, fertilizers_of.
    cbn [view fertilizers bills committed budget]. rewrite I. reflexivity.
  - unfold set_total. cbn [committed view fertilizers bills].
    repeat split; auto.
    intros B. unfold round_trip in E. rewrite B in E. discriminate.
Qed.

(* ================================================================== *)
(** * The legacy view [add_fertilizer] *)

Section LegacyAddFacts.
Context {A : Type} {AM : Amount A} {PL : PyLib A}.
Variable uid : nat.

(** On a store that does not fail the view commits a bill of today with
    the one item. *)
Lemma add_fertilizer_view_fault_free (form : FertilizerForm A) (db : Db A) :
  let i := next_bill_id db in
  let db' :=
    mkDb (bills db
          ++ [Bill.mk i None today
                (py_sum (map (@Fertilizer.price A)
                           (fertilizers_of i db ++ [legacy_item form i]))) uid])
         (fertilizers db ++ [legacy_item form i]) in
  add_fertilizer_view uid form (open_session db None)
  = Returned (mkSession db' db' None, ["Fertilizer added successfully!"]).
Proof.
  intros i db'. subst i db'. unfold add_fertilizer_view, open_session, add_bill_flush.
  cbn [round_trip budget view committed Bill.bill_number Bill.purchase_date
       Bill.total_amount Bill.user_id].
  rewrite calculate_total_eq. unfold add_fertilizer at 1.
  cbn [round_trip budget view committed fst bills fertilizers].
  unfold commit, set_total, add_fertilizer.
  cbn [round_trip budget view committed fst bills fertilizers].
  rewrite set_total_last.
  - unfold fertilizers_of. cbn [fertilizers]. rewrite filter_app.
    cbn [filter legacy_item Fertilizer.bill_id]. rewrite Nat.eqb_refl. reflexivity.
  - apply bill_ids_below_next.
Qed.
End LegacyAddFacts.

(** X11: on a store that does not fail and holds no item under an id
    that no bill has, the legacy view [add_fertilizer] returns with its
    success message, having committed exactly one new bill (next id, no
    number, dated today, owned by the user, total [0 + price]) and
    exactly one new item under it; the rows that were stored stay. *)
Theorem legacy_add_files_a_one_item_bill :
  forall (A : Type) (AM : Amount A) (PL : PyLib A) (uid : nat)
         (form : FertilizerForm A) (db : Db A),
    no_orphans db ->
    let item := legacy_item form (next_bill_id db) in
    exists s' : Session A,
      add_fertilizer_view uid form (open_session db None)
      = Returned (s', ["Fertilizer added successfully!"])
      /\ bills (committed s')
         = bills db
           ++ [Bill.mk (next_bill_id db) None today
                 (num_add num_zero (Fertilizer.price item)) uid]
      /\ fertilizers (committed s') = fertilizers db ++ [item].
Proof.
  intros A AM PL uid form db NO item. subst item.
  rewrite add_fertilizer_view_fault_free.
  eexists. split; [reflexivity|]. cbn [committed bills fertilizers].
  rewrite (NO (next_bill_id db) (Nat.le_refl _)). split; reflexivity.
Qed.

Lemma legacy_add_files_a_one_item_bill_witness :
  let form := mkFertilizerForm (Some "Urea A") (Some "Urea") (Some 350%float) in
  let item := legacy_item form (next_bill_id (@empty_db float)) in
  no_orphans (@empty_db float)
  /\ exists s' : Session float,
       add_fertilizer_view (PL := py_lib (mkdate 2025 1 20)) 7 form
         (open_session empty_db None)
       = Returned (s', ["Fertilizer added successfully!"])
       /\ bills (committed s')
          = bills (@empty_db float)
            ++ [Bill.mk (next_bill_id (@empty_db float)) None
                  (today (PyLib := py_lib (mkdate 2025 1 20)))
                  (num_add num_zero (Fertilizer.price item)) 7]
       /\ fertilizers (committed s') = fertilizers (@empty_db float) ++ [item].
Proof.
  intros form item.
  assert (NO : no_orphans (@empty_db float)) by (intros i _; reflexivity).
  split; [exact NO|].
  exact (@legacy_add_files_a_one_item_bill float float_Amount
           (py_lib (mkdate 2025 1 20)) 7 form empty_db NO).
Defined.

(** X12: the legacy view needs three round trips of the store (the
    flush, the load of the items, the commit).  With a store that fails
    before the third an exception escapes the view and nothing has become
    durable; with a store that lasts three round trips or more it
    returns, having committed what it commits on a store that does not
    fail. *)
Theorem legacy_add_lets_faults_escape :
  forall (A : Type) (AM : Amount A) (PL : PyLib A) (uid : nat)
         (form : FertilizerForm A) (db : Db A),
    Forall (fun n =>
              exists s : Session A,
                add_fertilizer_view uid form (open_session db (Some n)) = Uncaught s
                /\ committed s = db)
      [0; 1; 2]
    /\ forall k : nat,
       exists s' s0 : Session A,
         add_fertilizer_view uid form (open_session db (Some (3 + k)))
         = Returned (s', ["Fertilizer added successfully!"])
         /\ add_fertilizer_view uid form (open_session db None)
            = Returned (s0, ["Fertilizer added successfully!"])
         /\ committed s' = committed s0.
Proof.
  intros A AM PL uid form db. split.
  - repeat constructor;
      unfold add_fertilizer_view, open_session, add_bill_flush;
      cbn [round_trip budget view committed]; rewrite ?calculate_total_eq;
      unfold add_fertilizer, commit, set_total;
      cbn [round_trip budget view committed fst];
      eexists; split; reflexivity.
  - intros k. rewrite add_fertilizer_view_fault_free.
    unfold add_fertilizer_view, open_session, add_bill_flush.
    cbn [round_trip budget view committed Bill.bill_number Bill.purchase_date
         Bill.total_amount Bill.user_id Nat.add].
    rewrite calculate_total_eq. unfold add_fertilizer at 1.
    cbn [round_trip budget view committed fst bills fertilizers].
    unfold commit, set_total, add_fertilizer.
    cbn [round_trip budget view committed fst bills fertilizers].
    rewrite set_total_last; [|apply bill_ids_below_next].
    do 2 eexists. split; [reflexivity|]. split; [reflexivity|].
    cbn [committed]. unfold fertilizers_of. cbn [fertilizers]. rewrite filter_app.
    cbn [filter legacy_item Fertilizer.bill_id]. rewrite Nat.eqb_refl. reflexivity.
Qed.

(* ================================================================== *)
(** * The chat history *)

Lemma length_last_n {T : Type} (n : nat) (l : list T) :
  length (last_n n l) = Nat.min n (length l).
Proof. unfold last_n. rewrite length_skipn. lia. Qed.

Lemma exchanges_pairs (P : list ChatMessage -> Prop) :
  P [] ->
  (forall u a r, msg_type u = "user" -> msg_type a = "ai" -> exchanges r ->
                 P r -> P (u :: a :: r)) ->
  forall h, exchanges h -> P h.
Proof.
  intros P0 P2.
  assert (G : forall n h, length h < n -> exchanges h -> P h).
  { induction n as [|n IH]; intros h L E; [lia|].
    destruct h as [|u [|a r]]; [exact P0 | destruct E |].
    destruct E as (Eu & Ea & Er). apply P2; auto.
    apply IH; [simpl in L; lia | exact Er]. }
  intros h. apply (G (S (length h))). lia.
Qed.

Lemma exchanges_app (h1 h2 : list ChatMessage) :
  exchanges h1 -> exchanges h2 -> exchanges (h1 ++ h2).
Proof.
  intros E1 E2. revert h1 E1. apply exchanges_pairs; [exact E2|].
  intros u a r Eu Ea _ IH. simpl. auto.
Qed.

Lemma exchanges_even (h : list ChatMessage) :
  exchanges h -> exists j, length h = 2 * j.
Proof.
  revert h. apply exchanges_pairs.
  - now exists 0.
  - intros u a r _ _ _ [j Ej]. exists (S j). simpl. lia.
Qed.

Lemma exchanges_skipn (h : list ChatMessage) :
  exchanges h -> forall j, exchanges (skipn (2 * j) h).
Proof.
  revert h. apply (@exchanges_pairs (fun h => forall j, exchanges (skipn (2 * j) h))).
  - intros j. now rewrite skipn_nil.
  - intros u a r Eu Ea Er IH [|j].
    + simpl. auto.
    + replace (2 * S j) with (S (S (2 * j))) by lia. simpl skipn. apply IH.
Qed.

(** X13: after an exchange the chat history holds the last 20 messages
    of the old history followed by the question and the answer: it has
    [min 20 (n + 2)] entries, it is what remains of that list when
    messages are dropped at the front only, and it ends with the new
    question and its answer. *)
Theorem chat_history_keeps_the_latest :
  forall (chat_history : list ChatMessage) (question ai_response asked answered : string),
    let exchange := [mkChatMessage "user" question asked;
                     mkChatMessage "ai" ai_response answered] in
    let h' := remember_exchange chat_history question ai_response asked answered in
    length h' = Nat.min 20 (length chat_history + 2)
    /\ (exists dropped, chat_history ++ exchange = dropped ++ h')
    /\ (exists kept, h' = kept ++ exchange).
Proof.
  intros h q a t1 t2 exchange h'. subst h'. unfold remember_exchange. fold exchange.
  split; [|split].
  - rewrite length_last_n, length_app. reflexivity.
  - exists (firstn (length (h ++ exchange) - 20) (h ++ exchange)).
    unfold last_n. now rewrite firstn_skipn.
  - unfold last_n. rewrite skipn_app.
    exists (skipn (length (h ++ exchange) - 20) h). f_equal.
    rewrite length_app. simpl length.
    replace (length h + 2 - 20 - length h) with 0 by lia. reflexivity.
Qed.

(** X14: the cut to 20 messages never separates a question from its
    answer: a history made of whole exchanges is, after a further
    exchange, again made of whole exchanges, at most ten of them. *)
Theorem chat_history_keeps_exchanges_whole :
  forall (chat_history : list ChatMessage) (question ai_response asked answered : string),
    exchanges chat_history ->
    exchanges (remember_exchange chat_history question ai_response asked answered)
    /\ length (remember_exchange chat_history question ai_response asked answered) <= 20.
Proof.
  intros h q a t1 t2 E. unfold remember_exchange. split.
  - assert (E' : exchanges (h ++ [mkChatMessage "user" q t1; mkChatMessage "ai" a t2])).
    { apply exchanges_app; [exact E|]. simpl. auto. }
    destruct (exchanges_even _ E') as [j Ej]. unfold last_n. rewrite Ej.
    replace (2 * j - 20) with (2 * (j - 10)) by lia.
    now apply exchanges_skipn.
  - rewrite length_last_n. lia.
Qed.

Lemma chat_history_keeps_exchanges_whole_witness :
  let h := [mkChatMessage "user" "When to sow wheat?" "10:15";
            mkChatMessage "ai" "In November." "10:15"] in
  exchanges h
  /\ exchanges (remember_exchange h "And rice?" "In June." "10:16" "10:16")
  /\ length (remember_exchange h "And rice?" "In June." "10:16" "10:16") <= 20.
Proof.
  intros h.
  assert (E : exchanges h) by (simpl; auto).
  split; [exact E|].
  exact (@chat_history_keeps_exchanges_whole h "And rice?" "In June." "10:16" "10:16" E).
Defined.

(* ================================================================== *)
(** * [analyze_expenses] *)

Section AssistantFacts.
Context {PL : PyLib float} {GM : Gemini float}.

Lemma sum_areas_none (user_fields : list Field.t) :
  forall acc : float,
    (exists f, In f user_fields /\ Field.area_acres f = None) ->
    sum_areas acc user_fields = None.
Proof.
  induction user_fields as [|f l IH]; intros acc (g & Hg & Eg); [destruct Hg|].
  simpl. destruct (Field.area_acres f) as [v|] eqn:E; [|reflexivity].
  apply IH. destruct Hg as [->|Hg]; [congruence|]. now exists g.
Qed.
End AssistantFacts.

(** X15: [analyze_expenses] takes as start of the recent expenses
    today's date with the month lowered by one.  In January, and on a
    day that the month before does not have (the 31st of May, July,
    October and December, the last days of March), that date does not
    exist: with at least one expense the analysis then ends in its
    [except] and returns the apology, whatever the model would answer. *)
Theorem analysis_fails_when_last_month_is_shorter :
  forall (PL : PyLib float) (GM : Gemini float)
         (user_expenses : list (ExpenseRow.t float)) (user_fields : list Field.t)
         (user_info : option User.t),
    user_expenses <> [] ->
    month today = 1
    \/ Py.days_in_month (year today) (month today - 1) < day today ->
    analyze_expenses user_expenses user_fields user_info = analysis_apology.
Proof.
  intros PL GM user_expenses user_fields user_info NE H.
  assert (R : replace_month today (month today - 1) = None).
  { unfold replace_month. destruct H as [H|H].
    - rewrite H. reflexivity.
    - apply Nat.leb_gt in H. rewrite H. now rewrite andb_false_r. }
  unfold analyze_expenses, analyze_expenses_try.
  destruct user_expenses as [|e l]; [congruence|].
  cbn [analysis_loop]. rewrite R. reflexivity.
Qed.

Lemma analysis_fails_when_last_month_is_shorter_witness :
  let PL := py_lib (mkdate 2025 3 31) in
  [sample_expense (mkdate 2025 3 30)] <> []
  /\ (month (today (PyLib := PL)) = 1
      \/ Py.days_in_month (year (today (PyLib := PL))) (month (today (PyLib := PL)) - 1)
         < day (today (PyLib := PL)))
  /\ analyze_expenses (PL := PL) (GM := canned_gemini "Buy in bulk.")
       [sample_expense (mkdate 2025 3 30)] [] None
     = analysis_apology.
Proof.
  intros PL.
  assert (NE : [sample_expense (mkdate 2025 3 30)] <> []) by discriminate.
  assert (H : month (today (PyLib := PL)) = 1
              \/ Py.days_in_month (year (today (PyLib := PL)))
                   (month (today (PyLib := PL)) - 1)
                 < day (today (PyLib := PL))).
  { right. vm_compute. lia. }
  split; [exact NE|]. split; [exact H|].
  exact (@analysis_fails_when_last_month_is_shorter PL (canned_gemini "Buy in bulk.")
           [sample_expense (mkdate 2025 3 30)] [] None NE H).
Defined.

(** X16: [index] hands the user's active fields to [analyze_expenses],
    which adds up their areas without the filter that [index] itself
    uses.  One active field without an area ([area_acres] is optional)
    therefore turns the AI insights of the dashboard into the apology,
    on any day and whatever the model would answer. *)
Theorem insights_fail_on_a_field_without_area :
  forall (PL : PyLib float) (GM : Gemini float)
         (expenses : list (ExpenseRow.t float)) (bills : list (Bill.t float))
         (fields : list Field.t) (current_user : User.t) (f : Field.t),
    In f fields -> Field.is_active f = true -> Field.area_acres f = None ->
    expenses <> [] \/ bills <> [] ->
    ai_insights true expenses bills fields current_user = Some analysis_apology.
Proof.
  intros PL GM expenses bills fields current_user f Hf Ha Hn NE.
  unfold ai_insights.
  assert (C : (match expenses with [] => false | _ => true end
               || match bills with [] => false | _ => true end) = true).
  { destruct NE as [NE|NE].
    - destruct expenses; [congruence | reflexivity].
    - destruct bills; [congruence | apply orb_true_r]. }
  rewrite C. cbn [andb]. f_equal.
  unfold analyze_expenses, analyze_expenses_try.
  destruct (analysis_loop expenses [] []) as [[cb re]|]; [|reflexivity].
  assert (Hin : In f (active_fields fields)).
  { unfold active_fields. apply filter_In. auto. }
  unfold analysis_total_acres.
  rewrite (sum_areas_none (active_fields fields) PrimFloat.zero)
    by (now exists f).
  destruct (active_fields fields); [destruct Hin | reflexivity].
Qed.

Lemma insights_fail_on_a_field_without_area_witness :
  let PL := py_lib (mkdate 2025 6 15) in
  let fields := [Field.mk (Some 2%float) true; Field.mk None true] in
  let user := User.mk 7 "Asha" "asha@example.org" "pbkdf2:x" None None true in
  In (Field.mk None true) fields
  /\ Field.is_active (Field.mk None true) = true
  /\ Field.area_acres (Field.mk None true) = None
  /\ ([sample_expense (mkdate 2025 6 1)] <> [] \/ @nil (Bill.t float) <> [])
  /\ ai_insights (PL := PL) (GM := canned_gemini "Buy in bulk.") true
       [sample_expense (mkdate 2025 6 1)] [] fields user
     = Some analysis_apology.
Proof.
  intros PL fields user.
  assert (Hf : In (Field.mk None true) fields) by (right; left; reflexivity).
  assert (NE : [sample_expense (mkdate 2025 6 1)] <> [] \/ @nil (Bill.t float) <> [])
    by (left; discriminate).
  split; [exact Hf|]. split; [reflexivity|]. split; [reflexivity|].
  split; [exact NE|].
  exact (@insights_fail_on_a_field_without_area PL (canned_gemini "Buy in bulk.")
           [sample_expense (mkdate 2025 6 1)] [] fields user (Field.mk None true)
           Hf eq_refl eq_refl NE).
Defined.

(* ================================================================== *)
(** * [toggle_user_status] *)

Lemma toggle_user_spec (user_id : nat) (users : list User.t) :
  match toggle_user user_id users with
  | None => ~ In user_id (map User.id users)
  | Some (u, users') =>
      map user_identity users' = map user_identity users
      /\ filter (fun x => negb (User.id x =? user_id)) users'
         = filter (fun x => negb (User.id x =? user_id)) users
      /\ User.id u = user_id
      /\ toggle_user user_id users'
         = Some (User.set_is_user_active (negb (User.is_user_active u)) u, users)
  end.
Proof.
  induction users as [|x r IH]; simpl; [tauto|].
  destruct (User.id x =? user_id) eqn:E.
  - apply Nat.eqb_eq in E. cbn [filter User.id User.set_is_user_active].
    rewrite (proj2 (Nat.eqb_eq _ _) E). cbn [negb].
    split; [reflexivity|]. split; [reflexivity|]. split; [exact E|].
    cbn [toggle_user User.id User.set_is_user_active User.is_user_active].
    rewrite (proj2 (Nat.eqb_eq _ _) E). rewrite negb_involutive.
    destruct x; reflexivity.
  - destruct (toggle_user user_id r) as [[u r']|].
    + destruct IH as (I1 & I2 & I3 & I4).
      cbn [map filter toggle_user]. rewrite E, I1, I2, I4. cbn [negb]. auto.
    + apply Nat.eqb_neq in E. intros [H|H]; [congruence | contradiction].
Qed.

Lemma tx_round_trip_view {S : Type} (s s' : Tx S) :
  tx_round_trip s = Some s' ->
  tx_view s' = tx_view s /\ tx_committed s' = tx_committed s.
Proof.
  unfold tx_round_trip. destruct (tx_budget s) as [[|n]|]; intros E; inversion E; auto.
Qed.

Lemma tx_commit_view {S : Type} (s : Tx S) :
  match tx_commit s with
  | Some s' => tx_committed s' = tx_view s
  | None => True
  end.
Proof.
  unfold tx_commit. destruct (tx_round_trip s) as [s'|] eqn:R; [|exact I].
  destruct (tx_round_trip_view _ R) as [V _]. exact V.
Qed.

(** X17: [toggle_user_status] changes at most the status of the one
    user it is asked for and no other column of any user, whatever the
    store does; and it changes nothing at all unless the request comes
    from the admin and names another account than the admin's own. *)
Theorem toggle_changes_one_status_of_another_user :
  forall (current_user : option User.t) (user_id : nat) (users : list User.t)
         (trips : option nat),
    let users' := users_after current_user user_id users trips in
    map user_identity users' = map user_identity users
    /\ filter (fun u => negb (User.id u =? user_id)) users'
       = filter (fun u => negb (User.id u =? user_id)) users
    /\ (users' = users
        \/ exists admin, current_user = Some admin
                         /\ User.is_admin admin = true
                         /\ User.id admin <> user_id).
Proof.
  intros current_user user_id users trips users'. subst users'.
  unfold users_after, toggle_user_status.
  destruct current_user as [admin|]; [|cbn; auto].
  destruct (User.is_admin admin) eqn:Ad; [|cbn; auto].
  cbn [negb].
  destruct (User.id admin =? user_id) eqn:Own; [cbn; auto|].
  apply Nat.eqb_neq in Own.
  destruct (tx_round_trip (tx_open users trips)) as [s1|] eqn:R; [|cbn; auto].
  destruct (tx_round_trip_view _ R) as [V C]. cbn in V, C.
  pose proof (toggle_user_spec user_id (tx_view s1)) as T.
  destruct (toggle_user user_id (tx_view s1)) as [[u users1]|].
  - destruct T as (T1 & T2 & _ & _). rewrite V in T1, T2.
    pose proof (tx_commit_view (tx_update (fun _ => users1) s1)) as K.
    destruct (tx_commit (tx_update (fun _ => users1) s1)) as [s3|].
    + cbn [fst]. rewrite K. cbn [tx_update tx_view].
      split; [exact T1|]. split; [exact T2|]. right. now exists admin.
    + cbn [fst tx_rollback tx_update tx_committed]. rewrite C. auto.
  - cbn [fst]. rewrite C. auto.
Qed.

(** X18: on a store that does not fail, asking twice for the same
    toggle brings the [user] table back to what it was. *)
Theorem toggle_twice_restores :
  forall (current_user : option User.t) (user_id : nat) (users : list User.t),
    users_after current_user user_id
      (users_after current_user user_id users None) None
    = users.
Proof.
  intros current_user user_id users.
  unfold users_after, toggle_user_status.
  destruct current_user as [admin|]; [|reflexivity].
  destruct (User.is_admin admin); [|reflexivity]. cbn [negb].
  destruct (User.id admin =? user_id); [reflexivity|].
  cbn [tx_round_trip tx_open tx_budget tx_view].
  pose proof (toggle_user_spec user_id users) as T.
  destruct (toggle_user user_id users) as [[u users1]|] eqn:E.
  - destruct T as (_ & _ & _ & T4).
    unfold tx_commit, tx_update, tx_open, tx_round_trip.
    cbn [tx_budget tx_view tx_committed fst].
    rewrite T4. reflexivity.
  - unfold tx_open. cbn [fst tx_committed tx_view]. rewrite E. reflexivity.
Qed.

(* ================================================================== *)
(** * [admin_dashboard]: the platform against its users *)

Section AdminFacts.
Context {A : Type} {AM : Amount A}.

Lemma count_owner (o : nat) (g : User.t -> nat) (users : list User.t) :
  NoDup (map User.id users) ->
  In o (map User.id users) ->
  list_sum (map (fun u => if o =? User.id u then S (g u) else g u) users)
  = S (list_sum (map g users)).
Proof.
  induction users as [|u l IH]; intros N Hin; [destruct Hin|].
  simpl in N. inversion N as [|? ? Hu Nl]; subst. simpl.
  destruct (Nat.eqb_spec o (User.id u)) as [E|E].
  - assert (M : map (fun v => if o =? User.id v then S (g v) else g v) l = map g l).
    { apply map_ext_in. intros v Hv.
      destruct (Nat.eqb_spec o (User.id v)) as [E'|E']; [|reflexivity].
      exfalso. apply Hu. rewrite <- E, E'. now apply in_map. }
    rewrite M. lia.
  - destruct Hin as [Hin|Hin]; [congruence|].
    rewrite (IH Nl Hin). lia.
Qed.

Lemma count_by_owner (users : list User.t) (l : list (Bill.t A)) :
  NoDup (map User.id users) ->
  Forall (fun b => In (Bill.user_id b) (map User.id users)) l ->
  list_sum (map (fun u => length (filter (fun b => Bill.user_id b =? User.id u) l)) users)
  = length l.
Proof.
  intros N. induction 1 as [|b l Hb F IH]; simpl.
  - clear N. induction users as [|u r IHr]; simpl; [reflexivity | exact IHr].
  - rewrite <- IH.
    rewrite <- (@count_owner (Bill.user_id b)
                  (fun u => length (filter (fun b => Bill.user_id b =? User.id u) l))
                  users N Hb).
    f_equal. apply map_ext. intros u.
    destruct (Bill.user_id b =? User.id u); reflexivity.
Qed.

End AdminFacts.

(** X19: when every bill belongs to one of the listed users and no two
    users share an id, the number of bills of the platform is the sum of
    the users' [total_bills]; and when the totals of the bills are whole
    numbers from 0 up that add up to less than 2^53, so that no addition
    rounds, the expenses of the platform are the sum of the users'
    [total_expenses]. *)
Theorem platform_totals_are_the_users_totals :
  forall (users : list User.t) (db : Db float),
    NoDup (map User.id users) ->
    Forall (fun b => In (Bill.user_id b) (map User.id users)) (bills db) ->
    let d := admin_dashboard users db in
    list_sum (map (@stats_total_bills float) (user_stats d)) = total_platform_bills d
    /\ (Forall (fun b => Whole (Bill.total_amount b)) (bills db) ->
        (sum_Z (map (fun b => whole_of (Bill.total_amount b)) (bills db)) < 2 ^ 53)%Z ->
        py_sum (map (@stats_total_expenses float) (user_stats d))
        = total_platform_expenses d).
Proof.
  intros users db N F d. subst d. unfold admin_dashboard.
  cbn [user_stats total_platform_bills total_platform_expenses].
  rewrite !map_map. unfold stats_of. cbn [stats_total_bills stats_total_expenses].
  split.
  - now apply count_by_owner.
  - intros Fw U. now apply total_by_owner_whole.
Qed.

(** Two users, three bills of 300, 50 and 20 rupees: 320 and 50 for the
    users, 370 for the platform. *)
Lemma platform_totals_are_the_users_totals_witness :
  let users := [User.mk 7 "Asha" "asha@example.org" "pbkdf2:x" None None true;
                User.mk 8 "Ravi" "ravi@example.org" "pbkdf2:y" None None false] in
  let db := mkDb [Bill.mk 1 None (mkdate 2025 1 15) 300%float 7;
                  Bill.mk 2 None (mkdate 2025 1 16) 50%float 8;
                  Bill.mk 3 None (mkdate 2025 1 17) 20%float 7] [] in
  let d := admin_dashboard users db in
  (NoDup (map User.id users)
   /\ Forall (fun b => In (Bill.user_id b) (map User.id users)) (bills db)
   /\ Forall (fun b => Whole (Bill.total_amount b)) (bills db)
   /\ (sum_Z (map (fun b => whole_of (Bill.total_amount b)) (bills db)) < 2 ^ 53)%Z)
  /\ map (@stats_total_expenses float) (user_stats d) = [320%float; 50%float]
  /\ list_sum (map (@stats_total_bills float) (user_stats d)) = total_platform_bills d
  /\ py_sum (map (@stats_total_expenses float) (user_stats d))
     = total_platform_expenses d.
Proof.
  intros users db d.
  assert (N : NoDup (map User.id users)).
  { unfold users. simpl. constructor; [intros [H|[]]; discriminate|].
    constructor; [intros []|]. constructor. }
  assert (F : Forall (fun b => In (Bill.user_id b) (map User.id users)) (bills db)).
  { unfold users, db. simpl.
    repeat (apply Forall_cons; [simpl; auto|]). apply Forall_nil. }
  assert (W : forall x : float,
             ((0 <=? whole_of x) && (whole_of x <? 2 ^ 53))%Z = true ->
             Prim2SF x = whole_sf (whole_of x) -> Whole x).
  { intros x R E. apply andb_prop in R. destruct R as [R1 R2].
    apply Z.leb_le in R1. apply Z.ltb_lt in R2. split; [split|]; assumption. }
  assert (Fw : Forall (fun b => Whole (Bill.total_amount b)) (bills db)).
  { unfold db. cbn [bills].
    repeat (apply Forall_cons; [apply W; vm_compute; reflexivity|]). apply Forall_nil. }
  assert (U : (sum_Z (map (fun b => whole_of (Bill.total_amount b)) (bills db)) < 2 ^ 53)%Z).
  { vm_compute. reflexivity. }
  split; [auto|]. split; [vm_compute; reflexivity|].
  destruct (platform_totals_are_the_users_totals users db N F) as [Cnt Tot].
  split; [exact Cnt|]. exact (Tot Fw U).
Defined.

(* ================================================================== *)
(** * [add_bulk_expenses] *)

(** X20: [add_bulk_expenses] never reaches its [try] block.
    [populate_form_choices] assigns to [form.category] after its first
    query, and [BulkExpenseForm] defines no such field: on every
    request, whatever the form holds and whatever the store does, the
    exception escapes the view, with nothing stored and nothing flashed.
    On a form of the class [ComprehensiveExpenseForm] and a store that
    does not fail [populate_form_choices] returns, the tables
    untouched. *)
Theorem bulk_add_never_stores :
  forall (A : Type) (AM : Amount A) (PL : PyLib A) (uid : nat)
         (form : BulkExpenseForm) (db : Ledger A),
    (forall trips : option nat,
       exists s : Tx (Ledger A),
         add_bulk_expenses uid form (tx_open db trips) = TxUncaught s
         /\ tx_committed s = db
         /\ bulk_durable (add_bulk_expenses uid form (tx_open db trips)) = db
         /\ bulk_flashes (add_bulk_expenses uid form (tx_open db trips)) = [])
    /\ exists s : Tx (Ledger A),
         populate_form_choices ComprehensiveExpenseForm_class (tx_open db None) = inr s
         /\ tx_committed s = db /\ tx_view s = db.
Proof.
  intros A AM PL uid form db. split.
  - intros trips. unfold add_bulk_expenses, populate_form_choices.
    destruct (tx_round_trip (tx_open db trips)) as [s1|] eqn:R.
    + cbn [BulkExpenseForm_class has_category].
      exists s1. destruct (tx_round_trip_view _ R) as [_ C]. cbn in C.
      cbn [bulk_durable bulk_flashes]. auto.
    + exists (tx_open db trips). cbn. auto.
  - exists (tx_open db None). cbn. auto.
Qed.

(* ================================================================== *)
(** * [init_expense_categories] *)

Section CategoryFacts.
Context {A : Type}.

Lemma category_named_In (name : string) (rows : list ExpenseCategory.t) :
  category_named name rows <> None <-> In name (map ExpenseCategory.name rows).
Proof.
  unfold category_named. induction rows as [|r rows IH]; simpl.
  - split; [congruence | intros []].
  - destruct (String.eqb_spec (ExpenseCategory.name r) name) as [E|E].
    + split; [auto | congruence].
    + rewrite IH. split; [auto | intros [H|H]; [congruence | exact H]].
Qed.

Lemma init_categories_fault_free (categories : list CategoryData) :
  forall c l : Ledger A,
    init_categories categories (mkTx c l None)
    = Some (mkTx c (fold_left init_step categories l) None).
Proof.
  induction categories as [|cd rest IH]; intros c l; simpl; [reflexivity|].
  unfold init_step at 2.
  destruct (category_named (data_name cd) (category_rows l)); apply IH.
Qed.

(** What the loop adds: rows for the names that were missing, each
    once. *)
Lemma init_steps_add (categories : list CategoryData) :
  forall l : Ledger A,
    expense_rows (fold_left init_step categories l) = expense_rows l
    /\ exists added,
         category_rows (fold_left init_step categories l) = category_rows l ++ added
         /\ Forall (fun r => ~ In (ExpenseCategory.name r)
                               (map ExpenseCategory.name (category_rows l))
                             /\ In (ExpenseCategory.name r) (map data_name categories))
              added
         /\ NoDup (map ExpenseCategory.name added).
Proof.
  induction categories as [|cd rest IH]; intros l; simpl.
  - split; [reflexivity|]. exists []. rewrite app_nil_r. repeat split; constructor.
  - destruct (IH (init_step l cd)) as (E & added & C & F & N).
    unfold init_step in *.
    destruct (category_named (data_name cd) (category_rows l)) eqn:Q.
    + split; [exact E|]. exists added. split; [exact C|]. split; [|exact N].
      rewrite Forall_forall in *. intros r Hr. destruct (F r Hr). auto.
    + cbn [add_category expense_rows category_rows] in *.
      split; [exact E|]. eexists (_ :: added).
      rewrite C, <- app_assoc. split; [reflexivity|].
      assert (Free : ~ In (data_name cd) (map ExpenseCategory.name (category_rows l))).
      { intros H. apply category_named_In in H. congruence. }
      split.
      * constructor; [cbn; auto|].
        rewrite Forall_forall in *. intros r Hr. destruct (F r Hr) as [F1 F2].
        rewrite map_app, in_app_iff in F1. split; [tauto | now right].
      * cbn [map ExpenseCategory.name]. constructor; [|exact N].
        intros H. apply in_map_iff in H. destruct H as (r & Er & Hr).
        rewrite Forall_forall in F. destruct (F r Hr) as [F1 _].
        apply F1. rewrite map_app, in_app_iff. right. cbn. left. now rewrite Er.
Qed.

Lemma init_steps_keep_names (categories : list CategoryData) :
  forall (l : Ledger A) (name : string),
    In name (map ExpenseCategory.name (category_rows l)) ->
    In name (map ExpenseCategory.name (category_rows (fold_left init_step categories l))).
Proof.
  intros l name H.
  destruct (init_steps_add categories l) as (_ & added & C & _).
  rewrite C, map_app, in_app_iff. now left.
Qed.

Lemma init_steps_complete (categories : list CategoryData) :
  forall l : Ledger A,
    Forall (fun cd => In (data_name cd)
                        (map ExpenseCategory.name
                           (category_rows (fold_left init_step categories l))))
      categories.
Proof.
  induction categories as [|cd rest IH]; intros l; simpl; constructor.
  - apply init_steps_keep_names. unfold init_step.
    destruct (category_named (data_name cd) (category_rows l)) eqn:Q.
    + apply category_named_In. congruence.
    + cbn. rewrite map_app, in_app_iff. right. now left.
  - apply IH.
Qed.

Lemma init_steps_nothing_to_do (categories : list CategoryData) :
  forall l : Ledger A,
    Forall (fun cd => In (data_name cd) (map ExpenseCategory.name (category_rows l)))
      categories ->
    fold_left init_step categories l = l.
Proof.
  induction categories as [|cd rest IH]; intros l F; simpl; [reflexivity|].
  inversion F as [|? ? H F']; subst.
  unfold init_step at 2. apply category_named_In in H.
  destruct (category_named (data_name cd) (category_rows l)); [|congruence].
  now apply IH.
Qed.
End CategoryFacts.

(** X23: [init_expense_categories], which runs at every start, is safe
    to repeat.  On a store that does not fail it returns; it leaves the
    expenses and the categories already stored as they are and appends
    a row for each name of [COMPREHENSIVE_EXPENSE_CATEGORIES] that no
    stored category has, each once; afterwards every one of the ten
    names is stored, and a second run changes nothing. *)
Theorem init_expense_categories_is_idempotent :
  forall (A : Type) (db : Ledger A),
  exists s1 s2 : Tx (Ledger A),
    init_expense_categories (tx_open db None) = Some s1
    /\ expense_rows (tx_committed s1) = expense_rows db
    /\ (exists added,
          category_rows (tx_committed s1) = category_rows db ++ added
          /\ Forall (fun r => ~ In (ExpenseCategory.name r)
                                (map ExpenseCategory.name (category_rows db)))
               added
          /\ NoDup (map ExpenseCategory.name added))
    /\ Forall (fun cd => In (data_name cd)
                           (map ExpenseCategory.name (category_rows (tx_committed s1))))
         COMPREHENSIVE_EXPENSE_CATEGORIES
    /\ init_expense_categories (tx_open (tx_committed s1) None) = Some s2
    /\ tx_committed s2 = tx_committed s1.
Proof.
  intros A db.
  set (db1 := fold_left init_step COMPREHENSIVE_EXPENSE_CATEGORIES db).
  assert (R : forall l : Ledger A,
             init_expense_categories (tx_open l None)
             = Some (mkTx (fold_left init_step COMPREHENSIVE_EXPENSE_CATEGORIES l)
                       (fold_left init_step COMPREHENSIVE_EXPENSE_CATEGORIES l) None)).
  { intros l. unfold init_expense_categories, tx_open.
    rewrite init_categories_fault_free. reflexivity. }
  exists (mkTx db1 db1 None), (mkTx db1 db1 None).
  split; [apply R|]. cbn [tx_committed].
  destruct (init_steps_add COMPREHENSIVE_EXPENSE_CATEGORIES db) as (E & added & C & F & N).
  fold db1 in E, C.
  split; [exact E|]. split.
  { exists added. split; [exact C|]. split; [|exact N].
    rewrite Forall_forall in *. intros r Hr. now destruct (F r Hr). }
  pose proof (init_steps_complete COMPREHENSIVE_EXPENSE_CATEGORIES db) as K.
  fold db1 in K. split; [exact K|].
  rewrite R, (@init_steps_nothing_to_do A COMPREHENSIVE_EXPENSE_CATEGORIES db1 K). auto.
Qed.

(* ================================================================== *)
(** * The success message of [add_bill] *)

Section AddBillFlash.
Context {A : Type} {AM : Amount A} {PL : PyLib A}.

Lemma fertilizers_of_items (bid : nat) (ls : list (Line A)) :
  filter (fun f => match Fertilizer.bill_id f with
                   | Some i => i =? bid
                   | None => false
                   end) (map (item_of bid) ls)
  = map (item_of bid) ls.
Proof.
  induction ls as [|l ls IH]; simpl; [reflexivity|].
  rewrite Nat.eqb_refl. now f_equal.
Qed.
End AddBillFlash.

(** X24: the success message of [add_bill] describes the bill that has
    become durable.  Whenever [add_bill] flashes "Bill added successfully
    with n fertilizers! Total: t", with or without faults of the store
    before, exactly one bill of the user and [n] items under its id have
    been added to the stored rows, the total of the bill is the sum of
    the prices stored under its id, and [t] is that total with two
    decimals. *)
Theorem add_bill_flash_describes_the_bill :
  forall (A : Type) (AM : Amount A) (PL : PyLib A) (uid : nat) (form : BillForm)
         (db : Db A) (trips : option nat) (n : nat) (t : string),
    let r := add_bill uid form (open_session db trips) in
    In (FlashBillAdded n t) (snd r) ->
    exists (b : Bill.t A) (items : list (Fertilizer.t A)),
      bills (committed (fst r)) = bills db ++ [b]
      /\ fertilizers (committed (fst r)) = fertilizers db ++ items
      /\ length items = n
      /\ Forall (fun f => Fertilizer.bill_id f = Some (Bill.id b)) items
      /\ Bill.user_id b = uid
      /\ consistent (committed (fst r)) b
      /\ format_2f (Bill.total_amount b) = t.
Proof.
  intros A AM PL uid form db trips n t r. subst r.
  unfold add_bill, add_bill_try.
  assert (NoFlash : forall s : Session A,
             In (FlashBillAdded n t) (snd (rollback s, [FlashBillError])) -> False).
  { intros s [H|[]]. discriminate. }
  destruct (match form_purchase_date form with
            | Some (String c r) => strptime_ymd (String c r)
            | _ => Some today
            end) as [d|]; [|intros H; now apply NoFlash in H].
  unfold add_bill_flush.
  destruct (round_trip (open_session db trips)) as [s0|] eqn:R0;
    [|intros H; now apply NoFlash in H].
  destruct (round_trip_view _ R0) as [V0 C0]. cbn in V0, C0.
  cbn [Bill.bill_number Bill.purchase_date Bill.total_amount Bill.user_id].
  rewrite (add_bill_items_spec form (next_bill_id (view s0))
             (strip (form_bill_number form)) d).
  destruct (form_lines form (strip (form_bill_number form)) d 0 (fertilizer_names form))
    as [ls|]; [|intros H; now apply NoFlash in H].
  cbn [committed view budget bills fertilizers].
  rewrite calculate_total_eq.
  match goal with |- context [round_trip ?s] =>
    destruct (round_trip s) as [s2|] eqn:R2 end.
  - destruct (round_trip_view _ R2) as [V2 C2].
    cbn [view committed] in V2, C2.
    cbv zeta. unfold commit, set_total.
    cbn [budget view committed bills fertilizers].
    match goal with |- context [round_trip ?s] =>
      destruct (round_trip s) as [s4|] eqn:R4 end;
      [|intros H; now apply NoFlash in H].
    destruct (round_trip_view _ R4) as [V4 C4].
    cbn [view committed] in V4, C4.
    cbn [fst snd committed]. intros [H|[]]. inversion H; subst n t. clear H.
    rewrite V4, V2. cbn [bills fertilizers]. rewrite V0.
    rewrite set_total_last by apply bill_ids_below_next.
    eexists. exists (map (item_of (next_bill_id db)) ls).
    split; [reflexivity|]. split; [reflexivity|].
    split; [now rewrite length_map|].
    split.
    { rewrite Forall_forall. intros f Hf. apply in_map_iff in Hf.
      destruct Hf as (l & <- & _). reflexivity. }
    split; [reflexivity|]. split; [|reflexivity].
    unfold consistent. cbn [Bill.id Bill.total_amount].
    unfold fertilizers_of. cbn [fertilizers]. reflexivity.
  - cbv zeta. unfold commit, set_total.
    cbn [budget view committed bills fertilizers].
    assert (D : round_trip
                  (mkSession (committed s0)
                     (mkDb (map (fun b => if Bill.id b =? next_bill_id (view s0)
                                          then Bill.set_total_amount num_zero b else b)
                              (bills (view s0)
                               ++ [Bill.mk (next_bill_id (view s0))
                                     (none_if_empty (strip (form_bill_number form)))
                                     d num_zero uid]))
                        (fertilizers (view s0)
                         ++ map (item_of (next_bill_id (view s0))) ls))
                     (budget s0)) = None).
    { unfold round_trip in *. cbn [budget] in *.
      destruct (budget s0) as [[|k]|]; [reflexivity | discriminate R2 | discriminate R2]. }
    rewrite D. intros H; now apply NoFlash in H.
Qed.

Lemma add_bill_flash_describes_the_bill_witness :
  let PL := py_lib (mkdate 2025 1 20) in
  let form := mkBillForm "B-7" (Some "2025-01-15") ["Urea A"; "DAP B"]
                ["Urea"; "DAP"] ["350"; "1200.5"] in
  let r := add_bill (PL := PL) 7 form (open_session empty_db (Some 5)) in
  In (FlashBillAdded 2 "1550.50") (snd r)
  /\ exists (b : Bill.t float) (items : list (Fertilizer.t float)),
       bills (committed (fst r)) = bills (@empty_db float) ++ [b]
       /\ fertilizers (committed (fst r)) = fertilizers (@empty_db float) ++ items
       /\ length items = 2
       /\ Forall (fun f => Fertilizer.bill_id f = Some (Bill.id b)) items
       /\ Bill.user_id b = 7
       /\ consistent (committed (fst r)) b
       /\ format_2f (PyLib := PL) (Bill.total_amount b) = "1550.50".
Proof.
  intros PL form r.
  assert (H : In (FlashBillAdded 2 "1550.50") (snd r)).
  { vm_compute. left. reflexivity. }
  split; [exact H|].
  exact (@add_bill_flash_describes_the_bill float float_Amount PL 7 form empty_db
           (Some 5) 2 "1550.50" H).
Defined.

(* ================================================================== *)
(** * [register] *)

Section RegisterFacts.
Context {A : Type} {PL : PyLib A} {PS : PyStr}.

Lemma find_email_none (email : string) (users : list User.t) :
  find (fun u => String.eqb (User.email u) email) users = None ->
  ~ In email (map User.email users).
Proof.
  induction users as [|u l IH]; simpl; [tauto|].
  destruct (String.eqb_spec (User.email u) email) as [E|E]; [discriminate|].
  intros F [H|H]; [congruence | now apply IH].
Qed.
End RegisterFacts.

(** X25: [register] keeps the addresses of the [user] table distinct.
    Whatever the store does, the table afterwards is the table before
    with at most one user appended; an appended user is active, has the
    stripped and lower-cased address of the form, and no stored user had
    that address; so a table without two users of one address stays
    one. *)
Theorem register_keeps_addresses_unique :
  forall (A : Type) (PL : PyLib A) (PS : PyStr) (form : RegisterForm)
         (password_hash : string) (users : list User.t) (trips : option nat),
    NoDup (map User.email users) ->
    let users' := registered form password_hash users trips in
    NoDup (map User.email users')
    /\ exists added,
         users' = users ++ added
         /\ length added <= 1
         /\ Forall (fun u => User.email u = register_address form
                             /\ User.is_user_active u = true
                             /\ ~ In (User.email u) (map User.email users))
              added.
Proof.
  intros A PL PS form password_hash users trips N users'. subst users'.
  unfold registered, register.
  assert (Same : NoDup (map User.email users)
                 /\ exists added,
                      users = users ++ added /\ length added <= 1
                      /\ Forall (fun u => User.email u = register_address form
                                          /\ User.is_user_active u = true
                                          /\ ~ In (User.email u) (map User.email users))
                           added).
  { split; [exact N|]. exists []. rewrite app_nil_r. repeat split; auto. }
  destruct (tx_round_trip (tx_open users trips)) as [s1|] eqn:R; [|exact Same].
  destruct (tx_round_trip_view _ R) as [V C]. cbn in V, C.
  destruct (find (fun u => String.eqb (User.email u) (register_address form))
              (tx_view s1)) as [u|] eqn:F.
  - cbn [fst]. rewrite C. exact Same.
  - rewrite V in F. apply find_email_none in F.
    match goal with |- context [tx_commit ?s2] =>
      pose proof (tx_commit_view s2) as K; destruct (tx_commit s2) as [s3|] end.
    + cbn [fst]. rewrite K. cbn [tx_update tx_view]. rewrite V. split.
      * rewrite map_app. apply NoDup_app; [exact N | | ].
        { cbn. constructor; [intros []|constructor]. }
        { intros x Hx [<-|[]]. now apply F. }
      * eexists [_]. split; [reflexivity|]. split; [cbn; lia|].
        constructor; [|constructor]. cbn. auto.
    + cbn [fst tx_rollback tx_update tx_committed]. rewrite C. exact Same.
Qed.

Lemma register_keeps_addresses_unique_witness :
  let PL := py_lib (mkdate 2025 1 20) in
  let users := [User.mk 7 "Asha" "asha@example.org" "pbkdf2:x" None None true] in
  let form := mkRegisterForm (Some "Ravi") (Some " Ravi@Example.org ")
                (Some "Green Acres") None in
  let users' := registered (PL := PL) (PS := py_str) form "pbkdf2:y" users None in
  NoDup (map User.email users)
  /\ NoDup (map User.email users')
  /\ exists added,
       users' = users ++ added
       /\ length added <= 1
       /\ Forall (fun u => User.email u
                           = register_address (PL := PL) (PS := py_str) form
                           /\ User.is_user_active u = true
                           /\ ~ In (User.email u) (map User.email users))
            added.
Proof.
  intros PL users form users'.
  assert (N : NoDup (map User.email users)).
  { unfold users. cbn. constructor; [intros []|constructor]. }
  split; [exact N|].
  exact (@register_keeps_addresses_unique float PL py_str form "pbkdf2:y" users None N).
Defined.

Example register_sample :
  registered (PL := py_lib (mkdate 2025 1 20)) (PS := py_str)
    (mkRegisterForm (Some "Ravi") (Some " Ravi@Example.org ") (Some "Green Acres") None)
    "pbkdf2:y" [User.mk 7 "Asha" "asha@example.org" "pbkdf2:x" None None true] None
  = [User.mk 7 "Asha" "asha@example.org" "pbkdf2:x" None None true;
     User.mk 8 "Ravi" "ravi@example.org" "pbkdf2:y" (Some "Green Acres") None true].
Proof. vm_compute. reflexivity. Qed.

(** The analysis on a day and with fields that let it through. *)
Example analysis_sample :
  analyze_expenses (PL := py_lib (mkdate 2025 6 15)) (GM := canned_gemini "Buy in bulk.")
    [sample_expense (mkdate 2025 6 1)] [Field.mk (Some 2%float) true] None
  = "Buy in bulk.".
Proof. vm_compute. reflexivity. Qed.

(** A bulk form of three entries on a store that does not fail: the
    [AttributeError] escapes, no expense is stored. *)
Example bulk_sample :
  add_bulk_expenses (PL := py_lib (mkdate 2025 6 20)) 7
    (sample_bulk_form "1850.50") (tx_open sample_ledger None)
  = TxUncaught (tx_open sample_ledger None).
Proof. vm_compute. reflexivity. Qed.

(** The sample file of [download_sample_csv] goes through [import_data]
    without a row error: two bills of two items, 1550.00 and 1450.00. *)
Example sample_csv_imports :
  forall (uid : nat) (now : date),
    import_data (PL := py_lib now) uid sample_data (open_session empty_db None)
    = let db' :=
        mkDb [Bill.mk 1 (Some "BILL-001") (mkdate 2025 1 15) 1550%float uid;
              Bill.mk 2 (Some "BILL-002") (mkdate 2025 1 16) 1450%float uid]
             [Fertilizer.mk "Coromandel Urea" 350%float "Urea" (Some 1);
              Fertilizer.mk "IFFCO DAP" 1200%float "DAP" (Some 1);
              Fertilizer.mk "Krishak NPK" 850%float "NPK" (Some 2);
              Fertilizer.mk "MOP Fertilizer" 600%float "MOP" (Some 2)] in
      Returned (mkImportState (mkSession db' db' None) 2 4 []
                  (Some 2) (Some "2025-01-16_BILL-002"),
                [FlashImported 2 4]).
Proof. intros uid now. vm_compute. reflexivity. Qed.
